(** * Arena ball game: round state machine, physics timing and win resolution

    A shallow embedding of the game's zustand stores and of the per-frame
    callbacks of its React components, with the properties the design
    document states about them.

    Conventions of the embedding.
    - JavaScript numbers that hold counters are [nat]; wall-clock
      timestamps ([Date.now()]) are [Z]; every other number (times in
      seconds, coordinates, scales, masses) is an exact rational [Q], so
      the arithmetic below is the arithmetic of the source formulas
      without binary64 rounding.  A constant quotient such as [1/60] is
      written as the fraction [1 # 60].  The fixed-step loop is embedded
      a second time with the rounding of every operation as a parameter
      ([PhysicsWorldRounded]), because the number of its steps depends
      on the roundings; [Binary64.round] is that rounding in the
      program, the identity gives back the exact embedding.  Values the
      source obtains from
      [Math.random], [Math.sin] or [Math.cos] are arguments of the
      functions that use them, and the comparison of a square root with
      a constant is the comparison of the squares.
    - A zustand store is a record; an action is a function from the
      record to the new record (and a result, when the action returns
      one).  [Date.now()], [performance.now()] and [Math.random()] are
      explicit arguments.
    - React state is kept twice: the value the closures of the last
      render captured, and the value the queued updates have produced;
      refs are read and written immediately. *)

From Stdlib Require Import ZArith QArith Qminmax Qpower List Bool Lia Lqa String PeanoNat.
From stdpp Require Import gmap.
Import ListNotations.

Local Open Scope Q_scope.

(** ** Vectors of the physics and rendering libraries *)

Record Vec3 : Type := mkVec3 { vx : Q; vy : Q; vz : Q }.

Definition vzero : Vec3 := mkVec3 0 0 0.

(** ** The score store ([useAIBallsStore]) *)

Module AIBallsStore.

Inductive WinReason : Type := primary | most_powerups | tiebreaker.

Record AIBallEntry : Type := mkAIBallEntry {
  id : nat;
  position : Vec3;
  powerUpsCollected : nat;
  collectionTimestamps : list Z;
  color : string
}.

Record AIBallsState : Type := mkAIBallsState {
  aiBalls : list AIBallEntry;
  playerPowerUpsCollected : nat;
  playerCollectionTimestamps : list Z
}.

(** The value of [getWinnerBySecondaryCondition]; [playerWasInTie] is an
    optional field of the object the source returns. *)
Record Winner : Type := mkWinner {
  w_id : nat;
  w_isPlayer : bool;
  w_color : string;
  w_reason : WinReason;
  w_powerupsCount : nat;
  w_playerWasInTie : option bool
}.

(** An element of the local array [topCollectors]. *)
Record Collector : Type := mkCollector {
  c_id : nat;
  c_isPlayer : bool;
  c_color : string;
  c_count : nat;
  c_lastTimestamp : Z
}.

Definition playerColor : string := "#1e88e5"%string.

Definition initialState : AIBallsState := mkAIBallsState [] 0 [].

Definition resetBalls (s : AIBallsState) : AIBallsState :=
  {| playerPowerUpsCollected := 0;
     playerCollectionTimestamps := [];
     aiBalls := List.map (fun ball =>
                  {| id := id ball;
                     position := position ball;
                     powerUpsCollected := 0;
                     collectionTimestamps := [];
                     color := color ball |}) (aiBalls s) |}.

Definition registerBall (i : nat) (p : Vec3) (c : string)
    (s : AIBallsState) : AIBallsState :=
  let existingBall := List.find (fun ball => Nat.eqb (id ball) i) (aiBalls s) in
  let count := match existingBall with
               | Some b => powerUpsCollected b | None => 0%nat end in
  let stamps := match existingBall with
                | Some b => collectionTimestamps b | None => [] end in
  let updatedBalls :=
    List.filter (fun ball => negb (Nat.eqb (id ball) i)) (aiBalls s) in
  {| aiBalls := updatedBalls ++ [mkAIBallEntry i p count stamps c];
     playerPowerUpsCollected := playerPowerUpsCollected s;
     playerCollectionTimestamps := playerCollectionTimestamps s |}.

(** [incrementPowerUps id]: [now] is the value of [Date.now()].  The flag
    is assigned inside the [map] callback, so it keeps the value of the
    last ball with that id. *)
Definition incrementPowerUps (i : nat) (now : Z)
    (s : AIBallsState) : AIBallsState * bool :=
  let updatedBalls := List.map (fun ball =>
      if Nat.eqb (id ball) i
      then {| id := id ball;
              position := position ball;
              powerUpsCollected := powerUpsCollected ball + 1;
              collectionTimestamps := collectionTimestamps ball ++ [now];
              color := color ball |}
      else ball) (aiBalls s) in
  let isWinner := List.fold_left (fun w ball =>
      if Nat.eqb (id ball) i
      then Nat.leb 5 (powerUpsCollected ball + 1) else w) (aiBalls s) false in
  ({| aiBalls := updatedBalls;
      playerPowerUpsCollected := playerPowerUpsCollected s;
      playerCollectionTimestamps := playerCollectionTimestamps s |},
   isWinner).

Definition incrementPlayerPowerUps (now : Z)
    (s : AIBallsState) : AIBallsState * bool :=
  let newCount := (playerPowerUpsCollected s + 1)%nat in
  ({| aiBalls := aiBalls s;
      playerPowerUpsCollected := newCount;
      playerCollectionTimestamps := playerCollectionTimestamps s ++ [now] |},
   Nat.leb 5 newCount).

Definition getTotalPowerupsCollected (s : AIBallsState) : nat :=
  List.fold_left (fun total ball => (total + powerUpsCollected ball)%nat)
    (aiBalls s) (playerPowerUpsCollected s).

Definition getMaxPowerupsCollected (s : AIBallsState) : nat :=
  List.fold_left (fun max ball =>
      if Nat.ltb max (powerUpsCollected ball)
      then powerUpsCollected ball else max)
    (aiBalls s) (playerPowerUpsCollected s).

(** [stamps[count - 1] || 0]: index [-1] and an index past the end read
    [undefined], which [||] turns into 0. *)
Definition stampAt (stamps : list Z) (count : nat) : Z :=
  match count with
  | O => 0%Z
  | S k => List.nth k stamps 0%Z
  end.

(** [Array.prototype.sort] with the comparator
    [a.lastTimestamp - b.lastTimestamp].  The sort of the language is
    stable; insertion from the right with [<=] is the stable sort of a
    list by this key. *)
Fixpoint insertByTimestamp (c : Collector) (l : list Collector) : list Collector :=
  match l with
  | [] => [c]
  | d :: l' =>
      if Z.leb (c_lastTimestamp c) (c_lastTimestamp d)
      then c :: d :: l'
      else d :: insertByTimestamp c l'
  end.

Definition sortByTimestamp (l : list Collector) : list Collector :=
  List.fold_right insertByTimestamp [] l.

Definition playerCollector (s : AIBallsState) (maxPowerups : nat) : Collector :=
  {| c_id := 0;
     c_isPlayer := true;
     c_color := playerColor;
     c_count := maxPowerups;
     c_lastTimestamp :=
       stampAt (playerCollectionTimestamps s) (playerPowerUpsCollected s) |}.

Definition ballCollector (ball : AIBallEntry) (maxPowerups : nat) : Collector :=
  {| c_id := id ball;
     c_isPlayer := false;
     c_color := color ball;
     c_count := maxPowerups;
     c_lastTimestamp :=
       stampAt (collectionTimestamps ball) (powerUpsCollected ball) |}.

(** The two blocks that fill [topCollectors]: the player first, then the
    [forEach] over the AI balls, each pushing at the end. *)
Definition topCollectorsOf (s : AIBallsState) (maxPowerups : nat) : list Collector :=
  let start :=
    if Nat.eqb (playerPowerUpsCollected s) maxPowerups
    then [playerCollector s maxPowerups] else [] in
  List.fold_left (fun top ball =>
      if Nat.eqb (powerUpsCollected ball) maxPowerups
      then top ++ [ballCollector ball maxPowerups] else top)
    (aiBalls s) start.

Definition getWinnerBySecondaryCondition (s : AIBallsState) : option Winner :=
  if Nat.leb 5 (playerPowerUpsCollected s) then
    Some {| w_id := 0; w_isPlayer := true; w_color := playerColor;
            w_reason := primary;
            w_powerupsCount := playerPowerUpsCollected s;
            w_playerWasInTie := None |}
  else
    match List.find (fun ball => Nat.leb 5 (powerUpsCollected ball)) (aiBalls s) with
    | Some ball =>
        Some {| w_id := id ball; w_isPlayer := false; w_color := color ball;
                w_reason := primary;
                w_powerupsCount := powerUpsCollected ball;
                w_playerWasInTie := None |}
    | None =>
        let maxPowerups := getMaxPowerupsCollected s in
        if Nat.eqb maxPowerups 0 then None
        else
          let topCollectors := topCollectorsOf s maxPowerups in
          match topCollectors with
          | [] => None
          | [only] =>
              Some {| w_id := c_id only; w_isPlayer := c_isPlayer only;
                      w_color := c_color only;
                      w_reason := most_powerups;
                      w_powerupsCount := maxPowerups;
                      w_playerWasInTie := None |}
          | _ =>
              let sorted := sortByTimestamp topCollectors in
              let playerWasInTie := List.existsb c_isPlayer sorted in
              match sorted with
              | first :: _ =>
                  Some {| w_id := c_id first; w_isPlayer := c_isPlayer first;
                          w_color := c_color first;
                          w_reason := tiebreaker;
                          w_powerupsCount := maxPowerups;
                          w_playerWasInTie := Some playerWasInTie |}
              | [] => None
              end
          end
    end.

(** *** Notions the design document uses for the resolver

    The entities of a round are the player followed by the AI balls in
    the order of the store's array. *)

Record Entity : Type := mkEntity {
  e_id : nat;
  e_isPlayer : bool;
  e_color : string;
  e_count : nat;
  e_stamps : list Z
}.

Definition playerEntity (s : AIBallsState) : Entity :=
  mkEntity 0 true playerColor
    (playerPowerUpsCollected s) (playerCollectionTimestamps s).

Definition ballEntity (ball : AIBallEntry) : Entity :=
  mkEntity (id ball) false (color ball)
    (powerUpsCollected ball) (collectionTimestamps ball).

Definition entities (s : AIBallsState) : list Entity :=
  playerEntity s :: List.map ballEntity (aiBalls s).

(** The maximum per-entity count. *)
Definition maxCount (s : AIBallsState) : nat :=
  list_max (List.map e_count (entities s)).

(** The entities that hold the maximum, in visiting order. *)
Definition holders (s : AIBallsState) : list Entity :=
  List.filter (fun e => Nat.eqb (e_count e) (maxCount s)) (entities s).

(** The timestamp of the collection that brought an entity to its
    current count (its N-th collection, N its count). *)
Definition reachedAt (e : Entity) : Z :=
  List.nth (e_count e - 1) (e_stamps e) 0%Z.

Definition winnerOf (e : Entity) (r : WinReason) (tie : option bool) : Winner :=
  mkWinner (e_id e) (e_isPlayer e) (e_color e) r (e_count e) tie.

(** The element of [topCollectors] that stands for an entity. *)
Definition collectorOf (m : nat) (e : Entity) : Collector :=
  mkCollector (e_id e) (e_isPlayer e) (e_color e) m
    (stampAt (e_stamps e) (e_count e)).

(** Every list of timestamps has one entry per collection: the invariant
    of the states the store's actions produce. *)
Definition stampsMatchCounts (s : AIBallsState) : Prop :=
  length (playerCollectionTimestamps s) = playerPowerUpsCollected s /\
  Forall (fun ball => length (collectionTimestamps ball) = powerUpsCollected ball)
    (aiBalls s).

(** Two states that differ at most in their collection timestamps. *)
Definition sameScores (s1 s2 : AIBallsState) : Prop :=
  playerPowerUpsCollected s1 = playerPowerUpsCollected s2 /\
  List.map (fun b => (id b, color b, powerUpsCollected b)) (aiBalls s1) =
  List.map (fun b => (id b, color b, powerUpsCollected b)) (aiBalls s2).

(** The cap is reached with the player and AI ball 2 tied at four: the
    player reached four at 1000, the AI ball at 900. *)
Definition tiedRound : AIBallsState :=
  mkAIBallsState
    [mkAIBallEntry 1 vzero 2 [10; 20]%Z "#FF0000";
     mkAIBallEntry 2 vzero 4 [100; 200; 300; 900]%Z "#0000FF";
     mkAIBallEntry 3 vzero 2 [12; 22]%Z "#00FF00"]
    4 [50; 150; 250; 1000]%Z.

(** Two AI balls at five or more at once, the later one in the array
    having reached five first. *)
Definition doublePrimary : AIBallsState :=
  mkAIBallsState
    [mkAIBallEntry 1 vzero 1 [10]%Z "#FF0000";
     mkAIBallEntry 2 vzero 5 [100; 200; 300; 400; 900]%Z "#0000FF";
     mkAIBallEntry 3 vzero 6 [11; 21; 31; 41; 51; 61]%Z "#00FF00"]
    0 [].

End AIBallsStore.

(** ** Comparisons of numbers as the source writes them *)

Definition Qltb (a b : Q) : bool := negb (Qle_bool b a).
Definition Qgeb (a b : Q) : bool := Qle_bool b a.

(** ** The pause-safe physics clock ([usePhysicsClock]) *)

Module PhysicsClock.

Record PhysicsClockState : Type := mkPhysicsClockState {
  lastTimestamp : Q;
  isPaused : bool;
  accumulatedTime : Q;
  pauseStartTime : option Q;
  isFirstFrameAfterResume : bool
}.

Definition initialState : PhysicsClockState :=
  mkPhysicsClockState 0 false 0 None false.

Definition safeMinimalDelta : Q := 1 # 120.
Definition MAX_DELTA : Q := 1 # 30.

(** [setPaused paused]; [now] is the value of [performance.now()]. *)
Definition setPaused (paused : bool) (now : Q)
    (s : PhysicsClockState) : PhysicsClockState :=
  let currentTime := now / 1000 in
  if negb (Bool.eqb paused (isPaused s)) then
    if paused then
      {| lastTimestamp := lastTimestamp s;
         isPaused := true;
         accumulatedTime := accumulatedTime s;
         pauseStartTime := Some currentTime;
         isFirstFrameAfterResume := isFirstFrameAfterResume s |}
    else
      {| lastTimestamp := currentTime;
         isPaused := false;
         accumulatedTime := accumulatedTime s;
         pauseStartTime := None;
         isFirstFrameAfterResume := true |}
  else s.

Definition reset (now : Q) (s : PhysicsClockState) : PhysicsClockState :=
  {| lastTimestamp := now / 1000;
     isPaused := false;
     accumulatedTime := 0;
     pauseStartTime := None;
     isFirstFrameAfterResume := false |}.

(** [tick currentTime]: the new store and the delta handed to physics. *)
Definition tick (currentTime : Q)
    (s : PhysicsClockState) : PhysicsClockState * Q :=
  let currentTime := currentTime / 1000 in
  if isPaused s then (s, 0)
  else if isFirstFrameAfterResume s then
    ({| lastTimestamp := currentTime;
        isPaused := isPaused s;
        accumulatedTime := accumulatedTime s;
        pauseStartTime := pauseStartTime s;
        isFirstFrameAfterResume := false |},
     safeMinimalDelta)
  else
    let delta := currentTime - lastTimestamp s in
    let delta := if Qltb MAX_DELTA delta then MAX_DELTA else delta in
    ({| lastTimestamp := currentTime;
        isPaused := isPaused s;
        accumulatedTime := accumulatedTime s;
        pauseStartTime := pauseStartTime s;
        isFirstFrameAfterResume := isFirstFrameAfterResume s |},
     delta).

End PhysicsClock.

(** ** The fixed-step loop of [PhysicsWorld] *)

Module PhysicsWorld.

(** The refs of the component.  [hasWorld] says that [world.current] is
    not null. *)
Record Refs : Type := mkRefs {
  hasWorld : bool;
  accumulatorRef : Q;
  prevTimeRef : option Q;
  justResumedRef : bool;
  wasPausedRef : bool
}.


Definition fixedTimeStep : Q := 1 # 60.

(** What one frame did: the argument of every [world.step] call, in
    order, and the accumulated time the step cap threw away. *)
Record FrameLog : Type := mkFrameLog {
  steps : list Q;
  discarded : Q
}.

(** The effect that runs when the pause flag changes. *)
Definition pauseEffect (isPaused : bool) (r : Refs) : Refs :=
  if isPaused then
    {| hasWorld := hasWorld r; accumulatorRef := accumulatorRef r;
       prevTimeRef := prevTimeRef r; justResumedRef := justResumedRef r;
       wasPausedRef := true |}
  else if wasPausedRef r then
    {| hasWorld := hasWorld r; accumulatorRef := 0;
       prevTimeRef := None; justResumedRef := true;
       wasPausedRef := false |}
  else r.

Definition resetPhysicsTiming (r : Refs) : Refs :=
  {| hasWorld := hasWorld r; accumulatorRef := 0;
     prevTimeRef := None; justResumedRef := justResumedRef r;
     wasPausedRef := wasPausedRef r |}.

(** The [while] loop: [acc] is the accumulator, [done] the steps taken so
    far in this frame ([stepsTaken] is its length). *)
Fixpoint stepLoop (fuel : nat) (acc : Q) (done : list Q) : option (Q * FrameLog) :=
  match fuel with
  | O => None
  | S fuel' =>
      if Qgeb acc fixedTimeStep then
        let done' := done ++ [fixedTimeStep] in
        let acc' := acc - fixedTimeStep in
        if Nat.leb 4 (length done')
        then Some (0, mkFrameLog done' acc')
        else stepLoop fuel' acc' done'
      else Some (acc, mkFrameLog done 0)
  end.

(** The frame callback, with the pause flag and [state.clock.elapsedTime]. *)
Definition useFrame (fuel : nat) (isPaused : bool) (time : Q)
    (r : Refs) : option (Refs * FrameLog) :=
  if negb (hasWorld r) || isPaused then Some (r, mkFrameLog [] 0)
  else
    match prevTimeRef r with
    | None =>
        Some ({| hasWorld := hasWorld r; accumulatorRef := accumulatorRef r;
                 prevTimeRef := Some time; justResumedRef := justResumedRef r;
                 wasPausedRef := wasPausedRef r |},
              mkFrameLog [] 0)
    | Some prev =>
        let deltaTime := if justResumedRef r then 1 # 120 else time - prev in
        let deltaTime := Qmin deltaTime (1 # 10) in
        match stepLoop fuel (accumulatorRef r + deltaTime) [] with
        | Some (acc, log) =>
            Some ({| hasWorld := hasWorld r; accumulatorRef := acc;
                     prevTimeRef := Some time;
                     justResumedRef :=
                       if justResumedRef r then false else justResumedRef r;
                     wasPausedRef := wasPausedRef r |},
                  log)
        | None => None
        end
    end.



End PhysicsWorld.

(** ** Binary64 rounding, and the fixed-step loop with its roundings *)

Module Binary64.

Local Open Scope Z_scope.

(** The integer nearest to [n / d], and the even one of the two when
    [n / d] lies half way between two integers. *)
Definition roundHalfEven (n d : Z) : Z :=
  let q := n / d in
  let r := n mod d in
  match 2 * r ?= d with
  | Lt => q
  | Gt => q + 1
  | Eq => if Z.even q then q else q + 1
  end.

(** [(n / d) / 2 ^ e] as a fraction. *)
Definition scaled (n d e : Z) : Z * Z :=
  if 0 <=? e then (n, d * 2 ^ e) else (n * 2 ^ (- e), d).

(** The exponent of the last of the 53 bits of [n / d]: the [e] with
    [2 ^ 52 <= (n / d) / 2 ^ e < 2 ^ 53]. *)
Definition exponent (n d : Z) : Z :=
  let e0 := Z.log2 n - Z.log2 d - 52 in
  let '(n0, d0) := scaled n d e0 in
  if n0 <? 2 ^ 52 * d0 then e0 - 1 else e0.

(** [m * 2 ^ e] as a rational. *)
Definition ofMantissa (m e : Z) : Q :=
  if 0 <=? e then inject_Z (m * 2 ^ e) else Qmake m (Z.to_pos (2 ^ (- e))).

Definition roundPos (n d : Z) : Q :=
  let e := exponent n d in
  let '(n1, d1) := scaled n d e in
  ofMantissa (roundHalfEven n1 d1) e.

(** The binary64 number nearest to [x], ties to even: what an arithmetic
    operation of JavaScript returns when its exact result is [x].  The
    exponent is not limited, so there is no overflow and no gradual
    underflow; the numbers of the loop below are far from both. *)
Definition round (x : Q) : Q :=
  match Qnum x with
  | Z0 => 0%Q
  | Zpos n => roundPos (Zpos n) (Zpos (Qden x))
  | Zneg n => (- roundPos (Zpos n) (Zpos (Qden x)))%Q
  end.

(** The relative error of one rounding is at most [2 ^ -53]. *)
Definition eps : Q := 1 # 9007199254740992.

End Binary64.

Module PhysicsWorldRounded.
Import PhysicsWorld.

(** A rounding is accurate when it moves no number that is not negative
    by more than the relative error of binary64.  [Binary64.round] is
    accurate, and so is exact arithmetic, which rounds nothing. *)
Definition accurate (rnd : Q -> Q) : Prop :=
  forall x : Q, 0 <= x ->
    x * (1 - Binary64.eps) <= rnd x /\ rnd x <= x * (1 + Binary64.eps).

Section Rounded.

(** The rounding of the result of every arithmetic operation and of every
    constant quotient of the source. *)
Variable rnd : Q -> Q.

Definition fixedTimeStepR : Q := rnd (1 # 60).

(** The [while] loop of the frame callback. *)
Fixpoint stepLoopR (fuel : nat) (acc : Q) (done : list Q) : option (Q * FrameLog) :=
  match fuel with
  | O => None
  | S fuel' =>
      if Qgeb acc fixedTimeStepR then
        let done' := done ++ [fixedTimeStepR] in
        let acc' := rnd (acc - fixedTimeStepR) in
        if Nat.leb 4 (length done')
        then Some (0, mkFrameLog done' acc')
        else stepLoopR fuel' acc' done'
      else Some (acc, mkFrameLog done 0)
  end.

(** The frame callback, with the pause flag and [state.clock.elapsedTime]. *)
Definition useFrameR (fuel : nat) (isPaused : bool) (time : Q)
    (r : Refs) : option (Refs * FrameLog) :=
  if negb (hasWorld r) || isPaused then Some (r, mkFrameLog [] 0)
  else
    match prevTimeRef r with
    | None =>
        Some ({| hasWorld := hasWorld r; accumulatorRef := accumulatorRef r;
                 prevTimeRef := Some time; justResumedRef := justResumedRef r;
                 wasPausedRef := wasPausedRef r |},
              mkFrameLog [] 0)
    | Some prev =>
        let deltaTime := if justResumedRef r then rnd (1 # 120) else rnd (time - prev) in
        let deltaTime := Qmin deltaTime (rnd (1 # 10)) in
        match stepLoopR fuel (rnd (accumulatorRef r + deltaTime)) [] with
        | Some (acc, log) =>
            Some ({| hasWorld := hasWorld r; accumulatorRef := acc;
                     prevTimeRef := Some time;
                     justResumedRef :=
                       if justResumedRef r then false else justResumedRef r;
                     wasPausedRef := wasPausedRef r |},
                  log)
        | None => None
        end
    end.


(** The readings of a clock that starts at [time] and is advanced [n]
    times by [delta], as the clock of the renderer advances
    [elapsedTime]. *)
Fixpoint clockReadings (time delta : Q) (n : nat) : list Q :=
  match n with
  | O => [time]
  | S n' => time :: clockReadings (rnd (time + delta)) delta n'
  end.

End Rounded.


End PhysicsWorldRounded.

(** ** Bodies of the physics library, as the components use them

    A body is a JavaScript object: the components hold references to it
    and the world holds it in a list.  Bodies live in a heap, a reference
    is a key of the heap.  The physics library (cannon-es) is no part of
    the repository; of it the embedding has [applyImpulse] and
    [updateMassProperties], which the components call, and not its
    integrator. *)

Module Cannon.

Record Body : Type := mkBody {
  mass : Q;
  shapeRadius : Q;
  material : string;
  linearDamping : Q;
  angularDamping : Q;
  allowSleep : bool;
  inertia : Vec3;
  position : Vec3;
  velocity : Vec3;
  angularVelocity : Vec3
}.

(** The [usePhysics] store together with the heap of bodies: [world] is
    the list of the bodies added to the world, when there is a world. *)
Record Physics : Type := mkPhysics {
  heap : gmap nat Body;
  nextBody : nat;
  world : option (list nat);
  playerBody : option nat
}.

Definition setPlayerBody (b : option nat) (p : Physics) : Physics :=
  mkPhysics (heap p) (nextBody p) (world p) b.

Definition setWorld (w : option (list nat)) (p : Physics) : Physics :=
  mkPhysics (heap p) (nextBody p) w (playerBody p).

(** [new CANNON.Body(...)]: a fresh object. *)
Definition newBody (b : Body) (p : Physics) : nat * Physics :=
  (nextBody p,
   mkPhysics (<[nextBody p := b]> (heap p)) (S (nextBody p)) (world p) (playerBody p)).

Definition addBody (h : nat) (p : Physics) : Physics :=
  mkPhysics (heap p) (nextBody p)
    (match world p with Some bs => Some (bs ++ [h]) | None => None end)
    (playerBody p).

Definition removeBody (h : nat) (p : Physics) : Physics :=
  mkPhysics (heap p) (nextBody p)
    (match world p with
     | Some bs => Some (List.filter (fun h' => negb (Nat.eqb h' h)) bs)
     | None => None
     end)
    (playerBody p).

Definition updateBody (h : nat) (f : Body -> Body) (p : Physics) : Physics :=
  mkPhysics (alter f h (heap p)) (nextBody p) (world p) (playerBody p).

Definition vadd (a b : Vec3) : Vec3 :=
  mkVec3 (vx a + vx b) (vy a + vy b) (vz a + vz b).

Definition vscale (k : Q) (a : Vec3) : Vec3 :=
  mkVec3 (k * vx a) (k * vy a) (k * vz a).

Definition vcross (a b : Vec3) : Vec3 :=
  mkVec3 (vy a * vz b - vz a * vy b)
         (vz a * vx b - vx a * vz b)
         (vx a * vy b - vy a * vx b).

(** [Box.calculateInertia(halfExtents, mass, target)] of the library. *)
Definition boxInertia (e : Vec3) (mass : Q) : Vec3 :=
  mkVec3 ((1 # 12) * mass * (2 * vy e * 2 * vy e + 2 * vz e * 2 * vz e))
         ((1 # 12) * mass * (2 * vx e * 2 * vx e + 2 * vz e * 2 * vz e))
         ((1 # 12) * mass * (2 * vy e * 2 * vy e + 2 * vx e * 2 * vx e)).

(** [body.updateMassProperties()] of the library: it replaces the inertia
    of the body by that of the box around its bounding box.  The bodies
    here have one shape, a sphere at the centre of the body, so the half
    extents of the bounding box are the radius on the three axes. *)
Definition updateMassProperties (b : Body) : Body :=
  let halfExtents := mkVec3 (shapeRadius b) (shapeRadius b) (shapeRadius b) in
  mkBody (mass b) (shapeRadius b) (material b) (linearDamping b)
    (angularDamping b) (allowSleep b) (boxInertia halfExtents (mass b))
    (position b) (velocity b) (angularVelocity b).

(** [body.applyImpulse(impulse, relativePoint)] as the library documents
    it: a body of positive mass gains [impulse / mass] of velocity and
    the inverse inertia times [relativePoint x impulse] of angular
    velocity; a body without mass is static and unchanged. *)
Definition applyImpulse (impulse relativePoint : Vec3) (b : Body) : Body :=
  if Qle_bool (mass b) 0 then b
  else
    let torque := vcross relativePoint impulse in
    mkBody (mass b) (shapeRadius b) (material b) (linearDamping b)
      (angularDamping b) (allowSleep b) (inertia b) (position b)
      (vadd (velocity b) (vscale (/ mass b) impulse))
      (vadd (angularVelocity b)
         (mkVec3 (/ vx (inertia b) * vx torque)
                 (/ vy (inertia b) * vy torque)
                 (/ vz (inertia b) * vz torque))).

End Cannon.

(** ** The player's ball ([Ball.tsx]) *)

Module Ball.
Import Cannon.

Record BallState : Type := mkBallState {
  scale : Q;
  isGrowing : bool
}.

Definition initialBallState : BallState := mkBallState 1 false.

Definition setScale (k : Q) (s : BallState) : BallState :=
  mkBallState k (isGrowing s).

(** [growBall]; the timeout that clears the flag 500 ms later is
    [growthCooldown]. *)
Definition growBall (s : BallState) : BallState :=
  if isGrowing s then s
  else mkBallState (scale s * (5 # 4)) true.

Definition growthCooldown (s : BallState) : BallState :=
  mkBallState (scale s) false.

(** The refs of the component. *)
Record BallRefs : Type := mkBallRefs {
  bodyRef : option nat;
  meshMounted : bool
}.

Definition baseRadius : Q := 1 # 2.
Definition baseMass : Q := 5.

Definition radiusOf (ballScale : Q) : Q := baseRadius * ballScale.
Definition massOf (ballScale : Q) : Q := baseMass * ballScale ^ 3.

(** [createPlayerBall], in a render with scale [ballScale]; [startX] and
    [startZ] are the start coordinates the source draws with
    [Math.random] on the circle of 3/4 of the ground radius. *)
Definition createPlayerBall (ballScale startX startZ : Q)
    (c : BallRefs) (p : Physics) : BallRefs * Physics :=
  match world p, meshMounted c with
  | Some _, true =>
      let radius := radiusOf ballScale in
      let mass := massOf ballScale in
      let I := 2 * mass * radius * radius / 5 in
      let sphereInertia := mkVec3 I I I in
      let '(body, p1) :=
        newBody (updateMassProperties
                   {| Cannon.mass := mass;
                      shapeRadius := radius;
                      material := "ball";
                      linearDamping := 2 # 5;
                      angularDamping := 2 # 5;
                      allowSleep := true;
                      inertia := sphereInertia;
                      position := mkVec3 startX radius startZ;
                      velocity := vzero;
                      angularVelocity := vzero |}) p in
      let p2 := match bodyRef c with
                | Some old => removeBody old p1
                | None => p1
                end in
      let p3 := addBody body p2 in
      (mkBallRefs (Some body) (meshMounted c), setPlayerBody (Some body) p3)
  | _, _ => (c, p)
  end.

(** The effect that runs when the scale changed, in a render with scale
    [ballScale]. *)
Definition scaleEffect (ballScale : Q)
    (c : BallRefs) (p : Physics) : BallRefs * Physics :=
  match bodyRef c, world p with
  | Some old, Some _ =>
      match heap p !! old with
      | Some body =>
          let radius := radiusOf ballScale in
          let currentPosition := position body in
          let currentVelocity := velocity body in
          let currentAngularVelocity := angularVelocity body in
          let p1 := removeBody old p in
          let newMass := massOf ballScale in
          let I := 2 * newMass * radius * radius / 5 in
          let newPosition :=
            if Qltb (vy currentPosition) radius
            then mkVec3 (vx currentPosition) radius (vz currentPosition)
            else currentPosition in
          let '(new, p2) :=
            newBody (updateMassProperties
                       {| Cannon.mass := newMass;
                          shapeRadius := radius;
                          material := "ball";
                          linearDamping := 2 # 5;
                          angularDamping := 2 # 5;
                          allowSleep := true;
                          inertia := mkVec3 I I I;
                          position := newPosition;
                          velocity := currentVelocity;
                          angularVelocity := currentAngularVelocity |}) p1 in
          let p3 := addBody new p2 in
          (mkBallRefs (Some new) (meshMounted c), setPlayerBody (Some new) p3)
      | None => (c, p)
      end
  | _, _ => (c, p)
  end.

End Ball.

(** ** The AI balls: scale store and component *)

Module AIBallScaleStore.

Record AIBallScaleState : Type := mkAIBallScaleState {
  scales : gmap nat Q;
  isGrowing : gmap nat bool
}.

Definition initialScales : AIBallScaleState := mkAIBallScaleState ∅ ∅.

(** [scales[id] || 1.0]: a missing entry and a zero entry both read 1. *)
Definition scaleOr1 (m : gmap nat Q) (i : nat) : Q :=
  match m !! i with
  | Some k => if Qeq_bool k 0 then 1 else k
  | None => 1
  end.

Definition getScale (i : nat) (s : AIBallScaleState) : Q :=
  scaleOr1 (scales s) i.

(** [growBall id]; the timeout that clears the flag 500 ms later is
    [growthCooldown]. *)
Definition growBall (i : nat) (s : AIBallScaleState) : AIBallScaleState :=
  match isGrowing s !! i with
  | Some true => s
  | _ =>
      let currentScale := scaleOr1 (scales s) i in
      let newScale := currentScale * (5 # 4) in
      mkAIBallScaleState (<[i := newScale]> (scales s)) (<[i := true]> (isGrowing s))
  end.

Definition growthCooldown (i : nat) (s : AIBallScaleState) : AIBallScaleState :=
  mkAIBallScaleState (scales s) (<[i := false]> (isGrowing s)).

Definition resetScales (s : AIBallScaleState) : AIBallScaleState :=
  mkAIBallScaleState ∅ ∅.

End AIBallScaleStore.

Module AIBall.
Import Cannon.

(** The props and refs of one [AIBall] component. *)
Record AIBallRefs : Type := mkAIBallRefs {
  ballId : nat;
  ballColor : string;
  bodyRef : option nat;
  targetPositionRef : option Vec3;
  lastDirectionChangeRef : Q;
  positionRef : Vec3;
  isInitialized : bool;
  frameTimeRef : Q;
  meshMounted : bool
}.

Definition sphereBaseRadius : Q := 1 # 2.
Definition baseMass : Q := 5.

Definition radiusOf (ballScale : Q) : Q := sphereBaseRadius * ballScale.
Definition massOf (ballScale : Q) : Q := baseMass * ballScale ^ 3.

(** [createPhysicsBody position velocity angularVelocity], in a render
    with scale [ballScale]. *)
Definition createPhysicsBody (ballScale : Q) (pos : Vec3)
    (vel angVel : option Vec3) (p : Physics) : option nat * Physics :=
  match world p with
  | None => (None, p)
  | Some _ =>
      let radius := radiusOf ballScale in
      let mass := massOf ballScale in
      let safePosition := pos in
      let I := 2 * mass * radius * radius / 5 in
      let '(body, p1) :=
        newBody (updateMassProperties
                   {| Cannon.mass := mass;
                      shapeRadius := radius;
                      material := "aiball";
                      linearDamping := 2 # 5;
                      angularDamping := 2 # 5;
                      allowSleep := false;
                      inertia := mkVec3 I I I;
                      position := safePosition;
                      velocity := match vel with Some v => v | None => vzero end;
                      angularVelocity :=
                        match angVel with Some w => w | None => vzero end |}) p in
      (Some body, addBody body p1)
  end.

Definition setBodyRef (b : option nat) (c : AIBallRefs) : AIBallRefs :=
  mkAIBallRefs (ballId c) (ballColor c) b (targetPositionRef c)
    (lastDirectionChangeRef c) (positionRef c) (isInitialized c)
    (frameTimeRef c) (meshMounted c).

Definition resetTargeting (c : AIBallRefs) : AIBallRefs :=
  mkAIBallRefs (ballId c) (ballColor c) (bodyRef c) None 0 (positionRef c)
    (isInitialized c) (frameTimeRef c) (meshMounted c).

Definition setPositionRef (v : Vec3) (c : AIBallRefs) : AIBallRefs :=
  mkAIBallRefs (ballId c) (ballColor c) (bodyRef c) (targetPositionRef c)
    (lastDirectionChangeRef c) v (isInitialized c) (frameTimeRef c)
    (meshMounted c).

(** [createAIBall], in a render with scale [ballScale]; [startX] and
    [startZ] are the result of [calculateFairStartPosition]. *)
Definition createAIBall (ballScale startX startZ : Q)
    (c : AIBallRefs) (p : Physics) (store : AIBallsStore.AIBallsState)
    : AIBallRefs * Physics * AIBallsStore.AIBallsState :=
  match world p with
  | None => (c, p, store)
  | Some _ =>
      let radius := radiusOf ballScale in
      let initialPosition := mkVec3 startX radius startZ in
      let c1 := setPositionRef initialPosition c in
      let store1 :=
        AIBallsStore.registerBall (ballId c) initialPosition (ballColor c) store in
      let '(c2, p1) :=
        match bodyRef c1 with
        | Some old => (setBodyRef None c1, removeBody old p)
        | None => (c1, p)
        end in
      match createPhysicsBody ballScale (mkVec3 startX radius startZ) None None p1 with
      | (Some body, p2) =>
          let p3 := updateBody body (fun b =>
              mkBody (mass b) (shapeRadius b) (material b) (linearDamping b)
                (angularDamping b) (allowSleep b) (inertia b) (position b)
                vzero vzero) p2 in
          (resetTargeting (setBodyRef (Some body) c2), p3, store1)
      | (None, p2) => (c2, p2, store1)
      end
  end.

(** The effect that runs when the scale changed, in a render with scale
    [ballScale]; [kick] is the random horizontal impulse
    [(cos a * s, 0, sin a * s)] with [s] between 2 and 3. *)
Definition scaleEffect (ballScale : Q) (kick : Vec3)
    (c : AIBallRefs) (p : Physics) : AIBallRefs * Physics :=
  match bodyRef c, world p with
  | Some old, Some _ =>
      match heap p !! old with
      | Some body =>
          let currentPosition := position body in
          let currentVelocity := velocity body in
          let currentAngularVelocity := angularVelocity body in
          let p1 := removeBody old p in
          let c1 := setBodyRef None c in
          match createPhysicsBody ballScale currentPosition
                  (Some currentVelocity) (Some currentAngularVelocity) p1 with
          | (Some new, p2) =>
              let p3 := updateBody new (fun b =>
                  mkBody (mass b) (shapeRadius b) (material b) (linearDamping b)
                    (angularDamping b) (allowSleep b) (inertia b) currentPosition
                    (velocity b) (angularVelocity b)) p2 in
              let c2 := setBodyRef (Some new) c1 in
              let p4 := updateBody new (applyImpulse kick vzero) p3 in
              (resetTargeting c2, p4)
          | (None, p2) => (c1, p2)
          end
      | None => (c, p)
      end
  | _, _ => (c, p)
  end.

(** The frame callback, as far as it decides which forces the body
    receives.  The oracle carries what the source computes with the
    clock, [Math.random], [timeBasedRandom], square roots and the scene
    graph. *)
Record FrameOracle : Type := mkFrameOracle {
  time : Q;
  wakeForce : Vec3;
  powerUpPosition : option Vec3;
  shouldTargetPowerups : bool;
  randomTarget : Vec3;
  steerForce : Vec3
}.

Definition lengthSquared (v : Vec3) : Q :=
  vx v * vx v + vy v * vy v + vz v * vz v.

(** The forces [applyForce] receives in one frame, in order, and the
    targeting refs afterwards. *)
Definition frameForces (hasPlayerStartedMoving isPaused : bool)
    (o : FrameOracle) (c : AIBallRefs) (p : Physics)
    : AIBallRefs * list Vec3 :=
  match bodyRef c, meshMounted c with
  | Some h, true =>
      match heap p !! h with
      | Some body =>
          let isStatic := Qltb (lengthSquared (velocity body)) (1 # 100) in
          let '(c1, woken) :=
            if isStatic && hasPlayerStartedMoving
            then (mkAIBallRefs (ballId c) (ballColor c) (bodyRef c) None
                    (time o - 3) (position body) (isInitialized c)
                    (frameTimeRef c) (meshMounted c),
                  [wakeForce o])
            else (setPositionRef (position body) c, []) in
          if hasPlayerStartedMoving then
            let timeSinceLastChange := time o - lastDirectionChangeRef c1 in
            let c2 :=
              match targetPositionRef c1 with
              | Some _ =>
                  if Qltb 2 timeSinceLastChange then
                    mkAIBallRefs (ballId c1) (ballColor c1) (bodyRef c1)
                      (match powerUpPosition o with
                       | Some pu => if shouldTargetPowerups o then Some pu
                                    else Some (randomTarget o)
                       | None => Some (randomTarget o)
                       end)
                      (time o) (positionRef c1) (isInitialized c1)
                      (frameTimeRef c1) (meshMounted c1)
                  else
                    match powerUpPosition o with
                    | Some pu =>
                        if shouldTargetPowerups o then
                          mkAIBallRefs (ballId c1) (ballColor c1) (bodyRef c1)
                            (Some pu) (lastDirectionChangeRef c1) (positionRef c1)
                            (isInitialized c1) (frameTimeRef c1) (meshMounted c1)
                        else c1
                    | None => c1
                    end
              | None =>
                  mkAIBallRefs (ballId c1) (ballColor c1) (bodyRef c1)
                    (match powerUpPosition o with
                     | Some pu => if shouldTargetPowerups o then Some pu
                                  else Some (randomTarget o)
                     | None => Some (randomTarget o)
                     end)
                    (time o) (positionRef c1) (isInitialized c1)
                    (frameTimeRef c1) (meshMounted c1)
              end in
            match targetPositionRef c2 with
            | Some _ =>
                let c3 :=
                  mkAIBallRefs (ballId c2) (ballColor c2) (bodyRef c2)
                    (targetPositionRef c2) (lastDirectionChangeRef c2)
                    (positionRef c2) (isInitialized c2) (time o)
                    (meshMounted c2) in
                if isPaused then (c3, woken)
                else (c3, woken ++ [steerForce o])
            | None => (c2, woken)
            end
          else (c1, woken)
      | None => (c, [])
      end
  | _, _ => (c, [])
  end.

(** The three-second interval that re-launches a stalled ball: the
    velocity it writes, if any. *)
Definition backupCheck (hasPlayerStartedMoving : bool) (relaunch : Vec3)
    (c : AIBallRefs) (p : Physics) : AIBallRefs * Physics :=
  match bodyRef c with
  | Some h =>
      if hasPlayerStartedMoving then
        match heap p !! h with
        | Some body =>
            if Qltb (lengthSquared (velocity body)) (1 # 20) then
              (resetTargeting c,
               updateBody h (fun b =>
                 mkBody (mass b) (shapeRadius b) (material b) (linearDamping b)
                   (angularDamping b) (allowSleep b) (inertia b) (position b)
                   (mkVec3 (vx relaunch) (vy (velocity b)) (vz relaunch))
                   (angularVelocity b)) p)
            else (c, p)
        | None => (c, p)
        end
      else (c, p)
  | None => (c, p)
  end.

End AIBall.

(** ** Notions of the design document about bodies *)

Module BodyLaw.
Import Cannon.

(** A body of a ball at scale [k]: radius [k/2], mass [5 k^3] and the
    inertia of a solid sphere on the three axes. *)
Definition solidSphere (k : Q) (b : Body) : Prop :=
  shapeRadius b == (1 # 2) * k /\
  mass b == 5 * k ^ 3 /\
  vx (inertia b) == (2 # 5) * mass b * shapeRadius b ^ 2 /\
  vy (inertia b) == (2 # 5) * mass b * shapeRadius b ^ 2 /\
  vz (inertia b) == (2 # 5) * mass b * shapeRadius b ^ 2.

(** The same body with the inertia the library computes from the bounding
    box, [(2/3) m r^2] on the three axes. *)
Definition boxSphere (k : Q) (b : Body) : Prop :=
  shapeRadius b == (1 # 2) * k /\
  mass b == 5 * k ^ 3 /\
  vx (inertia b) == (2 # 3) * mass b * shapeRadius b ^ 2 /\
  vy (inertia b) == (2 # 3) * mass b * shapeRadius b ^ 2 /\
  vz (inertia b) == (2 # 3) * mass b * shapeRadius b ^ 2.

(** Component-wise equality of vectors up to the value of the fractions. *)
Definition veq (a b : Vec3) : Prop :=
  vx a == vx b /\ vy a == vy b /\ vz a == vz b.

(** The body a reference points to. *)
Definition bodyAt (p : Physics) (r : option nat) : option Body :=
  match r with
  | Some h => heap p !! h
  | None => None
  end.

(** The body is one of the bodies of the world. *)
Definition inWorld (p : Physics) (h : nat) : Prop :=
  match world p with
  | Some bs => In h bs
  | None => False
  end.

(** A player ball of scale 1 at rest on the ground, rolling along x, in a
    world of its own; and an AI ball of scale 1 moving along x. *)
Definition restingBall : Body :=
  mkBody 5 (1 # 2) "ball" (2 # 5) (2 # 5) true
    (mkVec3 (5 # 6) (5 # 6) (5 # 6)) (mkVec3 3 (1 # 2) 4) (mkVec3 1 0 0) (mkVec3 0 0 (-2)).

Definition restingScene : Physics :=
  mkPhysics {[ 0%nat := restingBall ]} 1 (Some [0%nat]) (Some 0%nat).

Definition movingAIBall : Body :=
  mkBody 5 (1 # 2) "aiball" (2 # 5) (2 # 5) false
    (mkVec3 (5 # 6) (5 # 6) (5 # 6)) (mkVec3 3 (1 # 2) 4) (mkVec3 1 0 0) (mkVec3 0 0 (-2)).

Definition aiScene : Physics :=
  mkPhysics {[ 0%nat := movingAIBall ]} 1 (Some [0%nat]) None.

(** A world without bodies. *)
Definition emptyWorld : Physics := mkPhysics ∅ 0 (Some []) None.

End BodyLaw.

(** ** Small stores: controls, game phase, winner, pause, difficulty *)

Module Controls.

Record ControlsState : Type := mkControlsState {
  directionX : Q;
  directionZ : Q;
  hasPlayerStartedMoving : bool;
  isInputEnabled : bool;
  movementForce : Q
}.

Definition initialControls : ControlsState :=
  mkControlsState 0 0 false false 13.

(** [x !== 0] on numbers. *)
Definition nonzero (x : Q) : bool := negb (Qeq_bool x 0).

Definition setMovementDirection (x z : Q) (s : ControlsState) : ControlsState :=
  if negb (isInputEnabled s) then
    if nonzero (directionX s) || nonzero (directionZ s)
    then mkControlsState 0 0 (hasPlayerStartedMoving s) (isInputEnabled s)
           (movementForce s)
    else s
  else
    let isMoving := nonzero x || nonzero z in
    let hasStarted := hasPlayerStartedMoving s || isMoving in
    mkControlsState x z hasStarted (isInputEnabled s) (movementForce s).

Definition enableInput (s : ControlsState) : ControlsState :=
  mkControlsState (directionX s) (directionZ s) (hasPlayerStartedMoving s)
    true (movementForce s).

Definition disableInput (s : ControlsState) : ControlsState :=
  mkControlsState 0 0 (hasPlayerStartedMoving s) false (movementForce s).

Definition resetPlayerMovementFlag (s : ControlsState) : ControlsState :=
  mkControlsState 0 0 false (isInputEnabled s) (movementForce s).

Definition setMovementForce (force : Q) (s : ControlsState) : ControlsState :=
  mkControlsState (directionX s) (directionZ s) (hasPlayerStartedMoving s)
    (isInputEnabled s) force.

(** The actions of the store, to speak about sequences of them. *)
Inductive Action : Type :=
  | SetMovementDirection (x z : Q)
  | EnableInput
  | DisableInput
  | ResetPlayerMovementFlag
  | SetMovementForce (force : Q).

Definition act (a : Action) (s : ControlsState) : ControlsState :=
  match a with
  | SetMovementDirection x z => setMovementDirection x z s
  | EnableInput => enableInput s
  | DisableInput => disableInput s
  | ResetPlayerMovementFlag => resetPlayerMovementFlag s
  | SetMovementForce force => setMovementForce force s
  end.

(** A movement input of the player: a direction that is not zero. *)
Definition isMovementInput (a : Action) : bool :=
  match a with
  | SetMovementDirection x z => nonzero x || nonzero z
  | _ => false
  end.

End Controls.

Module Game.

Inductive GamePhase : Type := start_menu | ready | playing | ended.

Definition showStartMenu (ph : GamePhase) : GamePhase := start_menu.

Definition startGame (ph : GamePhase) : GamePhase :=
  match ph with start_menu => ready | _ => ph end.

Definition start (ph : GamePhase) : GamePhase :=
  match ph with ready => playing | _ => ph end.

Definition restart (ph : GamePhase) : GamePhase := ready.

Definition finish (ph : GamePhase) : GamePhase :=
  match ph with playing => ended | _ => ph end.

End Game.

Module WinStore.

Record WinState : Type := mkWinState {
  isWinner : bool;
  winnerId : option nat;
  winnerIsPlayer : bool;
  winnerColor : string;
  powerupsCount : nat;
  winReason : option AIBallsStore.WinReason;
  playerWasInTie : bool
}.

Definition noWinner : WinState :=
  mkWinState false None false "" 0 None false.

(** [setWinner]; the last argument is optional and defaults to [false]. *)
Definition setWinner (i : nat) (isPlayer : bool) (c : string) (count : nat)
    (reason : AIBallsStore.WinReason) (tie : option bool) (s : WinState) : WinState :=
  mkWinState true (Some i) isPlayer c count (Some reason)
    (match tie with Some b => b | None => false end).

Definition resetWin (s : WinState) : WinState := noWinner.

End WinStore.

Module PauseStore.

Record PauseState : Type := mkPauseState {
  isPaused : bool;
  isSettingsOpen : bool
}.

Definition pauseGame (s : PauseState) : PauseState :=
  mkPauseState true (isSettingsOpen s).

Definition resumeGame (s : PauseState) : PauseState :=
  mkPauseState false false.

End PauseStore.

Module Difficulty.

Inductive DifficultyLevel : Type := easy | medium | hard | super_hard.

Record DifficultyState : Type := mkDifficultyState {
  level : DifficultyLevel;
  hasSelectedLevel : bool
}.

Definition setDifficulty (l : DifficultyLevel) (s : DifficultyState) : DifficultyState :=
  mkDifficultyState l true.

Definition resetDifficultySelection (s : DifficultyState) : DifficultyState :=
  mkDifficultyState (level s) false.

Definition getSpeedMultiplier (s : DifficultyState) : Q :=
  match level s with
  | easy => 3 # 10
  | medium => 1 # 2
  | hard => 3 # 4
  | super_hard => 1
  end.

Definition getPowerupTargetChance (s : DifficultyState) : Q :=
  match level s with
  | easy => 2 # 5
  | medium => 7 # 10
  | hard => 9 # 10
  | super_hard => 1
  end.

End Difficulty.

(** ** The power-up component ([PowerUp.tsx]) *)

Module PowerUp.

Definition POWER_UP_RADIUS : Q := 1 # 2.
Definition MAX_POWER_UPS : nat := 12.
Definition COLLECTION_DISTANCE : Q := 2.

Record PowerUpState : Type := mkPowerUpState {
  active : bool;
  position : Vec3
}.

(** The React state of the component: [powerUpState], [powerUpsCollected]
    and [isCollecting]. *)
Record ReactState : Type := mkReactState {
  powerUpState : PowerUpState;
  powerUpsCollected : nat;
  isCollecting : bool
}.

(** What a collection does, in the order the handlers do it; [None]
    stands for the player, [Some id] for an AI ball. *)
Inductive Event : Type :=
  | LockState
  | LockRef
  | Sound (who : option nat)
  | Deactivate
  | Counted
  | Grow (who : option nat)
  | Score (who : option nat)
  | WinnerSet (who : option nat)
  | RoundEnded.

(** The stores the handlers act on, and the log of what they did. *)
Record Round : Type := mkRound {
  store : AIBallsStore.AIBallsState;
  ball : Ball.BallState;
  aiScales : AIBallScaleStore.AIBallScaleState;
  win : WinStore.WinState;
  phase : Game.GamePhase;
  log : list Event
}.

(** The component: [rendered] is the React state the closures of the last
    render captured, [pending] the React state after the updates queued
    since; the refs; and the respawn timeout, if one is scheduled, with
    the position it will spawn at. *)
Record Component : Type := mkComponent {
  rendered : ReactState;
  pending : ReactState;
  isCollectingRef : bool;
  prevPositionsRef : list (Q * Q);
  respawnTimeout : option (Q * Q)
}.

Definition centre : PowerUpState :=
  mkPowerUpState true (mkVec3 0 POWER_UP_RADIUS 0).

Definition mountedComponent : Component :=
  mkComponent (mkReactState centre 0 false) (mkReactState centre 0 false)
    false [(0, 0)] None.

(** The group of the power-up is in the scene, so that [meshRef.current]
    is set, when the last render returned it. *)
Definition meshMounted (c : Component) : bool :=
  active (powerUpState (rendered c)) &&
  Nat.ltb (powerUpsCollected (rendered c)) MAX_POWER_UPS.

(** State setters and ref writes. *)
Definition setPending (f : ReactState -> ReactState) (c : Component) : Component :=
  mkComponent (rendered c) (f (pending c)) (isCollectingRef c)
    (prevPositionsRef c) (respawnTimeout c).

Definition setIsCollecting (b : bool) : Component -> Component :=
  setPending (fun s => mkReactState (powerUpState s) (powerUpsCollected s) b).

Definition setPowerUpState (f : PowerUpState -> PowerUpState) : Component -> Component :=
  setPending (fun s => mkReactState (f (powerUpState s)) (powerUpsCollected s)
                         (isCollecting s)).

Definition setPowerUpsCollected (f : nat -> nat) : Component -> Component :=
  setPending (fun s => mkReactState (powerUpState s) (f (powerUpsCollected s))
                         (isCollecting s)).

Definition setIsCollectingRef (b : bool) (c : Component) : Component :=
  mkComponent (rendered c) (pending c) b (prevPositionsRef c) (respawnTimeout c).

Definition note (e : Event) (r : Round) : Round :=
  mkRound (store r) (ball r) (aiScales r) (win r) (phase r) (log r ++ [e]).

Definition growBall (r : Round) : Round :=
  mkRound (store r) (Ball.growBall (ball r)) (aiScales r) (win r) (phase r) (log r).

Definition growAIBall (i : nat) (r : Round) : Round :=
  mkRound (store r) (ball r) (AIBallScaleStore.growBall i (aiScales r)) (win r)
    (phase r) (log r).

Definition setStore (s : AIBallsStore.AIBallsState) (r : Round) : Round :=
  mkRound s (ball r) (aiScales r) (win r) (phase r) (log r).

Definition setWinner (i : nat) (isPlayer : bool) (c : string) (count : nat)
    (reason : AIBallsStore.WinReason) (tie : option bool) (r : Round) : Round :=
  mkRound (store r) (ball r) (aiScales r)
    (WinStore.setWinner i isPlayer c count reason tie (win r)) (phase r) (log r).

(** [end()] of the game store. *)
Definition finish (r : Round) : Round :=
  mkRound (store r) (ball r) (aiScales r) (win r) (Game.finish (phase r)) (log r).

(** [handlePlayerCollection]; [now] is the value of [Date.now()]. *)
Definition handlePlayerCollection (now : Z)
    (c : Component) (r : Round) : Component * Round :=
  if isCollecting (rendered c) || isCollectingRef c then (c, r)
  else
    let c := setIsCollecting true c in
    let r := note LockState r in
    let c := setIsCollectingRef true c in
    let r := note LockRef r in
    let r := note (Sound None) r in
    let c := setPowerUpState (fun prev => mkPowerUpState false (position prev)) c in
    let r := note Deactivate r in
    let c := setPowerUpsCollected (fun prev => (prev + 1)%nat) c in
    let r := note Counted r in
    let r := note (Grow None) (growBall r) in
    let '(s, isWinner) := AIBallsStore.incrementPlayerPowerUps now (store r) in
    let r := note (Score None) (setStore s r) in
    if isWinner then
      let currentCount := AIBallsStore.playerPowerUpsCollected (store r) in
      let r := note (WinnerSet None)
                 (setWinner 0 true "#1e88e5" currentCount AIBallsStore.primary
                    (Some false) r) in
      (c, note RoundEnded (finish r))
    else (c, r).

(** [handleAICollection ballId ballColor]. *)
Definition handleAICollection (ballId : nat) (ballColor : string) (now : Z)
    (c : Component) (r : Round) : Component * Round :=
  if isCollecting (rendered c) || isCollectingRef c then (c, r)
  else
    let c := setIsCollecting true c in
    let r := note LockState r in
    let c := setIsCollectingRef true c in
    let r := note LockRef r in
    let r := note (Sound (Some ballId)) r in
    let c := setPowerUpState (fun prev => mkPowerUpState false (position prev)) c in
    let r := note Deactivate r in
    let c := setPowerUpsCollected (fun prev => (prev + 1)%nat) c in
    let r := note Counted r in
    let '(s, isWinner) := AIBallsStore.incrementPowerUps ballId now (store r) in
    let r := note (Score (Some ballId)) (setStore s r) in
    let r := note (Grow (Some ballId)) (growAIBall ballId r) in
    if isWinner then
      let currentBall :=
        List.find (fun b => Nat.eqb (AIBallsStore.id b) ballId)
          (AIBallsStore.aiBalls (store r)) in
      let currentCount :=
        match currentBall with
        | Some b => AIBallsStore.powerUpsCollected b
        | None => 5%nat
        end in
      let r := note (WinnerSet (Some ballId))
                 (setWinner ballId false ballColor currentCount AIBallsStore.primary
                    (Some false) r) in
      (c, note RoundEnded (finish r))
    else (c, r).

(** The distance test of the frame callback: the distance in the
    horizontal plane is below [COLLECTION_DISTANCE] when its square is
    below the square of [COLLECTION_DISTANCE]. *)
Definition withinReach (a b : Vec3) : bool :=
  Qltb ((vx a - vx b) * (vx a - vx b) + (vz a - vz b) * (vz a - vz b))
       (COLLECTION_DISTANCE * COLLECTION_DISTANCE).

(** The frame callback.  [playerBody] is the position of the player's
    body when there is one, [aiBalls] the array of the store as the last
    render read it. *)
Definition useFrame (playerBody : option Vec3)
    (aiBalls : list AIBallsStore.AIBallEntry) (now : Z)
    (c : Component) (r : Round) : Component * Round :=
  if negb (meshMounted c) || negb (active (powerUpState (rendered c)))
     || isCollecting (rendered c) || isCollectingRef c
  then (c, r)
  else
    let powerUpPosition := position (powerUpState (rendered c)) in
    let playerNear :=
      match playerBody with
      | Some playerPosition => withinReach playerPosition powerUpPosition
      | None => false
      end in
    if playerNear then handlePlayerCollection now c r
    else
      match List.find (fun aiBall =>
                withinReach (AIBallsStore.position aiBall) powerUpPosition) aiBalls with
      | Some aiBall =>
          handleAICollection (AIBallsStore.id aiBall) (AIBallsStore.color aiBall)
            now c r
      | None => (c, r)
      end.

(** The effect that checks for the end of the game; it runs when the
    collected counter changed. *)
Definition endOfGameEffect (c : Component) (r : Round) : Round :=
  if Nat.leb MAX_POWER_UPS (powerUpsCollected (rendered c)) then
    match AIBallsStore.getWinnerBySecondaryCondition (store r) with
    | Some winner =>
        finish (setWinner (AIBallsStore.w_id winner) (AIBallsStore.w_isPlayer winner)
                  (AIBallsStore.w_color winner) (AIBallsStore.w_powerupsCount winner)
                  (AIBallsStore.w_reason winner) (AIBallsStore.w_playerWasInTie winner) r)
    | None => r
    end
  else r.

(** The respawn effect; it runs when the active flag or the collected
    counter changed, after the cleanup of its last run has cleared the
    timeout of that run.  [spot] is the position the retry loop over
    [Math.random] settles on. *)
Definition respawnEffect (spot : Q * Q) (c : Component) : Component :=
  let c := mkComponent (rendered c) (pending c) (isCollectingRef c)
             (prevPositionsRef c) None in
  if negb (active (powerUpState (rendered c))) &&
     Nat.leb (powerUpsCollected (rendered c)) MAX_POWER_UPS
  then mkComponent (rendered c) (pending c) (isCollectingRef c)
         (prevPositionsRef c ++ [spot]) (Some spot)
  else c.

(** A render: the closures see the pending state, and the effects whose
    dependencies changed run. *)
Definition render (spot : Q * Q) (c : Component) (r : Round) : Component * Round :=
  let before := rendered c in
  let c := mkComponent (pending c) (pending c) (isCollectingRef c)
             (prevPositionsRef c) (respawnTimeout c) in
  let countChanged :=
    negb (Nat.eqb (powerUpsCollected before) (powerUpsCollected (rendered c))) in
  let activeChanged :=
    negb (Bool.eqb (active (powerUpState before)) (active (powerUpState (rendered c)))) in
  let r := if countChanged then endOfGameEffect c r else r in
  let c := if activeChanged || countChanged then respawnEffect spot c else c in
  (c, r).

(** The respawn timeout fires, two seconds after it was set. *)
Definition respawnFires (c : Component) : Component :=
  match respawnTimeout c with
  | Some (x, z) =>
      let c := setIsCollecting false c in
      let c := setIsCollectingRef false c in
      let c := setPowerUpState (fun _ =>
                 mkPowerUpState true (mkVec3 x POWER_UP_RADIUS z)) c in
      mkComponent (rendered c) (pending c) (isCollectingRef c)
        (prevPositionsRef c) None
  | None => c
  end.

(** The listener of the [reset-powerups] event. *)
Definition handleReset (c : Component) : Component :=
  let c := setPowerUpsCollected (fun _ => 0%nat) c in
  let c := setIsCollecting false c in
  let c := setIsCollectingRef false c in
  let c := mkComponent (rendered c) (pending c) (isCollectingRef c)
             [(0, 0)] (respawnTimeout c) in
  setPowerUpState (fun _ => centre) c.

(** What can happen to one power-up between its spawn and its respawn:
    frames, with the positions they read, and renders. *)
Inductive Step : Type :=
  | Frame (playerBody : option Vec3)
          (aiBalls : list AIBallsStore.AIBallEntry) (now : Z)
  | Render (spot : Q * Q).

Definition step (st : Step) (cr : Component * Round) : Component * Round :=
  match st with
  | Frame playerBody aiBalls now => useFrame playerBody aiBalls now (fst cr) (snd cr)
  | Render spot => render spot (fst cr) (snd cr)
  end.

Definition run (steps : list Step) (cr : Component * Round) : Component * Round :=
  List.fold_left (fun cr st => step st cr) steps cr.

(** The number of collections a log credits. *)
Definition isScore (e : Event) : bool :=
  match e with Score _ => true | _ => false end.

Definition credits (l : list Event) : nat :=
  length (List.filter isScore l).

(** What follows the two lock writes in the log of a collection. *)
Definition afterLock (who : option nat) (won : bool) : list Event :=
  match who with
  | None => [Sound None; Deactivate; Counted; Grow None; Score None]
  | Some i => [Sound who; Deactivate; Counted; Score who; Grow who]
  end ++ (if won then [WinnerSet who; RoundEnded] else []).

(** The entities within reach of a spot: the player as [None], the AI
    balls by id, in the order the frame callback visits them. *)
Definition inReach (playerBody : option Vec3)
    (aiBalls : list AIBallsStore.AIBallEntry) (spot : Vec3) : list (option nat) :=
  (match playerBody with
   | Some pos => if withinReach pos spot then [None] else []
   | None => []
   end) ++
  List.map (fun b => Some (AIBallsStore.id b))
    (List.filter (fun b => withinReach (AIBallsStore.position b) spot) aiBalls).

(** A round in play in which the player has collected four power-ups and
    two AI balls stand next to the power-up at the centre. *)
Definition fourEach : AIBallsStore.AIBallsState :=
  AIBallsStore.mkAIBallsState
    [AIBallsStore.mkAIBallEntry 1 (mkVec3 1 (1 # 2) 0) 0 [] "#FF0000";
     AIBallsStore.mkAIBallEntry 2 (mkVec3 0 (1 # 2) 1) 0 [] "#0000FF"]
    4 [100; 200; 300; 400]%Z.

Definition matchPoint : Round :=
  mkRound fourEach Ball.initialBallState AIBallScaleStore.initialScales
    WinStore.noWinner Game.playing [].

Definition fourCollected : Component :=
  mkComponent (mkReactState centre 4 false) (mkReactState centre 4 false)
    false [(0, 0)] None.

End PowerUp.

(** ** The round lifecycle ([GameManager]) *)

Module GameManager.

(** The camera store ([useCameraStore]), as far as a restart touches it. *)
Record CameraState : Type := mkCameraState {
  rotation : Q;
  targetRotation : Q;
  rotationSpeed : Q
}.

Definition initialCamera : CameraState := mkCameraState 0 0 (1 # 10).

Definition resetRotation (c : CameraState) : CameraState :=
  mkCameraState 0 0 (rotationSpeed c).

(** Every store and component a restart touches.  The scene is mounted,
    as it is whenever the win screen that calls the restart is shown.
    [ballScaleSeen] is the scale the last render of the player's ball
    read: its listener for [reset-ball-positions] is registered again
    whenever the mass or the radius changes, so it is a closure of that
    render.  The second component of [aiBallComps] is the scale read by
    the render in which the listener of that AI ball was registered: the
    dependencies of that effect are the world, the id, the colour and
    the start angle, not the scale, so the listener keeps the radius and
    the mass of the render in which the world was set. *)
Record App : Type := mkApp {
  pointerLocked : bool;
  cameraPointerLocked : bool;
  browserPointerLock : bool;
  camera : CameraState;
  round : PowerUp.Round;
  physics : Cannon.Physics;
  physicsWorld : option PhysicsWorld.Refs;
  ballRefs : Ball.BallRefs;
  ballScaleSeen : Q;
  aiBallComps : list (AIBall.AIBallRefs * Q);
  powerUp : PowerUp.Component;
  controls : Controls.ControlsState;
  clock : PhysicsClock.PhysicsClockState;
  difficulty : Difficulty.DifficultyState;
  pause : PauseStore.PauseState;
  sessionRandomSeed : Z;
  isMuted : bool
}.

Definition onPointerLocked (f : bool -> bool) (a : App) : App :=
  mkApp (f (pointerLocked a)) (cameraPointerLocked a) (browserPointerLock a)
    (camera a) (round a) (physics a) (physicsWorld a) (ballRefs a)
    (ballScaleSeen a) (aiBallComps a) (powerUp a) (controls a) (clock a)
    (difficulty a) (pause a) (sessionRandomSeed a) (isMuted a).

Definition onCameraPointerLocked (f : bool -> bool) (a : App) : App :=
  mkApp (pointerLocked a) (f (cameraPointerLocked a)) (browserPointerLock a)
    (camera a) (round a) (physics a) (physicsWorld a) (ballRefs a)
    (ballScaleSeen a) (aiBallComps a) (powerUp a) (controls a) (clock a)
    (difficulty a) (pause a) (sessionRandomSeed a) (isMuted a).

Definition onBrowserPointerLock (f : bool -> bool) (a : App) : App :=
  mkApp (pointerLocked a) (cameraPointerLocked a) (f (browserPointerLock a))
    (camera a) (round a) (physics a) (physicsWorld a) (ballRefs a)
    (ballScaleSeen a) (aiBallComps a) (powerUp a) (controls a) (clock a)
    (difficulty a) (pause a) (sessionRandomSeed a) (isMuted a).

Definition onCamera (f : CameraState -> CameraState) (a : App) : App :=
  mkApp (pointerLocked a) (cameraPointerLocked a) (browserPointerLock a) (f
    (camera a)) (round a) (physics a) (physicsWorld a) (ballRefs a)
    (ballScaleSeen a) (aiBallComps a) (powerUp a) (controls a) (clock a)
    (difficulty a) (pause a) (sessionRandomSeed a) (isMuted a).

Definition onRound (f : PowerUp.Round -> PowerUp.Round) (a : App) : App :=
  mkApp (pointerLocked a) (cameraPointerLocked a) (browserPointerLock a)
    (camera a) (f (round a)) (physics a) (physicsWorld a) (ballRefs a)
    (ballScaleSeen a) (aiBallComps a) (powerUp a) (controls a) (clock a)
    (difficulty a) (pause a) (sessionRandomSeed a) (isMuted a).

Definition onPhysics (f : Cannon.Physics -> Cannon.Physics) (a : App) : App :=
  mkApp (pointerLocked a) (cameraPointerLocked a) (browserPointerLock a)
    (camera a) (round a) (f (physics a)) (physicsWorld a) (ballRefs a)
    (ballScaleSeen a) (aiBallComps a) (powerUp a) (controls a) (clock a)
    (difficulty a) (pause a) (sessionRandomSeed a) (isMuted a).

Definition onPhysicsWorld (f : option PhysicsWorld.Refs -> option PhysicsWorld.Refs) (a : App) : App :=
  mkApp (pointerLocked a) (cameraPointerLocked a) (browserPointerLock a)
    (camera a) (round a) (physics a) (f (physicsWorld a)) (ballRefs a)
    (ballScaleSeen a) (aiBallComps a) (powerUp a) (controls a) (clock a)
    (difficulty a) (pause a) (sessionRandomSeed a) (isMuted a).

Definition onBallRefs (f : Ball.BallRefs -> Ball.BallRefs) (a : App) : App :=
  mkApp (pointerLocked a) (cameraPointerLocked a) (browserPointerLock a)
    (camera a) (round a) (physics a) (physicsWorld a) (f (ballRefs a))
    (ballScaleSeen a) (aiBallComps a) (powerUp a) (controls a) (clock a)
    (difficulty a) (pause a) (sessionRandomSeed a) (isMuted a).

Definition onBallScaleSeen (f : Q -> Q) (a : App) : App :=
  mkApp (pointerLocked a) (cameraPointerLocked a) (browserPointerLock a)
    (camera a) (round a) (physics a) (physicsWorld a) (ballRefs a) (f
    (ballScaleSeen a)) (aiBallComps a) (powerUp a) (controls a) (clock a)
    (difficulty a) (pause a) (sessionRandomSeed a) (isMuted a).

Definition onAiBallComps (f : list (AIBall.AIBallRefs * Q) -> list (AIBall.AIBallRefs * Q)) (a : App) : App :=
  mkApp (pointerLocked a) (cameraPointerLocked a) (browserPointerLock a)
    (camera a) (round a) (physics a) (physicsWorld a) (ballRefs a)
    (ballScaleSeen a) (f (aiBallComps a)) (powerUp a) (controls a) (clock a)
    (difficulty a) (pause a) (sessionRandomSeed a) (isMuted a).

Definition onPowerUp (f : PowerUp.Component -> PowerUp.Component) (a : App) : App :=
  mkApp (pointerLocked a) (cameraPointerLocked a) (browserPointerLock a)
    (camera a) (round a) (physics a) (physicsWorld a) (ballRefs a)
    (ballScaleSeen a) (aiBallComps a) (f (powerUp a)) (controls a) (clock a)
    (difficulty a) (pause a) (sessionRandomSeed a) (isMuted a).

Definition onControls (f : Controls.ControlsState -> Controls.ControlsState) (a : App) : App :=
  mkApp (pointerLocked a) (cameraPointerLocked a) (browserPointerLock a)
    (camera a) (round a) (physics a) (physicsWorld a) (ballRefs a)
    (ballScaleSeen a) (aiBallComps a) (powerUp a) (f (controls a)) (clock a)
    (difficulty a) (pause a) (sessionRandomSeed a) (isMuted a).

Definition onClock (f : PhysicsClock.PhysicsClockState -> PhysicsClock.PhysicsClockState) (a : App) : App :=
  mkApp (pointerLocked a) (cameraPointerLocked a) (browserPointerLock a)
    (camera a) (round a) (physics a) (physicsWorld a) (ballRefs a)
    (ballScaleSeen a) (aiBallComps a) (powerUp a) (controls a) (f (clock a))
    (difficulty a) (pause a) (sessionRandomSeed a) (isMuted a).

Definition onDifficulty (f : Difficulty.DifficultyState -> Difficulty.DifficultyState) (a : App) : App :=
  mkApp (pointerLocked a) (cameraPointerLocked a) (browserPointerLock a)
    (camera a) (round a) (physics a) (physicsWorld a) (ballRefs a)
    (ballScaleSeen a) (aiBallComps a) (powerUp a) (controls a) (clock a) (f
    (difficulty a)) (pause a) (sessionRandomSeed a) (isMuted a).

Definition onPause (f : PauseStore.PauseState -> PauseStore.PauseState) (a : App) : App :=
  mkApp (pointerLocked a) (cameraPointerLocked a) (browserPointerLock a)
    (camera a) (round a) (physics a) (physicsWorld a) (ballRefs a)
    (ballScaleSeen a) (aiBallComps a) (powerUp a) (controls a) (clock a)
    (difficulty a) (f (pause a)) (sessionRandomSeed a) (isMuted a).

Definition onSessionRandomSeed (f : Z -> Z) (a : App) : App :=
  mkApp (pointerLocked a) (cameraPointerLocked a) (browserPointerLock a)
    (camera a) (round a) (physics a) (physicsWorld a) (ballRefs a)
    (ballScaleSeen a) (aiBallComps a) (powerUp a) (controls a) (clock a)
    (difficulty a) (pause a) (f (sessionRandomSeed a)) (isMuted a).

Definition onIsMuted (f : bool -> bool) (a : App) : App :=
  mkApp (pointerLocked a) (cameraPointerLocked a) (browserPointerLock a)
    (camera a) (round a) (physics a) (physicsWorld a) (ballRefs a)
    (ballScaleSeen a) (aiBallComps a) (powerUp a) (controls a) (clock a)
    (difficulty a) (pause a) (sessionRandomSeed a) (f (isMuted a)).
Definition onStore (f : AIBallsStore.AIBallsState -> AIBallsStore.AIBallsState)
    (r : PowerUp.Round) : PowerUp.Round :=
  PowerUp.mkRound (f (PowerUp.store r)) (PowerUp.ball r) (PowerUp.aiScales r)
    (PowerUp.win r) (PowerUp.phase r) (PowerUp.log r).

Definition onBall (f : Ball.BallState -> Ball.BallState)
    (r : PowerUp.Round) : PowerUp.Round :=
  PowerUp.mkRound (PowerUp.store r) (f (PowerUp.ball r)) (PowerUp.aiScales r)
    (PowerUp.win r) (PowerUp.phase r) (PowerUp.log r).

Definition onAiScales
    (f : AIBallScaleStore.AIBallScaleState -> AIBallScaleStore.AIBallScaleState)
    (r : PowerUp.Round) : PowerUp.Round :=
  PowerUp.mkRound (PowerUp.store r) (PowerUp.ball r) (f (PowerUp.aiScales r))
    (PowerUp.win r) (PowerUp.phase r) (PowerUp.log r).

Definition onWin (f : WinStore.WinState -> WinStore.WinState)
    (r : PowerUp.Round) : PowerUp.Round :=
  PowerUp.mkRound (PowerUp.store r) (PowerUp.ball r) (PowerUp.aiScales r)
    (f (PowerUp.win r)) (PowerUp.phase r) (PowerUp.log r).

Definition onPhase (f : Game.GamePhase -> Game.GamePhase)
    (r : PowerUp.Round) : PowerUp.Round :=
  PowerUp.mkRound (PowerUp.store r) (PowerUp.ball r) (PowerUp.aiScales r)
    (PowerUp.win r) (f (PowerUp.phase r)) (PowerUp.log r).

(** What a restart reads from the outside: [Date.now()], the two readings
    of [performance.now()], the start position the player's ball draws,
    and the result of [calculateFairStartPosition] for a session seed and
    an AI ball. *)
Record Oracle : Type := mkOracle {
  dateNow : Z;
  clockResetAt : Q;
  clockResumeAt : Q;
  playerStart : Q * Q;
  fairStart : Z -> nat -> Q * Q
}.

Definition resetPhysicsWorld (a : App) : App :=
  let a := onPhysics (Cannon.setPlayerBody None) a in
  onPhysicsWorld (option_map PhysicsWorld.resetPhysicsTiming) a.

Definition resetBallState (a : App) : App :=
  onRound (onBall (Ball.setScale 1)) a.

Definition resetAIBallState (a : App) : App :=
  let a := onRound (onStore AIBallsStore.resetBalls) a in
  onRound (onAiScales AIBallScaleStore.resetScales) a.

(** The listeners of the AI balls for [reset-ball-positions], one after
    the other; a component listens when it has a world, and its
    [createAIBall] is the one of the render that registered the listener,
    with the scale [k] of that render. *)
Fixpoint resetAIBalls (o : Oracle) (comps : list (AIBall.AIBallRefs * Q))
    (p : Cannon.Physics) (s : AIBallsStore.AIBallsState) (seed : Z)
    : list (AIBall.AIBallRefs * Q) * Cannon.Physics * AIBallsStore.AIBallsState * Z :=
  match comps with
  | [] => ([], p, s, seed)
  | (c, k) :: rest =>
      match Cannon.world p with
      | None =>
          let '(rest', p', s', seed') := resetAIBalls o rest p s seed in
          ((c, k) :: rest', p', s', seed')
      | Some _ =>
          let newSessionSeed := (dateNow o / 1000)%Z in
          let seed1 := if Z.eqb newSessionSeed 0 then seed else newSessionSeed in
          let '(x, z) := fairStart o seed1 (AIBall.ballId c) in
          let '(c', p1, s1) := AIBall.createAIBall k x z c p s in
          let '(rest', p', s', seed') := resetAIBalls o rest p1 s1 seed1 in
          ((c', k) :: rest', p', s', seed')
      end
  end.

(** [resetBallPositions]: the event reaches the listener of the player's
    ball and then those of the AI balls. *)
Definition resetBallPositions (o : Oracle) (a : App) : App :=
  let a :=
    match Cannon.world (physics a) with
    | Some _ =>
        let '(c, p) :=
          Ball.createPlayerBall (ballScaleSeen a) (fst (playerStart o))
            (snd (playerStart o)) (ballRefs a) (physics a) in
        onPhysics (fun _ => p) (onBallRefs (fun _ => c) a)
    | None => a
    end in
  let '(comps, p, s, seed) :=
    resetAIBalls o (aiBallComps a) (physics a) (PowerUp.store (round a))
      (sessionRandomSeed a) in
  onSessionRandomSeed (fun _ => seed)
    (onRound (onStore (fun _ => s))
       (onPhysics (fun _ => p) (onAiBallComps (fun _ => comps) a))).

(** [resetPowerups]: the event reaches the listener of the power-up. *)
Definition resetPowerups (a : App) : App :=
  onPowerUp PowerUp.handleReset a.

Definition resetControlsState (a : App) : App :=
  let controls0 := controls a in
  let a := onControls (Controls.setMovementDirection 0 0) a in
  let a := if Controls.hasPlayerStartedMoving controls0
           then onControls Controls.resetPlayerMovementFlag a else a in
  onControls Controls.disableInput a.

Definition resetPointerLockState (a : App) : App :=
  let a := onPointerLocked (fun _ => false) a in
  let a := onCameraPointerLocked (fun _ => false) a in
  if browserPointerLock a then onBrowserPointerLock (fun _ => false) a else a.

Definition resetCameraDirection (a : App) : App :=
  onCamera resetRotation a.

Definition resetGameState (a : App) : App :=
  let a := onRound (onWin WinStore.resetWin) a in
  onRound (onPhase Game.restart) a.

Definition resetDifficultySelection (a : App) : App :=
  onDifficulty Difficulty.resetDifficultySelection a.

Definition resetPhysicsClock (o : Oracle) (a : App) : App :=
  onClock (PhysicsClock.reset (clockResetAt o)) a.

Definition resumeGame (o : Oracle) (a : App) : App :=
  if negb (PauseStore.isPaused (pause a)) then a
  else
    let gamePhase := PowerUp.phase (round a) in
    let hasSelectedLevel := Difficulty.hasSelectedLevel (difficulty a) in
    let a := onPause PauseStore.resumeGame a in
    let a := onPhysicsWorld (option_map PhysicsWorld.resetPhysicsTiming) a in
    let a := onClock (PhysicsClock.setPaused false (clockResumeAt o)) a in
    match gamePhase with
    | Game.playing =>
        if hasSelectedLevel then onControls Controls.enableInput a else a
    | _ => a
    end.

(** [restartGame].  The mute flag is read twice from the same snapshot of
    the audio store, so the repair at the end never runs. *)
Definition restartGame (o : Oracle) (a : App) : App :=
  let wasMuted := isMuted a in
  let muted := isMuted a in
  let a := resetPointerLockState a in
  let a := resetCameraDirection a in
  let a := resetGameState a in
  let a := resetPhysicsWorld a in
  let a := resetBallState a in
  let a := resetAIBallState a in
  let a := resetBallPositions o a in
  let a := resetPowerups a in
  let a := resetControlsState a in
  let a := resetPhysicsClock o a in
  let a := resetDifficultySelection a in
  let a := resumeGame o a in
  if negb (Bool.eqb wasMuted muted) then onIsMuted (fun _ => wasMuted) a else a.

(** The scale-change effects of the AI balls in the render that follows
    a change of the scale store from [before] to [after].  The effect of
    a component runs when the scale it reads is not the one its last
    render read; its other dependencies (the id, the colour, the world)
    are as they were.  [kick i] is the random impulse the effect of ball
    [i] draws. *)
Fixpoint aiScaleEffects (before after : AIBallScaleStore.AIBallScaleState)
    (kick : nat -> Vec3) (comps : list (AIBall.AIBallRefs * Q))
    (p : Cannon.Physics) : list (AIBall.AIBallRefs * Q) * Cannon.Physics :=
  match comps with
  | [] => ([], p)
  | (c, k) :: rest =>
      let seen := AIBallScaleStore.getScale (AIBall.ballId c) before in
      let ballScale := AIBallScaleStore.getScale (AIBall.ballId c) after in
      let '(c', p1) :=
        if Qeq_bool seen ballScale then (c, p)
        else AIBall.scaleEffect ballScale (kick (AIBall.ballId c)) c p in
      let '(rest', p') := aiScaleEffects before after kick rest p1 in
      ((c', k) :: rest', p')
  end.

(** The render that follows a restart, as far as the bodies go: the
    scale-change effect of the player's ball, then those of the AI balls.
    [before] is the table of AI scales that the renders before the
    restart read. *)
Definition scaleEffects (before : AIBallScaleStore.AIBallScaleState)
    (kick : nat -> Vec3) (a : App) : App :=
  let ballScale := Ball.scale (PowerUp.ball (round a)) in
  let a :=
    if Qeq_bool (ballScaleSeen a) ballScale then a
    else
      let '(c, p) := Ball.scaleEffect ballScale (ballRefs a) (physics a) in
      onBallScaleSeen (fun _ => ballScale)
        (onPhysics (fun _ => p) (onBallRefs (fun _ => c) a)) in
  let '(comps, p) :=
    aiScaleEffects before (PowerUp.aiScales (round a)) kick
      (aiBallComps a) (physics a) in
  onPhysics (fun _ => p) (onAiBallComps (fun _ => comps) a).

(** Runs a list of actions of the controls store. *)
Definition actAll (acts : list Controls.Action)
    (s : Controls.ControlsState) : Controls.ControlsState :=
  List.fold_left (fun s act => Controls.act act s) acts s.

(** The scene right after the player's fifth collection at the match
    point: the player has moved, the round has ended, one AI ball has
    grown before. *)
Definition wonScene : App :=
  {| pointerLocked := true;
     cameraPointerLocked := true;
     browserPointerLock := true;
     camera := mkCameraState (1 # 3) (1 # 2) (1 # 10);
     round :=
       onAiScales (AIBallScaleStore.growBall 2)
         (snd (PowerUp.useFrame (Some (mkVec3 (1 # 2) (1 # 2) 0)) [] 500%Z
                 PowerUp.fourCollected PowerUp.matchPoint));
     physics := BodyLaw.restingScene;
     physicsWorld := Some (PhysicsWorld.mkRefs true (1 # 100) (Some 3) false false);
     ballRefs := Ball.mkBallRefs (Some 0%nat) true;
     ballScaleSeen := 1;
     aiBallComps :=
       [(AIBall.mkAIBallRefs 1 "#FF0000" None None 0 vzero true 0 true, 1);
        (AIBall.mkAIBallRefs 2 "#0000FF" None None 0 vzero true 0 true, 1)];
     powerUp :=
       fst (PowerUp.useFrame (Some (mkVec3 (1 # 2) (1 # 2) 0)) [] 500%Z
              PowerUp.fourCollected PowerUp.matchPoint);
     controls := Controls.mkControlsState 1 0 true true 13;
     clock := PhysicsClock.initialState;
     difficulty := Difficulty.mkDifficultyState Difficulty.hard true;
     pause := PauseStore.mkPauseState false false;
     sessionRandomSeed := 1700000000%Z;
     isMuted := false |}.

(** An ended round on the field, all renders done: the player's ball and
    AI ball 2 have grown once, AI ball 1 has not, and the three have
    bodies in the world; the listeners of the AI balls were registered at
    scale 1, when the world was set. *)
Definition grownBall : Cannon.Body :=
  Cannon.mkBody (Ball.massOf (5 # 4)) (Ball.radiusOf (5 # 4)) "ball"
    (2 # 5) (2 # 5) true
    (Cannon.boxInertia
       (mkVec3 (Ball.radiusOf (5 # 4)) (Ball.radiusOf (5 # 4))
          (Ball.radiusOf (5 # 4)))
       (Ball.massOf (5 # 4)))
    (mkVec3 (1 # 2) (5 # 8) 0) (mkVec3 1 0 0) (mkVec3 0 0 (-2)).

Definition grownAIBall : Cannon.Body :=
  Cannon.mkBody (AIBall.massOf (5 # 4)) (AIBall.radiusOf (5 # 4)) "aiball"
    (2 # 5) (2 # 5) false
    (Cannon.boxInertia
       (mkVec3 (AIBall.radiusOf (5 # 4)) (AIBall.radiusOf (5 # 4))
          (AIBall.radiusOf (5 # 4)))
       (AIBall.massOf (5 # 4)))
    (mkVec3 (-6) (5 # 8) 2) (mkVec3 0 0 1) vzero.

Definition endedScene : App :=
  onBallScaleSeen (fun _ => 5 # 4)
    (onAiBallComps (fun _ =>
         [(AIBall.mkAIBallRefs 1 "#FF0000" (Some 1%nat) None 0 vzero true 0 true, 1);
          (AIBall.mkAIBallRefs 2 "#0000FF" (Some 2%nat) None 0 vzero true 0 true, 1)])
       (onPhysics (fun _ =>
            Cannon.mkPhysics
              {[ 0%nat := grownBall; 1%nat := BodyLaw.movingAIBall;
                 2%nat := grownAIBall ]}
              3 (Some [0%nat; 1%nat; 2%nat]) (Some 0%nat))
          wonScene)).

(** The restart of that round: the fair start positions of the two AI
    balls differ. *)
Definition endedOracle : Oracle :=
  mkOracle 1700000100000%Z 5000 5001 (0, 24)
    (fun _ i => match i with 1%nat => (24, 3) | _ => (-20, 12) end).

(** The kick of a scale-change effect whose two random numbers are 0:
    strength 2 along x. *)
Definition weakestKick (i : nat) : Vec3 := mkVec3 2 0 0.

Definition wonOracle : Oracle :=
  mkOracle 1700000100000%Z 5000 5001 (0, 24) (fun _ _ => (24, 0)).

(** Every count zero and every list of timestamps empty. *)
Definition scoresCleared (s : AIBallsStore.AIBallsState) : Prop :=
  Forall (fun e => AIBallsStore.e_count e = 0%nat /\ AIBallsStore.e_stamps e = [])
    (AIBallsStore.entities s).

End GameManager.

(** ** Sequences of calls to the score store *)

Module StoreCalls.
Import AIBallsStore.

(** A call to one of the actions of [useAIBallsStore] that write the
    store, with the value [Date.now()] has when the action reads it. *)
Inductive Call : Type :=
  | ResetBalls
  | RegisterBall (i : nat) (p : Vec3) (c : string)
  | IncrementPowerUps (i : nat) (now : Z)
  | IncrementPlayerPowerUps (now : Z).

Definition call (a : Call) (s : AIBallsState) : AIBallsState :=
  match a with
  | ResetBalls => resetBalls s
  | RegisterBall i p c => registerBall i p c s
  | IncrementPowerUps i now => fst (incrementPowerUps i now s)
  | IncrementPlayerPowerUps now => fst (incrementPlayerPowerUps now s)
  end.

Definition calls (l : list Call) (s : AIBallsState) : AIBallsState :=
  List.fold_left (fun s a => call a s) l s.

(** The ids of the array [aiBalls], in order. *)
Definition ids (s : AIBallsState) : list nat := List.map id (aiBalls s).

(** Three registered balls, the second with two collections. *)
Definition threeBalls : AIBallsState :=
  mkAIBallsState
    [mkAIBallEntry 1 (mkVec3 1 (1 # 2) 0) 0 [] "#FF0000";
     mkAIBallEntry 2 (mkVec3 0 (1 # 2) 1) 2 [100; 200]%Z "#0000FF";
     mkAIBallEntry 3 (mkVec3 2 (1 # 2) 2) 1 [150]%Z "#00FF00"]
    1 [50]%Z.

End StoreCalls.

(** ** The ranking panel ([RankingSystem]) *)

Module RankingSystem.
Import AIBallsStore.

(** An entry of the panel; the id is [null] for the player. *)
Record RankEntry : Type := mkRankEntry {
  r_id : option nat;
  r_isPlayer : bool;
  r_powerUpsCollected : nat;
  r_color : string
}.

(** The array [allEntities]: the player, then the AI balls in the order
    of the store's array. *)
Definition allEntities (s : AIBallsState) : list RankEntry :=
  mkRankEntry None true (playerPowerUpsCollected s) "#1e88e5" ::
  List.map (fun ball =>
      mkRankEntry (Some (id ball)) false (powerUpsCollected ball) (color ball))
    (aiBalls s).

(** [Array.prototype.sort] with the comparator
    [b.powerUpsCollected - a.powerUpsCollected]: the stable sort by
    descending count, as insertion from the right that places an entry
    before the first one whose count is not greater. *)
Fixpoint insertByCount (e : RankEntry) (l : list RankEntry) : list RankEntry :=
  match l with
  | [] => [e]
  | d :: l' =>
      if Nat.leb (r_powerUpsCollected d) (r_powerUpsCollected e)
      then e :: d :: l'
      else d :: insertByCount e l'
  end.

Definition sortByCount (l : list RankEntry) : list RankEntry :=
  List.fold_right insertByCount [] l.

(** [updateRankings]: the values it hands to [setRankings] and to
    [setPowerupCount]. *)
Definition updateRankings (s : AIBallsState) : list RankEntry * nat :=
  let sortedEntities := sortByCount (allEntities s) in
  let topThree := List.firstn 3 sortedEntities in
  (topThree, getTotalPowerupsCollected s).

(** The count the panel prints: [Math.min(powerupCount, 12)]. *)
Definition shownCount (powerupCount : nat) : nat := Nat.min powerupCount 12.

(** No entry of the list has more collections than an entry before it. *)
Fixpoint descending (l : list RankEntry) : Prop :=
  match l with
  | [] => True
  | x :: l' =>
      Forall (fun y => (r_powerUpsCollected y <= r_powerUpsCollected x)%nat) l' /\
      descending l'
  end.

End RankingSystem.

(** ** Time accounting of the fixed-step loop *)

Module PhysicsWorldTime.
Import PhysicsWorld.




End PhysicsWorldTime.

(** ** Where a power-up respawns, and what can happen to the component *)

Module PowerUpSpawn.

Definition groundRadius : Q := 33.
Definition safeRadius : Q := groundRadius * (4 # 5).
Definition minDistance : Q := 10.
Definition maxAttempts : nat := 20.

(** What one call of [generateRandomPosition] draws: the cosine and the
    sine of the random angle, and the square root of the second random
    number. *)
Record Draw : Type := mkDraw {
  cosAngle : Q;
  sinAngle : Q;
  sqrtRandom : Q
}.

Definition generateRandomPosition (d : Draw) : Q * Q :=
  let distance := safeRadius * (3 # 10) + safeRadius * (7 # 10) * sqrtRandom d in
  (cosAngle d * distance, sinAngle d * distance).

(** The test [isFarEnough] of the retry loop. *)
Definition isFarEnough (prevPositions : list (Q * Q)) (position : Q * Q) : bool :=
  List.forallb (fun prev =>
      let dx := fst prev - fst position in
      let dz := snd prev - snd position in
      let distSquared := dx * dx + dz * dz in
      Qltb (minDistance * minDistance) distSquared) prevPositions.

(** The loop [do ... while (true)] of the respawn effect.  [draws k] is
    what call number [k] of [generateRandomPosition] draws, [attempts]
    the counter when the iteration starts. *)
Fixpoint retryLoop (fuel attempts : nat) (draws : nat -> Draw)
    (prevPositions : list (Q * Q)) : option (Q * Q) :=
  match fuel with
  | O => None
  | S fuel' =>
      let position := generateRandomPosition (draws attempts) in
      let attempts := S attempts in
      if isFarEnough prevPositions position || Nat.leb maxAttempts attempts
      then Some position
      else retryLoop fuel' attempts draws prevPositions
  end.

(** The position the respawn effect stores and schedules. *)
Definition chooseSpot (fuel : nat) (draws : nat -> Draw)
    (prevPositions : list (Q * Q)) : option (Q * Q) :=
  retryLoop fuel 0 draws prevPositions.

(** A draw as the library functions produce it: a point of the unit
    circle and a square root of a number of [0, 1). *)
Definition validDraw (d : Draw) : Prop :=
  cosAngle d * cosAngle d + sinAngle d * sinAngle d == 1 /\
  0 <= sqrtRandom d /\ sqrtRandom d < 1.

(** Draws that always point along (3/5, 4/5), half way out. *)
Definition steadyDraws (k : nat) : Draw :=
  mkDraw (3 # 5) (4 # 5) (1 # 2).

End PowerUpSpawn.

Module PowerUpLife.
Import PowerUp.

(** What can happen to the mounted component: a frame, a render, and the
    respawn timer firing. *)
Inductive Happening : Type :=
  | FrameRuns (playerBody : option Vec3)
              (aiBalls : list AIBallsStore.AIBallEntry) (now : Z)
  | Renders (spot : Q * Q)
  | RespawnTimerFires.

Definition happen (h : Happening) (cr : Component * Round) : Component * Round :=
  match h with
  | FrameRuns playerBody aiBalls now => useFrame playerBody aiBalls now (fst cr) (snd cr)
  | Renders spot => render spot (fst cr) (snd cr)
  | RespawnTimerFires => (respawnFires (fst cr), snd cr)
  end.

Definition happenAll (hs : list Happening) (cr : Component * Round)
    : Component * Round :=
  List.fold_left (fun cr h => happen h cr) hs cr.

(** The component right after the render that shows the twelfth
    collection, in a round the player leads with four. *)
Definition twelveShown : Component :=
  mkComponent (mkReactState (mkPowerUpState false (mkVec3 3 (1 # 2) 4)) 12 true)
    (mkReactState (mkPowerUpState false (mkVec3 3 (1 # 2) 4)) 12 true)
    true [(0, 0); (3, 4)] (Some (10, 10)).

End PowerUpLife.

(** ** Pause, restart of the same level and return to the menu

    The other methods of [GameManager], which the pause button, the pause
    menu and the win screen call, and the method [restartGame] of the
    older [GameManagerSameLevel].  The audio elements are outside the
    model: of the audio store only the mute flag is kept, and none of
    these methods writes it.  The speed booster store, which a mounted
    [SpeedBoosterLogic] resets from inside [resetPhysicsWorld], is not
    among the stores of [App]. *)

Module GameManagerMenu.
Import GameManager.

(** [pauseGame]; [now] is the value of [performance.now()] the physics
    clock reads. *)
Definition pauseGame (now : Q) (a : App) : App :=
  if PauseStore.isPaused (pause a) then a
  else
    let a := onPause PauseStore.pauseGame a in
    let a := onControls Controls.disableInput a in
    let a := onClock (PhysicsClock.setPaused true now) a in
    resetPointerLockState a.

(** [restartCurrentGame].  [game] is the snapshot of the game store taken
    after the resets, and the mute flag is read twice from one snapshot
    of the audio store. *)
Definition restartCurrentGame (o : Oracle) (a : App) : App :=
  let wasMuted := isMuted a in
  let muted := isMuted a in
  let a := resetPointerLockState a in
  let a := resetCameraDirection a in
  let a := onRound (onWin WinStore.resetWin) a in
  let a := resetPhysicsWorld a in
  let a := resetBallState a in
  let a := resetAIBallState a in
  let a := resetBallPositions o a in
  let a := resetPowerups a in
  let a := resetControlsState a in
  let a := resetPhysicsClock o a in
  let a := match PowerUp.phase (round a) with
           | Game.playing => a
           | _ => onRound (onPhase Game.start) a
           end in
  let a := resumeGame o a in
  if negb (Bool.eqb wasMuted muted) then onIsMuted (fun _ => wasMuted) a else a.

(** [returnToMainMenu]. *)
Definition returnToMainMenu (o : Oracle) (a : App) : App :=
  let wasMuted := isMuted a in
  let muted := isMuted a in
  let a := resetPointerLockState a in
  let a := resetPhysicsWorld a in
  let a := resetBallState a in
  let a := resetAIBallState a in
  let a := resetBallPositions o a in
  let a := resetPowerups a in
  let a := resetControlsState a in
  let a := resetCameraDirection a in
  let a := onRound (onWin WinStore.resetWin) a in
  let a := onDifficulty Difficulty.resetDifficultySelection a in
  let a := onPause PauseStore.resumeGame a in
  let a := onRound (onPhase Game.showStartMenu) a in
  if negb (Bool.eqb wasMuted muted) then onIsMuted (fun _ => wasMuted) a else a.

(** The won scene, paused from the pause menu in the middle of play. *)
Definition pausedScene : App :=
  onPause PauseStore.pauseGame
    (onRound (onPhase (fun _ => Game.playing)) wonScene).

End GameManagerMenu.

Module GameManagerSameLevel.
Import GameManager.

(** The two methods whose text differs from [GameManager]'s: no reset of
    the physics timing, and the input is not disabled. *)
Definition resetPhysicsWorld (a : App) : App :=
  onPhysics (Cannon.setPlayerBody None) a.

Definition resetControlsState (a : App) : App :=
  let controls0 := controls a in
  let a := onControls (Controls.setMovementDirection 0 0) a in
  if Controls.hasPlayerStartedMoving controls0
  then onControls Controls.resetPlayerMovementFlag a else a.

(** [GameManagerSameLevel.restartGame]; the other reset methods it calls
    have the text of [GameManager]'s. *)
Definition restartGame (o : Oracle) (a : App) : App :=
  let a := resetPointerLockState a in
  let a := resetCameraDirection a in
  let a := resetGameState a in
  let a := resetPhysicsWorld a in
  let a := resetBallState a in
  let a := resetAIBallState a in
  let a := resetBallPositions o a in
  let a := resetPowerups a in
  let a := resetControlsState a in
  onRound (onPhase Game.start) a.

End GameManagerSameLevel.

(** ** The speed booster store ([useSpeedBooster.tsx]) *)

Module SpeedBooster.

Local Open Scope Z_scope.

(** The inventory and the millisecond clock ([Date.now()]) are whole
    numbers; [activationEndTime] is a number or [null]. *)
Record SpeedBoosterState : Type := mkSpeedBoosterState {
  boosterCount : Z;
  isActive : bool;
  hasBeenUsed : bool;
  activationEndTime : option Z;
  countdownDisplay : Z;
  dashApplied : bool
}.

Definition BOOST_DURATION_MS : Z := 1500.

Definition initialBooster : SpeedBoosterState :=
  mkSpeedBoosterState 10 false false None 2 false.

(** [activateBooster]; [now] is the value of [Date.now()]. *)
Definition activateBooster (now : Z) (s : SpeedBoosterState) : SpeedBoosterState :=
  if (0 <? boosterCount s) && negb (isActive s) && negb (hasBeenUsed s) then
    let endTime := now + BOOST_DURATION_MS in
    mkSpeedBoosterState (boosterCount s - 1) true true (Some endTime) 2 false
  else s.

Definition resetBooster (s : SpeedBoosterState) : SpeedBoosterState :=
  mkSpeedBoosterState (boosterCount s) false false None 2 false.

Definition setBoosterCount (count : Z) (s : SpeedBoosterState) : SpeedBoosterState :=
  mkSpeedBoosterState count (isActive s) (hasBeenUsed s) (activationEndTime s)
    (countdownDisplay s) (dashApplied s).

Definition setDashApplied (applied : bool) (s : SpeedBoosterState) : SpeedBoosterState :=
  mkSpeedBoosterState (boosterCount s) (isActive s) (hasBeenUsed s)
    (activationEndTime s) (countdownDisplay s) applied.

(** The truth value of [activationEndTime]: [null] and 0 are false. *)
Definition isSet (t : option Z) : bool :=
  match t with
  | Some v => negb (v =? 0)
  | None => false
  end.

(** [Math.ceil(timeRemaining / 1000)] on a whole number of milliseconds. *)
Definition ceilSeconds (timeRemaining : Z) : Z := - ((- timeRemaining) / 1000).

(** The number a [number | null] stands for in a subtraction. *)
Definition numberOf (t : option Z) : Z :=
  match t with
  | Some v => v
  | None => 0
  end.

Definition updateBoosterState (currentTime : Z) (s : SpeedBoosterState)
    : SpeedBoosterState :=
  if isActive s && isSet (activationEndTime s) then
    let timeRemaining := numberOf (activationEndTime s) - currentTime in
    let secondsRemaining := ceilSeconds timeRemaining in
    if timeRemaining <=? 0 then
      mkSpeedBoosterState (boosterCount s) false (hasBeenUsed s) None 2 false
    else if negb (secondsRemaining =? countdownDisplay s) then
      mkSpeedBoosterState (boosterCount s) (isActive s) (hasBeenUsed s)
        (activationEndTime s) secondsRemaining (dashApplied s)
    else s
  else s.

(** The calls of the store, to speak about sequences of them. *)
Inductive Call : Type :=
  | ActivateBooster (now : Z)
  | ResetBooster
  | SetBoosterCount (count : Z)
  | SetDashApplied (applied : bool)
  | UpdateBoosterState (currentTime : Z).

Definition call (c : Call) (s : SpeedBoosterState) : SpeedBoosterState :=
  match c with
  | ActivateBooster now => activateBooster now s
  | ResetBooster => resetBooster s
  | SetBoosterCount count => setBoosterCount count s
  | SetDashApplied applied => setDashApplied applied s
  | UpdateBoosterState currentTime => updateBoosterState currentTime s
  end.

Definition calls (cs : list Call) (s : SpeedBoosterState) : SpeedBoosterState :=
  List.fold_left (fun s c => call c s) cs s.

(** The calls made within one game session: everything but [resetBooster]
    and [setBoosterCount]. *)
Definition inSession (c : Call) : bool :=
  match c with
  | ResetBooster | SetBoosterCount _ => false
  | _ => true
  end.

Definition isSetBoosterCount (c : Call) : bool :=
  match c with SetBoosterCount _ => true | _ => false end.

(** The frames of the game loop at the given times: [updateBoosterState]
    once per frame. *)
Definition frames (times : list Z) (s : SpeedBoosterState) : SpeedBoosterState :=
  calls (List.map UpdateBoosterState times) s.

End SpeedBooster.

(** ** Frame-rate compensation of the movement forces
    ([Controls] and [AIBall], each in its [useFrame]) *)

Module ForceTiming.

(** The player: [Controls], from the delta time of the frame. *)
Definition playerFrameCompensation (deltaTime : Q) : Q :=
  let safeDeltatime := if Qltb (1 # 1000) deltaTime then deltaTime else 1 # 60 in
  let cappedDeltaTime := Qmin safeDeltatime (1 # 15) in
  cappedDeltaTime * 60.

Definition playerScaledForce (movementForce mass deltaTime : Q) : Q :=
  movementForce * mass * playerFrameCompensation deltaTime.

(** An AI ball: the delta time is taken from [frameTimeRef], and replaced
    when it is large or when the ref still holds 0. *)
Definition aiDeltaTime (frameTimeRef timeNow : Q) : Q :=
  let deltaTime := timeNow - frameTimeRef in
  if Qltb (1 # 10) deltaTime || Qeq_bool frameTimeRef 0 then 1 # 60 else deltaTime.

Definition aiFrameCompensation (frameTimeRef timeNow : Q) : Q :=
  let deltaTime := aiDeltaTime frameTimeRef timeNow in
  let safeDeltatime := if Qltb (1 # 1000) deltaTime then deltaTime else 1 # 60 in
  safeDeltatime * 60.

Definition baseForce : Q := 13.

Definition aiForceMagnitude (mass speedMultiplier frameTimeRef timeNow : Q) : Q :=
  baseForce * mass * speedMultiplier * aiFrameCompensation frameTimeRef timeNow.

End ForceTiming.

(** ** Sequences of calls of the AI ball scale store *)

Module ScaleCalls.
Import AIBallScaleStore.

(** [GrowthCooldown i] is the timeout that [growBall i] sets. *)
Inductive Call : Type :=
  | GrowBall (i : nat)
  | GrowthCooldown (i : nat)
  | ResetScales.

Definition call (c : Call) (s : AIBallScaleState) : AIBallScaleState :=
  match c with
  | GrowBall i => growBall i s
  | GrowthCooldown i => growthCooldown i s
  | ResetScales => resetScales s
  end.

Definition calls (cs : list Call) (s : AIBallScaleState) : AIBallScaleState :=
  List.fold_left (fun s c => call c s) cs s.

(** The calls that leave the growth of ball [i] blocked: all but its own
    cooldown and the reset. *)
Definition keepsBlocked (i : nat) (c : Call) : bool :=
  match c with
  | GrowBall _ => true
  | GrowthCooldown j => negb (Nat.eqb j i)
  | ResetScales => false
  end.

End ScaleCalls.

(** Splits the conjunctions of a goal, without introducing anything. *)
Ltac conjs := repeat match goal with |- _ /\ _ => split end.

(** * Properties *)

(** ** Comparisons *)

Lemma Qltb_true (a b : Q) : Qltb a b = true <-> a < b.
Proof.
  unfold Qltb. rewrite negb_true_iff.
  split.
  - intros H. apply Qnot_le_lt. intros Hle.
    apply Qle_bool_iff in Hle. congruence.
  - intros H. destruct (Qle_bool b a) eqn:E; [|reflexivity].
    apply Qle_bool_iff in E. lra.
Qed.

Lemma Qltb_false (a b : Q) : Qltb a b = false <-> b <= a.
Proof.
  unfold Qltb. rewrite negb_false_iff. apply Qle_bool_iff.
Qed.



(** ** Win and tiebreak resolution *)

Module WinResolver.
Import AIBallsStore.

Lemma fold_max_list_max (l : list AIBallEntry) (a : nat) :
  List.fold_left (fun max ball =>
      if Nat.ltb max (powerUpsCollected ball)
      then powerUpsCollected ball else max) l a
  = Nat.max a (list_max (List.map powerUpsCollected l)).
Proof.
  revert a. induction l as [|b l IH]; intros a; simpl.
  - lia.
  - rewrite IH. destruct (Nat.ltb_spec a (powerUpsCollected b)); lia.
Qed.

Lemma getMax_maxCount (s : AIBallsState) :
  getMaxPowerupsCollected s = maxCount s.
Proof.
  unfold getMaxPowerupsCollected, maxCount, entities.
  rewrite fold_max_list_max. simpl. rewrite List.map_map. reflexivity.
Qed.

Lemma maxCount_ge (s : AIBallsState) (e : Entity) :
  In e (entities s) -> (e_count e <= maxCount s)%nat.
Proof.
  intros Hin. unfold maxCount.
  assert (H : Forall (fun k => (k <= list_max (List.map e_count (entities s)))%nat)
                (List.map e_count (entities s))).
  { apply list_max_le. lia. }
  rewrite List.Forall_forall in H. apply H. apply List.in_map. exact Hin.
Qed.

Lemma fold_push_filter (m : nat) (l : list AIBallEntry) (start : list Collector) :
  List.fold_left (fun top ball =>
      if Nat.eqb (powerUpsCollected ball) m
      then top ++ [ballCollector ball m] else top) l start
  = start ++ List.map (collectorOf m)
      (List.filter (fun e => Nat.eqb (e_count e) m) (List.map ballEntity l)).
Proof.
  revert start. induction l as [|b l IH]; intros start; simpl.
  - now rewrite List.app_nil_r.
  - rewrite IH. destruct (Nat.eqb (powerUpsCollected b) m); simpl.
    + now rewrite <- List.app_assoc.
    + reflexivity.
Qed.

Lemma topCollectors_holders (s : AIBallsState) :
  topCollectorsOf s (maxCount s) = List.map (collectorOf (maxCount s)) (holders s).
Proof.
  unfold topCollectorsOf, holders, entities.
  rewrite fold_push_filter. simpl.
  destruct (Nat.eqb (playerPowerUpsCollected s) (maxCount s)); reflexivity.
Qed.

Lemma insertByTimestamp_In (c x : Collector) (l : list Collector) :
  In x (insertByTimestamp c l) <-> x = c \/ In x l.
Proof.
  induction l as [|d l IH]; simpl.
  - intuition.
  - destruct (Z.leb (c_lastTimestamp c) (c_lastTimestamp d)); simpl.
    + intuition.
    + rewrite IH. intuition.
Qed.

Lemma sortByTimestamp_In (x : Collector) (l : list Collector) :
  In x (sortByTimestamp l) <-> In x l.
Proof.
  induction l as [|c l IH]; simpl.
  - tauto.
  - rewrite insertByTimestamp_In, IH. intuition.
Qed.

Lemma sortByTimestamp_existsb (l : list Collector) :
  List.existsb c_isPlayer (sortByTimestamp l) = List.existsb c_isPlayer l.
Proof.
  apply eq_true_iff_eq. rewrite !List.existsb_exists.
  split; intros [x [Hin Hp]]; exists x; split; auto;
    now apply sortByTimestamp_In.
Qed.

(** The head of the stable sort is the first element of least key. *)
Lemma sortByTimestamp_head (l : list Collector) :
  l <> [] ->
  exists l1 c l2 rest,
    l = l1 ++ c :: l2 /\ sortByTimestamp l = c :: rest /\
    (forall x, In x l1 -> (c_lastTimestamp c < c_lastTimestamp x)%Z) /\
    (forall x, In x l2 -> (c_lastTimestamp c <= c_lastTimestamp x)%Z).
Proof.
  induction l as [|a l IH]; intros Hne; [congruence|].
  destruct l as [|b l'].
  - exists [], a, [], []. simpl. repeat split; intros x [].
  - destruct IH as (l1 & c & l2 & rest & Hl & Hs & H1 & H2); [congruence|].
    change (sortByTimestamp (a :: b :: l'))
      with (insertByTimestamp a (sortByTimestamp (b :: l'))).
    rewrite Hs. simpl.
    destruct (Z.leb_spec (c_lastTimestamp a) (c_lastTimestamp c)) as [Hle|Hgt].
    + exists [], a, (b :: l'), (c :: rest). repeat split.
      * intros x [].
      * intros x Hx. rewrite Hl in Hx. apply List.in_app_or in Hx.
        destruct Hx as [Hx|[Hx|Hx]].
        -- specialize (H1 x Hx). lia.
        -- subst x. exact Hle.
        -- specialize (H2 x Hx). lia.
    + exists (a :: l1), c, l2, (insertByTimestamp a rest). repeat split.
      * simpl. now rewrite Hl.
      * intros x [Hx|Hx]; [subst x; lia | now apply H1].
      * exact H2.
Qed.

Lemma stampAt_reachedAt (e : Entity) :
  e_count e <> 0%nat -> stampAt (e_stamps e) (e_count e) = reachedAt e.
Proof.
  unfold reachedAt. destruct (e_count e) as [|k]; [congruence|].
  intros _. simpl. now rewrite Nat.sub_0_r.
Qed.

Lemma find_primary_split (l : list AIBallEntry) :
  match List.find (fun ball => Nat.leb 5 (powerUpsCollected ball)) l with
  | Some b => exists l1 l2, l = l1 ++ b :: l2 /\
                (5 <= powerUpsCollected b)%nat /\
                (forall x, In x l1 -> (powerUpsCollected x < 5)%nat)
  | None => forall x, In x l -> (powerUpsCollected x < 5)%nat
  end.
Proof.
  induction l as [|a l IH]; cbn [List.find].
  - intros x [].
  - destruct (Nat.leb_spec 5 (powerUpsCollected a)) as [Hge|Hlt].
    + exists [], l. split; [reflexivity | split; [exact Hge | intros x []]].
    + destruct (List.find _ l) as [b|].
      * destruct IH as (l1 & l2 & Hl & Hb & H1).
        exists (a :: l1), l2. repeat split; auto.
        -- simpl. now rewrite Hl.
        -- intros x [Hx|Hx]; [now subst x | now apply H1].
      * intros x [Hx|Hx]; [now subst x | now apply IH].
Qed.

(** The first ball of the array with five or more is the one [find] returns. *)
Lemma find_primary_first (l1 l2 : list AIBallEntry) (b : AIBallEntry) :
  (forall x, In x l1 -> (powerUpsCollected x < 5)%nat) ->
  (5 <= powerUpsCollected b)%nat ->
  List.find (fun ball => Nat.leb 5 (powerUpsCollected ball)) (l1 ++ b :: l2) = Some b.
Proof.
  intros H1 Hb. induction l1 as [|a l1 IH]; cbn [List.find List.app].
  - destruct (Nat.leb_spec 5 (powerUpsCollected b)); [reflexivity | lia].
  - destruct (Nat.leb_spec 5 (powerUpsCollected a)) as [Hge|Hlt].
    + specialize (H1 a (or_introl eq_refl)). lia.
    + apply IH. intros x Hx. apply H1. now right.
Qed.

Lemma holders_player (s : AIBallsState) :
  List.existsb e_isPlayer (holders s) = true <->
  playerPowerUpsCollected s = maxCount s.
Proof.
  unfold holders, entities. simpl.
  destruct (Nat.eqb_spec (playerPowerUpsCollected s) (maxCount s)) as [He|Hn]; simpl.
  - tauto.
  - split; [|tauto]. intros H. exfalso.
    apply List.existsb_exists in H. destruct H as [x [Hin Hp]].
    apply List.filter_In in Hin. destruct Hin as [Hin _].
    apply List.in_map_iff in Hin. destruct Hin as [b [Hb _]].
    subst x. discriminate Hp.
Qed.

Lemma existsb_collectorOf (m : nat) (l : list Entity) :
  List.existsb c_isPlayer (List.map (collectorOf m) l) = List.existsb e_isPlayer l.
Proof.
  induction l as [|e l IH]; simpl; [reflexivity|]. now rewrite IH.
Qed.

Lemma holders_count (s : AIBallsState) (e : Entity) :
  In e (holders s) -> e_count e = maxCount s.
Proof.
  unfold holders. intros H. apply List.filter_In in H.
  destruct H as [_ H]. now apply Nat.eqb_eq.
Qed.

(** Below the primary threshold the resolver is the secondary rule. *)
Lemma getWinner_secondary (s : AIBallsState) :
  Forall (fun e => (e_count e < 5)%nat) (entities s) ->
  getWinnerBySecondaryCondition s =
    if Nat.eqb (maxCount s) 0 then None
    else match List.map (collectorOf (maxCount s)) (holders s) with
         | [] => None
         | [only] =>
             Some (mkWinner (c_id only) (c_isPlayer only) (c_color only)
                     most_powerups (maxCount s) None)
         | _ =>
             match sortByTimestamp (List.map (collectorOf (maxCount s)) (holders s)) with
             | first :: _ =>
                 Some (mkWinner (c_id first) (c_isPlayer first) (c_color first)
                         tiebreaker (maxCount s)
                         (Some (List.existsb c_isPlayer
                            (sortByTimestamp
                               (List.map (collectorOf (maxCount s)) (holders s))))))
             | [] => None
             end
         end.
Proof.
  intros Hall. rewrite List.Forall_forall in Hall.
  unfold getWinnerBySecondaryCondition.
  assert (Hp : (playerPowerUpsCollected s < 5)%nat).
  { apply (Hall (playerEntity s)). now left. }
  destruct (Nat.leb_spec 5 (playerPowerUpsCollected s)); [lia|].
  pose proof (find_primary_split (aiBalls s)) as Hf.
  destruct (List.find _ (aiBalls s)) as [b|].
  - destruct Hf as (l1 & l2 & Hl & Hb & _). exfalso.
    assert (Hin : In (ballEntity b) (entities s)).
    { right. apply List.in_map. rewrite Hl. apply List.in_or_app. right. now left. }
    specialize (Hall _ Hin). simpl in Hall. lia.
  - cbv zeta. rewrite getMax_maxCount, topCollectors_holders. reflexivity.
Qed.

(** C1.  The win resolver.  If some entity has collected five or more, the
    result is such an entity with reason [primary].  Otherwise: a maximum
    of 0 gives no winner; a maximum held by exactly one entity gives that
    entity with reason [most_powerups]; a maximum N held by several gives,
    with reason [tiebreaker], the first of the holders whose N-th
    collection timestamp is least, and the [playerWasInTie] flag, which is
    true exactly when the player holds the maximum. *)
Theorem getWinner_resolution (s : AIBallsState) :
  (Exists (fun e => (5 <= e_count e)%nat) (entities s) ->
   exists e, In e (entities s) /\ (5 <= e_count e)%nat /\
     getWinnerBySecondaryCondition s = Some (winnerOf e primary None))
  /\
  (Forall (fun e => (e_count e < 5)%nat) (entities s) ->
   (maxCount s = 0%nat -> getWinnerBySecondaryCondition s = None)
   /\
   (maxCount s <> 0%nat -> forall e, holders s = [e] ->
    getWinnerBySecondaryCondition s = Some (winnerOf e most_powerups None))
   /\
   (maxCount s <> 0%nat -> (2 <= length (holders s))%nat ->
    exists l1 e l2,
      holders s = l1 ++ e :: l2 /\
      (forall x, In x l1 -> (reachedAt e < reachedAt x)%Z) /\
      (forall x, In x l2 -> (reachedAt e <= reachedAt x)%Z) /\
      getWinnerBySecondaryCondition s =
        Some (winnerOf e tiebreaker
                (Some (List.existsb e_isPlayer (holders s)))))
   /\
   (List.existsb e_isPlayer (holders s) = true <->
    playerPowerUpsCollected s = maxCount s)).
Proof.
  split.
  - intros Hex. unfold getWinnerBySecondaryCondition.
    destruct (Nat.leb_spec 5 (playerPowerUpsCollected s)) as [Hp|Hp].
    + exists (playerEntity s). repeat split; auto. now left.
    + pose proof (find_primary_split (aiBalls s)) as Hf.
      destruct (List.find _ (aiBalls s)) as [b|].
      * destruct Hf as (l1 & l2 & Hl & Hb & _).
        exists (ballEntity b). repeat split; auto.
        right. apply List.in_map. rewrite Hl.
        apply List.in_or_app. right. now left.
      * exfalso. apply List.Exists_exists in Hex.
        destruct Hex as [e [[He|He] Hge]].
        -- subst e. simpl in Hge. lia.
        -- apply List.in_map_iff in He. destruct He as [b [Hb Hin]].
           subst e. specialize (Hf b Hin). simpl in Hge. lia.
  - intros Hall. pose proof (getWinner_secondary s Hall) as Hw.
    repeat split.
    + intros H0. rewrite Hw, H0. reflexivity.
    + intros Hne e He. rewrite Hw.
      destruct (Nat.eqb_spec (maxCount s) 0); [contradiction|].
      rewrite He. simpl. unfold winnerOf.
      rewrite (holders_count s e); [reflexivity|]. rewrite He. now left.
    + intros Hne Hlen. rewrite Hw.
      destruct (Nat.eqb_spec (maxCount s) 0); [contradiction|].
      destruct (sortByTimestamp_head (List.map (collectorOf (maxCount s)) (holders s)))
        as (k1 & c & k2 & rest & Hl & Hs & H1 & H2).
      { destruct (holders s); simpl in *; [lia | congruence]. }
      apply List.map_eq_app in Hl.
      destruct Hl as (l1 & l2' & Hh & Hk1 & Hl).
      apply List.map_eq_cons in Hl. destruct Hl as (e & l2 & Hl2 & Hc & Hk2).
      subst l2' k1 k2 c.
      assert (Hcnt : forall x, In x (holders s) -> e_count x <> 0%nat).
      { intros x Hx. rewrite (holders_count s x Hx). exact Hne. }
      assert (Hin : forall x, In x l1 \/ x = e \/ In x l2 -> In x (holders s)).
      { intros x Hx. rewrite Hh. apply List.in_or_app.
        destruct Hx as [Hx|[Hx|Hx]]; [now left | right; now left | right; now right]. }
      exists l1, e, l2. repeat split.
      * exact Hh.
      * intros x Hx. specialize (H1 (collectorOf (maxCount s) x)).
        simpl in H1.
        rewrite <- !stampAt_reachedAt by (apply Hcnt, Hin; tauto).
        apply H1. now apply List.in_map.
      * intros x Hx. specialize (H2 (collectorOf (maxCount s) x)).
        simpl in H2.
        rewrite <- !stampAt_reachedAt by (apply Hcnt, Hin; tauto).
        apply H2. now apply List.in_map.
      * rewrite sortByTimestamp_existsb, existsb_collectorOf, Hs.
        assert (Hlen' : (2 <= length (List.map (collectorOf (maxCount s)) (holders s)))%nat)
          by now rewrite List.length_map.
        destruct (List.map (collectorOf (maxCount s)) (holders s)) as [|c0 [|c1 tl]];
          simpl in Hlen'; try lia.
        unfold winnerOf. simpl.
        rewrite (holders_count s e) by (apply Hin; tauto). reflexivity.
    + apply holders_player.
    + apply holders_player.
Qed.

(** The theorem at the tied round: AI ball 2 wins the tiebreak and the
    player is reported as part of the tie. *)
Lemma getWinner_resolution_witness :
  Forall (fun e => (e_count e < 5)%nat) (entities tiedRound) /\
  maxCount tiedRound <> 0%nat /\
  (2 <= length (holders tiedRound))%nat /\
  exists l1 e l2,
    holders tiedRound = l1 ++ e :: l2 /\
    (forall x, In x l1 -> (reachedAt e < reachedAt x)%Z) /\
    (forall x, In x l2 -> (reachedAt e <= reachedAt x)%Z) /\
    getWinnerBySecondaryCondition tiedRound
      = Some (winnerOf e tiebreaker (Some true)).
Proof.
  assert (Hall : Forall (fun e => (e_count e < 5)%nat) (entities tiedRound)).
  { repeat constructor. }
  assert (Hmax : maxCount tiedRound <> 0%nat) by discriminate.
  assert (Hlen : (2 <= length (holders tiedRound))%nat) by (apply le_n).
  conjs; auto.
  destruct (getWinner_resolution tiedRound) as (_ & Hsec).
  destruct (Hsec Hall) as (_ & _ & Htie & _).
  exact (Htie Hmax Hlen).
Defined.

Lemma find_primary_sameScores (l l' : list AIBallEntry) :
  List.map (fun b => (id b, color b, powerUpsCollected b)) l =
  List.map (fun b => (id b, color b, powerUpsCollected b)) l' ->
  match List.find (fun ball => Nat.leb 5 (powerUpsCollected ball)) l,
        List.find (fun ball => Nat.leb 5 (powerUpsCollected ball)) l' with
  | Some b, Some b' =>
      id b = id b' /\ color b = color b' /\ powerUpsCollected b = powerUpsCollected b'
  | None, None => True
  | _, _ => False
  end.
Proof.
  revert l'. induction l as [|a l IH]; intros [|a' l'] Heq;
    try discriminate Heq; cbn [List.find].
  - exact I.
  - cbn [List.map] in Heq. injection Heq as Hi Hc Hp Hrest.
    rewrite <- Hp.
    destruct (Nat.leb 5 (powerUpsCollected a)).
    + now repeat split.
    + now apply IH.
Qed.

(** C10.  Order among simultaneous primary winners: the player comes
    before every AI ball, and among the AI balls the first of the array
    with five or more is returned; the timestamps play no part. *)
Theorem primary_tie_order (s : AIBallsState) :
  ((5 <= playerPowerUpsCollected s)%nat ->
   getWinnerBySecondaryCondition s = Some (winnerOf (playerEntity s) primary None))
  /\
  ((playerPowerUpsCollected s < 5)%nat ->
   forall l1 b l2,
     aiBalls s = l1 ++ b :: l2 ->
     (forall x, In x l1 -> (powerUpsCollected x < 5)%nat) ->
     (5 <= powerUpsCollected b)%nat ->
     getWinnerBySecondaryCondition s = Some (winnerOf (ballEntity b) primary None))
  /\
  (forall s', sameScores s s' ->
     Exists (fun e => (5 <= e_count e)%nat) (entities s) ->
     getWinnerBySecondaryCondition s' = getWinnerBySecondaryCondition s).
Proof.
  split; [|split].
  - intros Hp. unfold getWinnerBySecondaryCondition.
    destruct (Nat.leb_spec 5 (playerPowerUpsCollected s)); [reflexivity | lia].
  - intros Hp l1 b l2 Hl H1 Hb. unfold getWinnerBySecondaryCondition.
    destruct (Nat.leb_spec 5 (playerPowerUpsCollected s)); [lia|].
    rewrite Hl, (find_primary_first l1 l2 b H1 Hb). reflexivity.
  - intros s' [Hp Hb] Hex. unfold getWinnerBySecondaryCondition.
    rewrite <- Hp.
    destruct (Nat.leb_spec 5 (playerPowerUpsCollected s)) as [Hge|Hlt];
      [reflexivity|].
    pose proof (find_primary_sameScores _ _ Hb) as Hf.
    pose proof (find_primary_split (aiBalls s)) as Hs.
    destruct (List.find _ (aiBalls s)) as [b|].
    + destruct (List.find _ (aiBalls s')) as [b'|]; [|contradiction].
      destruct Hf as (Hi & Hc & Hn). now rewrite Hi, Hc, Hn.
    + exfalso. apply List.Exists_exists in Hex.
      destruct Hex as [e [[He|He] Hge]].
      * subst e. simpl in Hge. lia.
      * apply List.in_map_iff in He. destruct He as [b [Hbe Hin]].
        subst e. specialize (Hs b Hin). simpl in Hge. lia.
Qed.

(** The theorem at two simultaneous primary winners: the first of the
    array is returned although the other reached five earlier. *)
Lemma primary_tie_order_witness :
  getWinnerBySecondaryCondition doublePrimary
    = Some (mkWinner 2 false "#0000FF" primary 5 None).
Proof.
  destruct (primary_tie_order doublePrimary) as (_ & Hai & _).
  apply (Hai (Nat.lt_0_succ 4)
           [mkAIBallEntry 1 vzero 1 [10]%Z "#FF0000"]
           (mkAIBallEntry 2 vzero 5 [100; 200; 300; 400; 900]%Z "#0000FF")
           [mkAIBallEntry 3 vzero 6 [11; 21; 31; 41; 51; 61]%Z "#00FF00"]
           eq_refl).
  - intros x [<-|[]]. simpl. lia.
  - apply le_n.
Defined.

(** The store's actions keep one timestamp per collection. *)
Lemma initialState_stamps : stampsMatchCounts initialState.
Proof. split; [reflexivity | constructor]. Qed.

Lemma resetBalls_stamps (s : AIBallsState) : stampsMatchCounts (resetBalls s).
Proof.
  split; [reflexivity|]. simpl. apply List.Forall_forall. intros b Hb.
  apply List.in_map_iff in Hb. destruct Hb as [b0 [Hb0 _]]. now subst b.
Qed.

Lemma incrementPlayerPowerUps_stamps (now : Z) (s : AIBallsState) :
  stampsMatchCounts s -> stampsMatchCounts (fst (incrementPlayerPowerUps now s)).
Proof.
  intros [Hp Ha]. split; simpl; [|exact Ha].
  rewrite List.length_app, Hp. reflexivity.
Qed.

Lemma incrementPowerUps_stamps (i : nat) (now : Z) (s : AIBallsState) :
  stampsMatchCounts s -> stampsMatchCounts (fst (incrementPowerUps i now s)).
Proof.
  intros [Hp Ha]. split; simpl; [exact Hp|].
  rewrite List.Forall_forall in Ha. apply List.Forall_forall. intros b Hb.
  apply List.in_map_iff in Hb. destruct Hb as [b0 [Hb0 Hin]].
  specialize (Ha b0 Hin). subst b.
  destruct (Nat.eqb (id b0) i); simpl; [|exact Ha].
  rewrite List.length_app, Ha. reflexivity.
Qed.

Lemma registerBall_stamps (i : nat) (p : Vec3) (c : string) (s : AIBallsState) :
  stampsMatchCounts s -> stampsMatchCounts (registerBall i p c s).
Proof.
  intros [Hp Ha]. split; simpl; [exact Hp|].
  rewrite List.Forall_forall in Ha.
  apply List.Forall_app. split.
  - apply List.Forall_forall. intros b Hb. apply List.filter_In in Hb.
    apply Ha. tauto.
  - constructor; [|constructor]. simpl.
    destruct (List.find (fun ball => Nat.eqb (id ball) i) (aiBalls s)) as [b|] eqn:Hf.
    + apply List.find_some in Hf. apply Ha. tauto.
    + reflexivity.
Qed.

(** With one timestamp per collection, [reachedAt] reads an entry of the
    list and never the default. *)
Lemma reachedAt_defined (s : AIBallsState) (e : Entity) :
  stampsMatchCounts s -> In e (entities s) -> e_count e <> 0%nat ->
  List.nth_error (e_stamps e) (e_count e - 1) = Some (reachedAt e).
Proof.
  intros [Hp Ha] Hin Hne.
  assert (Hlen : length (e_stamps e) = e_count e).
  { destruct Hin as [He|He].
    - subst e. exact Hp.
    - apply List.in_map_iff in He. destruct He as [b [Hb Hin]]. subst e.
      rewrite List.Forall_forall in Ha. now apply Ha. }
  unfold reachedAt. apply List.nth_error_nth'. lia.
Qed.

(** The four scenarios of the design document. *)
Example scenario_primary :
  getWinnerBySecondaryCondition
    (mkAIBallsState
       [mkAIBallEntry 1 vzero 3 [10; 20; 30]%Z "#FF0000";
        mkAIBallEntry 2 vzero 4 [11; 21; 31; 41]%Z "#0000FF"]
       5 [5; 15; 25; 35; 45]%Z)
  = Some (mkWinner 0 true playerColor primary 5 None).
Proof. reflexivity. Qed.

Example scenario_most_powerups :
  getWinnerBySecondaryCondition
    (mkAIBallsState
       [mkAIBallEntry 1 vzero 2 [10; 20]%Z "#FF0000";
        mkAIBallEntry 2 vzero 2 [11; 21]%Z "#0000FF";
        mkAIBallEntry 3 vzero 2 [12; 22]%Z "#00FF00";
        mkAIBallEntry 4 vzero 3 [13; 23; 33]%Z "#FFFF00";
        mkAIBallEntry 5 vzero 1 [14]%Z "#800080"]
       2 [5; 15]%Z)
  = Some (mkWinner 4 false "#FFFF00" most_powerups 3 None).
Proof. reflexivity. Qed.

Example scenario_tiebreaker :
  getWinnerBySecondaryCondition
    (mkAIBallsState
       [mkAIBallEntry 1 vzero 2 [10; 20]%Z "#FF0000";
        mkAIBallEntry 2 vzero 4 [100; 200; 300; 900]%Z "#0000FF";
        mkAIBallEntry 3 vzero 2 [12; 22]%Z "#00FF00"]
       4 [50; 150; 250; 1000]%Z)
  = Some (mkWinner 2 false "#0000FF" tiebreaker 4 (Some true)).
Proof. reflexivity. Qed.

Example scenario_nobody :
  getWinnerBySecondaryCondition
    (mkAIBallsState
       [mkAIBallEntry 1 vzero 0 [] "#FF0000";
        mkAIBallEntry 2 vzero 0 [] "#0000FF"]
       0 [])
  = None.
Proof. reflexivity. Qed.

End WinResolver.

(** ** The pause-safe clock *)

Module PhysicsClockProps.
Import PhysicsClock.

(** C4.  The clock's [tick].  While paused it returns 0 and leaves the
    store as it is.  The first tick after a resume returns 1/120 whatever
    the times involved, records the current time and clears the
    first-frame flag; so does one tick after [setPaused true] then
    [setPaused false] from any state, and the tick after that one is a
    normal one.  In normal operation [tick] returns the current time (in
    seconds) minus the last timestamp, capped at 1/30, and records the
    current time.  [reset] re-bases the last timestamp to now, with zero
    accumulated time and both flags cleared. *)
Theorem tick_contract (s : PhysicsClockState) (now now' t1 t2 : Q) :
  (isPaused s = true -> tick now s = (s, 0))
  /\
  (isPaused s = false -> isFirstFrameAfterResume s = true ->
   tick now s =
     (mkPhysicsClockState (now / 1000) false (accumulatedTime s)
        (pauseStartTime s) false,
      1 # 120))
  /\
  (isPaused s = true ->
   tick now (setPaused false t2 s) =
     (mkPhysicsClockState (now / 1000) false (accumulatedTime s) None false,
      1 # 120))
  /\
  tick now (setPaused false t2 (setPaused true t1 s)) =
    (mkPhysicsClockState (now / 1000) false (accumulatedTime s) None false,
     1 # 120)
  /\
  (snd (tick now' (fst (tick now (setPaused false t2 (setPaused true t1 s)))))
     == Qmin (now' / 1000 - now / 1000) (1 # 30) /\
   lastTimestamp
     (fst (tick now' (fst (tick now (setPaused false t2 (setPaused true t1 s))))))
     = now' / 1000)
  /\
  (isPaused s = false -> isFirstFrameAfterResume s = false ->
   snd (tick now s) == Qmin (now / 1000 - lastTimestamp s) (1 # 30) /\
   snd (tick now s) <= 1 # 30 /\
   lastTimestamp (fst (tick now s)) = now / 1000 /\
   isPaused (fst (tick now s)) = false /\
   isFirstFrameAfterResume (fst (tick now s)) = false /\
   accumulatedTime (fst (tick now s)) = accumulatedTime s /\
   pauseStartTime (fst (tick now s)) = pauseStartTime s)
  /\
  reset now s = mkPhysicsClockState (now / 1000) false 0 None false.
Proof.
  assert (Hrun : forall (u : PhysicsClockState) (t : Q),
            isPaused u = false -> isFirstFrameAfterResume u = false ->
            snd (tick t u) == Qmin (t / 1000 - lastTimestamp u) (1 # 30) /\
            snd (tick t u) <= 1 # 30 /\
            lastTimestamp (fst (tick t u)) = t / 1000 /\
            isPaused (fst (tick t u)) = false /\
            isFirstFrameAfterResume (fst (tick t u)) = false /\
            accumulatedTime (fst (tick t u)) = accumulatedTime u /\
            pauseStartTime (fst (tick t u)) = pauseStartTime u).
  { intros u t Hp Hf. unfold tick. rewrite Hp, Hf. cbv zeta. simpl fst. simpl snd.
    unfold MAX_DELTA.
    destruct (Qltb (1 # 30) (t / 1000 - lastTimestamp u)) eqn:E.
    - apply Qltb_true in E. conjs; try reflexivity; try lra.
      symmetry. apply Q.min_r. lra.
    - apply Qltb_false in E. conjs; try reflexivity; try lra.
      symmetry. apply Q.min_l. lra. }
  assert (Hresume : tick now (setPaused false t2 (setPaused true t1 s)) =
            (mkPhysicsClockState (now / 1000) false (accumulatedTime s) None false,
             1 # 120)).
  { destruct s as [l p a ps f]. destruct p; reflexivity. }
  conjs.
  - intros Hp. unfold tick. now rewrite Hp.
  - intros Hp Hf. unfold tick. rewrite Hp, Hf. reflexivity.
  - intros Hp. unfold setPaused, tick. rewrite Hp. reflexivity.
  - exact Hresume.
  - rewrite Hresume. cbn [fst].
    destruct (Hrun (mkPhysicsClockState (now / 1000) false (accumulatedTime s) None false)
                now' eq_refl eq_refl) as (Hd & _ & Hl & _).
    exact Hd.
  - rewrite Hresume. cbn [fst].
    destruct (Hrun (mkPhysicsClockState (now / 1000) false (accumulatedTime s) None false)
                now' eq_refl eq_refl) as (_ & _ & Hl & _).
    exact Hl.
  - intros Hp Hf. now apply Hrun.
  - reflexivity.
Qed.

(** The theorem at a clock that ran, was paused for an hour and resumed:
    the first tick returns 1/120 and leaves a running clock at the time of
    that tick, and the tick 16 ms later returns those 16 ms. *)
Lemma tick_contract_witness :
  tick 3605000 (setPaused false 3604000 (setPaused true 4000 initialState))
    = (mkPhysicsClockState (3605000 / 1000) false 0 None false, 1 # 120) /\
  snd (tick 3605016
         (fst (tick 3605000
                 (setPaused false 3604000 (setPaused true 4000 initialState)))))
    == 2 # 125.
Proof.
  destruct (tick_contract initialState 3605000 3605016 4000 3604000)
    as (_ & _ & _ & Hresume & (Hnext & _) & _).
  split.
  - rewrite Hresume. reflexivity.
  - rewrite Hnext. reflexivity.
Defined.

End PhysicsClockProps.

(** ** The fixed-step loop *)

Module PhysicsWorldProps.
Import PhysicsWorld.



End PhysicsWorldProps.

(** ** The fixed-step loop in binary64 arithmetic *)

Module Binary64Props.
Import Binary64.

Local Open Scope Z_scope.






Local Open Scope Q_scope.





(** Exact arithmetic, which rounds nothing, is accurate. *)
Lemma exact_accurate : PhysicsWorldRounded.accurate (fun x => x).
Proof.
  intros x Hx. unfold eps. split; nra.
Qed.

End Binary64Props.

Module PhysicsWorldRoundedProps.
Import PhysicsWorld PhysicsWorldRounded.

Section Accurate.

Variable rnd : Q -> Q.
Hypothesis rnd_accurate : accurate rnd.



Lemma stepLoopR_step (fuel : nat) (acc : Q) (done : list Q) :
  stepLoopR rnd (S fuel) acc done =
    if Qgeb acc (fixedTimeStepR rnd) then
      if Nat.leb 4 (length (done ++ [fixedTimeStepR rnd]))
      then Some (0, mkFrameLog (done ++ [fixedTimeStepR rnd])
                      (rnd (acc - fixedTimeStepR rnd)))
      else stepLoopR rnd fuel (rnd (acc - fixedTimeStepR rnd))
             (done ++ [fixedTimeStepR rnd])
    else Some (acc, mkFrameLog done 0).
Proof. reflexivity. Qed.









End Accurate.

(** The embedding with its roundings, where nothing is rounded, is the
    embedding in exact arithmetic. *)
Lemma stepLoopR_exact (fuel : nat) : forall (acc : Q) (done : list Q),
  stepLoopR (fun x => x) fuel acc done = stepLoop fuel acc done.
Proof.
  induction fuel as [|fuel IH]; intros acc done; [reflexivity|].
  rewrite stepLoopR_step. cbn [stepLoop].
  change (fixedTimeStepR (fun x => x)) with fixedTimeStep.
  cbv zeta. now rewrite IH.
Qed.

Lemma useFrameR_exact (fuel : nat) (isPaused : bool) (time : Q) (r : Refs) :
  useFrameR (fun x => x) fuel isPaused time r = useFrame fuel isPaused time r.
Proof.
  unfold useFrameR, useFrame.
  destruct (negb (hasWorld r) || isPaused); [reflexivity|].
  destruct (prevTimeRef r) as [prev|]; [|reflexivity].
  cbv zeta. now rewrite stepLoopR_exact.
Qed.


(** The readings of the clock in the run below: the clock of the renderer
    stands at 1 s and advances by 1/60 s per frame, in binary64. *)
Lemma clock_from_one :
  clockReadings Binary64.round 1 (Binary64.round (1 # 60)) 60
  = 1 :: List.tl (clockReadings Binary64.round 1 (Binary64.round (1 # 60)) 60).
Proof. reflexivity. Qed.



End PhysicsWorldRoundedProps.

(** ** Bodies: creation and replacement on a change of scale *)

Module BodyProps.
Import Cannon BodyLaw.

Lemma boxSphere_fresh (k : Q) (mat : string) (ld ad : Q) (sl : bool)
    (pos vel ang : Vec3) :
  boxSphere k
    (mkBody ((5 : Q) * k ^ 3) ((1 # 2) * k) mat ld ad sl
       (boxInertia (mkVec3 ((1 # 2) * k) ((1 # 2) * k) ((1 # 2) * k)) (5 * k ^ 3))
       pos vel ang).
Proof.
  unfold boxSphere, boxInertia. simpl. conjs; try reflexivity; field.
Qed.

Lemma boxSphere_applyImpulse (k : Q) (j r : Vec3) (b : Body) :
  boxSphere k b -> boxSphere k (applyImpulse j r b).
Proof.
  unfold applyImpulse. destruct (Qle_bool (mass b) 0); auto.
Qed.

(** The two values of the inertia differ on every ball that has a size. *)
Lemma boxSphere_not_solid (k : Q) (b : Body) :
  ~ k == 0 -> boxSphere k b -> ~ solidSphere k b.
Proof.
  intros Hk (Hr & Hm & Hx & _) (_ & _ & Hx' & _).
  rewrite Hx in Hx'. rewrite Hm, Hr in Hx'.
  assert (Hzero : k ^ 5 == 0).
  { assert (E : (2 # 3) * (5 * k ^ 3) * ((1 # 2) * k) ^ 2
                == (2 # 5) * (5 * k ^ 3) * ((1 # 2) * k) ^ 2) by exact Hx'.
    assert (E5 : (2 # 3) * (5 * k ^ 3) * ((1 # 2) * k) ^ 2 == (5 # 6) * k ^ 5) by ring.
    assert (E6 : (2 # 5) * (5 * k ^ 3) * ((1 # 2) * k) ^ 2 == (1 # 2) * k ^ 5) by ring.
    rewrite E5, E6 in E. lra. }
  apply Hk.
  assert (H2 : k * k == 0 \/ k * k * k == 0).
  { apply Qmult_integral. rewrite <- Hzero. ring. }
  destruct H2 as [H2|H3].
  - destruct (Qmult_integral _ _ H2); assumption.
  - destruct (Qmult_integral _ _ H3) as [H2|H1]; [|exact H1].
    destruct (Qmult_integral _ _ H2); assumption.
Qed.

(** What the player's scale effect leaves behind. *)
Lemma ball_scaleEffect_result (k : Q) (c : Ball.BallRefs) (p : Physics)
    (old : nat) (ws : list nat) (body : Body) :
  Ball.bodyRef c = Some old -> world p = Some ws -> heap p !! old = Some body ->
  Ball.scaleEffect k c p =
    (Ball.mkBallRefs (Some (nextBody p)) (Ball.meshMounted c),
     mkPhysics
       (<[nextBody p :=
            mkBody (Ball.massOf k) (Ball.radiusOf k) "ball" (2 # 5) (2 # 5) true
              (boxInertia (mkVec3 (Ball.radiusOf k) (Ball.radiusOf k) (Ball.radiusOf k))
                 (Ball.massOf k))
              (if Qltb (vy (position body)) (Ball.radiusOf k)
               then mkVec3 (vx (position body)) (Ball.radiusOf k) (vz (position body))
               else position body)
              (velocity body) (angularVelocity body)]> (heap p))
       (S (nextBody p))
       (Some (List.filter (fun h' => negb (Nat.eqb h' old)) ws ++ [nextBody p]))
       (Some (nextBody p))).
Proof.
  destruct c as [br mm], p as [hp nb w pb]. simpl. intros -> -> Hb.
  unfold Ball.scaleEffect. simpl. rewrite Hb. reflexivity.
Qed.

(** What [createPhysicsBody] leaves behind when there is a world. *)
Lemma createPhysicsBody_result (k : Q) (pos : Vec3) (vel ang : option Vec3)
    (p : Physics) (ws : list nat) :
  world p = Some ws ->
  AIBall.createPhysicsBody k pos vel ang p =
    (Some (nextBody p),
     mkPhysics
       (<[nextBody p :=
            mkBody (AIBall.massOf k) (AIBall.radiusOf k) "aiball" (2 # 5) (2 # 5) false
              (boxInertia (mkVec3 (AIBall.radiusOf k) (AIBall.radiusOf k) (AIBall.radiusOf k))
                 (AIBall.massOf k))
              pos
              (match vel with Some v => v | None => vzero end)
              (match ang with Some w => w | None => vzero end)]> (heap p))
       (S (nextBody p))
       (Some (ws ++ [nextBody p]))
       (playerBody p)).
Proof.
  destruct p as [hp nb w pb]. simpl. intros ->. reflexivity.
Qed.

(** What the AI ball's scale effect leaves behind. *)
Lemma ai_scaleEffect_result (k : Q) (kick : Vec3) (c : AIBall.AIBallRefs)
    (p : Physics) (old : nat) (ws : list nat) (body : Body) :
  AIBall.bodyRef c = Some old -> world p = Some ws -> heap p !! old = Some body ->
  AIBall.scaleEffect k kick c p =
    (AIBall.resetTargeting (AIBall.setBodyRef (Some (nextBody p)) (AIBall.setBodyRef None c)),
     mkPhysics
       (<[nextBody p :=
            applyImpulse kick vzero
              (mkBody (AIBall.massOf k) (AIBall.radiusOf k) "aiball" (2 # 5) (2 # 5) false
                 (boxInertia (mkVec3 (AIBall.radiusOf k) (AIBall.radiusOf k) (AIBall.radiusOf k))
                 (AIBall.massOf k))
                 (position body) (velocity body) (angularVelocity body))]> (heap p))
       (S (nextBody p))
       (Some (List.filter (fun h' => negb (Nat.eqb h' old)) ws ++ [nextBody p]))
       (playerBody p)).
Proof.
  destruct c as [ci cc br tp ld pr ii ft mm], p as [hp nb w pb].
  simpl. intros -> -> Hb.
  unfold AIBall.scaleEffect. simpl. rewrite Hb. simpl.
  unfold updateBody. simpl. f_equal. f_equal.
  apply map_eq. intros i. destruct (decide (i = nb)) as [->|Hne].
  - rewrite !lookup_alter_eq, !lookup_insert_eq. reflexivity.
  - rewrite !lookup_alter_ne, !lookup_insert_ne by congruence. reflexivity.
Qed.

Lemma createPlayerBall_body (k x z : Q) (c : Ball.BallRefs) (p : Physics)
    (ws : list nat) :
  world p = Some ws -> Ball.meshMounted c = true ->
  Ball.bodyRef (fst (Ball.createPlayerBall k x z c p)) = Some (nextBody p) /\
  playerBody (snd (Ball.createPlayerBall k x z c p)) = Some (nextBody p) /\
  heap (snd (Ball.createPlayerBall k x z c p)) !! nextBody p =
    Some (mkBody (Ball.massOf k) (Ball.radiusOf k) "ball" (2 # 5) (2 # 5) true
            (boxInertia (mkVec3 (Ball.radiusOf k) (Ball.radiusOf k) (Ball.radiusOf k))
                 (Ball.massOf k))
            (mkVec3 x (Ball.radiusOf k) z) vzero vzero).
Proof.
  destruct c as [br mm], p as [hp nb w pb]. simpl. intros -> ->.
  unfold Ball.createPlayerBall. simpl.
  destruct br; simpl; conjs; try reflexivity; apply lookup_insert_eq.
Qed.

Lemma createAIBall_body (k x z : Q) (c : AIBall.AIBallRefs) (p : Physics)
    (store : AIBallsStore.AIBallsState) (ws : list nat) :
  world p = Some ws ->
  AIBall.bodyRef (fst (fst (AIBall.createAIBall k x z c p store))) = Some (nextBody p) /\
  heap (snd (fst (AIBall.createAIBall k x z c p store))) !! nextBody p =
    Some (mkBody (AIBall.massOf k) (AIBall.radiusOf k) "aiball" (2 # 5) (2 # 5) false
            (boxInertia (mkVec3 (AIBall.radiusOf k) (AIBall.radiusOf k) (AIBall.radiusOf k))
                 (AIBall.massOf k))
            (mkVec3 x (AIBall.radiusOf k) z) vzero vzero) /\
  snd (AIBall.createAIBall k x z c p store) =
    AIBallsStore.registerBall (AIBall.ballId c)
      (mkVec3 x (AIBall.radiusOf k) z) (AIBall.ballColor c) store.
Proof.
  destruct c as [ci cc br tp ld pr ii ft mm], p as [hp nb w pb].
  simpl. intros ->.
  unfold AIBall.createAIBall. simpl.
  destruct br; simpl; conjs; try reflexivity;
    rewrite lookup_alter_eq, lookup_insert_eq; reflexivity.
Qed.

(** C8.  Radius, mass and inertia, as the code has them.  At every scale
    [k] the radius is [0.5 k] and the mass [5 k^3], for the player and for
    the AI balls, and every creation and every replacement on a change of
    scale installs a body of that radius and that mass.  The inertia of
    that body is not the [(2/5) m r^2] the components assign: each of them
    calls [updateMassProperties] right after the assignment, which leaves
    [(2/3) m r^2] on the three axes, a different value at every scale
    other than 0. *)
Theorem inertia_overwritten (k : Q) :
  (Ball.radiusOf k == (1 # 2) * k /\ Ball.massOf k == 5 * k ^ 3 /\
   AIBall.radiusOf k == (1 # 2) * k /\ AIBall.massOf k == 5 * k ^ 3)
  /\
  (forall x z c p ws,
     world p = Some ws -> Ball.meshMounted c = true ->
     exists b,
       bodyAt (snd (Ball.createPlayerBall k x z c p))
              (Ball.bodyRef (fst (Ball.createPlayerBall k x z c p))) = Some b /\
       boxSphere k b /\ (~ k == 0 -> ~ solidSphere k b))
  /\
  (forall c p old ws body,
     Ball.bodyRef c = Some old -> world p = Some ws -> heap p !! old = Some body ->
     exists b,
       bodyAt (snd (Ball.scaleEffect k c p))
              (Ball.bodyRef (fst (Ball.scaleEffect k c p))) = Some b /\
       boxSphere k b /\ (~ k == 0 -> ~ solidSphere k b))
  /\
  (forall pos vel ang p ws,
     world p = Some ws ->
     exists b,
       bodyAt (snd (AIBall.createPhysicsBody k pos vel ang p))
              (fst (AIBall.createPhysicsBody k pos vel ang p)) = Some b /\
       boxSphere k b /\ (~ k == 0 -> ~ solidSphere k b))
  /\
  (forall x z c p store ws,
     world p = Some ws ->
     exists b,
       bodyAt (snd (fst (AIBall.createAIBall k x z c p store)))
              (AIBall.bodyRef (fst (fst (AIBall.createAIBall k x z c p store)))) = Some b /\
       boxSphere k b /\ (~ k == 0 -> ~ solidSphere k b))
  /\
  (forall kick c p old ws body,
     AIBall.bodyRef c = Some old -> world p = Some ws -> heap p !! old = Some body ->
     exists b,
       bodyAt (snd (AIBall.scaleEffect k kick c p))
              (AIBall.bodyRef (fst (AIBall.scaleEffect k kick c p))) = Some b /\
       boxSphere k b /\ (~ k == 0 -> ~ solidSphere k b)).
Proof.
  assert (Hbox : forall b, boxSphere k b ->
            boxSphere k b /\ (~ k == 0 -> ~ solidSphere k b)).
  { intros b Hb. split; [exact Hb|]. intros Hk. now apply boxSphere_not_solid. }
  conjs; try reflexivity.
  - intros x z c p ws Hw Hm.
    destruct (createPlayerBall_body k x z c p ws Hw Hm) as (Hr & _ & Hh).
    rewrite Hr. simpl. rewrite Hh. eexists. split; [reflexivity|].
    apply Hbox, boxSphere_fresh.
  - intros c p old ws body Hr Hw Hb.
    rewrite (ball_scaleEffect_result k c p old ws body Hr Hw Hb). simpl.
    rewrite lookup_insert_eq. eexists. split; [reflexivity|].
    apply Hbox, boxSphere_fresh.
  - intros pos vel ang p ws Hw.
    rewrite (createPhysicsBody_result k pos vel ang p ws Hw). simpl.
    rewrite lookup_insert_eq. eexists. split; [reflexivity|].
    apply Hbox, boxSphere_fresh.
  - intros x z c p store ws Hw.
    destruct (createAIBall_body k x z c p store ws Hw) as (Hr & Hh & _).
    rewrite Hr. simpl. rewrite Hh. eexists. split; [reflexivity|].
    apply Hbox, boxSphere_fresh.
  - intros kick c p old ws body Hr Hw Hb.
    rewrite (ai_scaleEffect_result k kick c p old ws body Hr Hw Hb). simpl.
    rewrite lookup_insert_eq. eexists. split; [reflexivity|].
    apply Hbox, boxSphere_applyImpulse, boxSphere_fresh.
Qed.

(** The theorem at the player's ball created at scale 1 in an empty
    world: mass 5, radius 1/2, and the inertia 5/6 where the solid sphere
    has 1/2. *)
Lemma inertia_overwritten_witness :
  exists b,
    bodyAt (snd (Ball.createPlayerBall 1 0 24 (Ball.mkBallRefs None true) emptyWorld))
           (Ball.bodyRef
              (fst (Ball.createPlayerBall 1 0 24 (Ball.mkBallRefs None true) emptyWorld)))
      = Some b /\
    mass b == 5 /\ shapeRadius b == 1 # 2 /\
    vx (inertia b) == 5 # 6 /\ vy (inertia b) == 5 # 6 /\ vz (inertia b) == 5 # 6 /\
    ~ solidSphere 1 b.
Proof.
  destruct (inertia_overwritten 1) as (_ & Hcreate & _).
  destruct (Hcreate 0 24 (Ball.mkBallRefs None true) emptyWorld [] eq_refl eq_refl)
    as (b & Hb & (Hr & Hm & Hx & Hy & Hz) & Hnot).
  exists b. split; [exact Hb|].
  assert (Hm5 : mass b == 5) by (rewrite Hm; reflexivity).
  assert (Hr2 : shapeRadius b == 1 # 2) by (rewrite Hr; reflexivity).
  rewrite Hm5, Hr2 in Hx, Hy, Hz.
  conjs; try assumption.
  - rewrite Hx. reflexivity.
  - rewrite Hy. reflexivity.
  - rewrite Hz. reflexivity.
  - apply Hnot. discriminate.
Defined.

Lemma inWorld_appended (hp : gmap nat Body) (nb : nat) (bs : list nat)
    (pb : option nat) (h : nat) :
  inWorld (mkPhysics hp nb (Some (bs ++ [h])) pb) h.
Proof. simpl. apply List.in_or_app. right. now left. Qed.

Lemma not_inWorld_filtered (hp : gmap nat Body) (nb : nat) (ws : list nat)
    (pb : option nat) (old new : nat) :
  old <> new ->
  ~ inWorld (mkPhysics hp nb
       (Some (List.filter (fun h' => negb (Nat.eqb h' old)) ws ++ [new])) pb) old.
Proof.
  intros Hne Hin. simpl in Hin. apply List.in_app_or in Hin.
  destruct Hin as [Hin|[Hin|[]]].
  - apply List.filter_In in Hin. destruct Hin as [_ Hin].
    rewrite Nat.eqb_refl in Hin. discriminate.
  - congruence.
Qed.

(** C2 fails as stated.  The player's ball grows from scale 1 to 1.25
    while it rests on the ground: the new body is lifted to the new
    radius.  An AI ball grows from scale 1 to 1.25 and is kicked along z:
    its new body does not keep the captured velocity. *)
Lemma rescale_position_counterexample :
  (heap restingScene !! 0%nat = Some restingBall /\
   exists b,
     bodyAt (snd (Ball.scaleEffect (5 # 4) (Ball.mkBallRefs (Some 0%nat) true) restingScene))
            (Ball.bodyRef
               (fst (Ball.scaleEffect (5 # 4) (Ball.mkBallRefs (Some 0%nat) true)
                       restingScene)))
       = Some b /\
     ~ (veq (position b) (position restingBall) /\
        veq (velocity b) (velocity restingBall) /\
        veq (angularVelocity b) (angularVelocity restingBall)))
  /\
  (heap aiScene !! 0%nat = Some movingAIBall /\
   exists b,
     bodyAt (snd (AIBall.scaleEffect (5 # 4) (mkVec3 0 0 2)
                    (AIBall.mkAIBallRefs 1 "#FF0000" (Some 0%nat) None 0 vzero true 0 true)
                    aiScene))
            (AIBall.bodyRef
               (fst (AIBall.scaleEffect (5 # 4) (mkVec3 0 0 2)
                       (AIBall.mkAIBallRefs 1 "#FF0000" (Some 0%nat) None 0 vzero true 0 true)
                       aiScene)))
       = Some b /\
     ~ (veq (position b) (position movingAIBall) /\
        veq (velocity b) (velocity movingAIBall) /\
        veq (angularVelocity b) (angularVelocity movingAIBall))).
Proof.
  split; (split; [reflexivity|]).
  - rewrite (ball_scaleEffect_result (5 # 4) (Ball.mkBallRefs (Some 0%nat) true)
               restingScene 0%nat [0%nat] restingBall eq_refl eq_refl eq_refl).
    simpl. rewrite lookup_insert_eq. eexists. split; [reflexivity|].
    intros [(_ & Hy & _) _]. revert Hy. vm_compute. discriminate.
  - rewrite (ai_scaleEffect_result (5 # 4) (mkVec3 0 0 2)
               (AIBall.mkAIBallRefs 1 "#FF0000" (Some 0%nat) None 0 vzero true 0 true)
               aiScene 0%nat [0%nat] movingAIBall eq_refl eq_refl eq_refl).
    simpl. rewrite lookup_insert_eq. eexists. split; [reflexivity|].
    intros (_ & (_ & _ & Hz) & _). revert Hz. vm_compute. discriminate.
Qed.

(** C2, as the code has it.  On a change of scale the body is replaced:
    the old one leaves the world and a new one enters it.  The player's
    new body has the captured linear and angular velocity, the captured x
    and z, and the captured height unless that is below the new radius,
    in which case it stands at the new radius.  The AI ball's new body is
    registered with the captured position, linear and angular velocity;
    the effect then kicks it, so that it ends with the captured position
    and angular velocity and the captured linear velocity plus the kick
    divided by the new mass. *)
Theorem rescale_kinematics (k : Q) :
  (forall c p old ws body,
     Ball.bodyRef c = Some old -> world p = Some ws -> heap p !! old = Some body ->
     exists new b,
       Ball.bodyRef (fst (Ball.scaleEffect k c p)) = Some new /\
       playerBody (snd (Ball.scaleEffect k c p)) = Some new /\
       heap (snd (Ball.scaleEffect k c p)) !! new = Some b /\
       inWorld (snd (Ball.scaleEffect k c p)) new /\
       (old <> nextBody p -> ~ inWorld (snd (Ball.scaleEffect k c p)) old) /\
       velocity b = velocity body /\
       angularVelocity b = angularVelocity body /\
       vx (position b) = vx (position body) /\
       vz (position b) = vz (position body) /\
       vy (position b) =
         (if Qltb (vy (position body)) (Ball.radiusOf k)
          then Ball.radiusOf k else vy (position body)) /\
       (Ball.radiusOf k <= vy (position body) -> position b = position body))
  /\
  (forall kick c p old ws body,
     AIBall.bodyRef c = Some old -> world p = Some ws -> heap p !! old = Some body ->
     (exists b0,
        bodyAt (snd (AIBall.createPhysicsBody k (position body)
                       (Some (velocity body)) (Some (angularVelocity body))
                       (removeBody old p)))
               (fst (AIBall.createPhysicsBody k (position body)
                       (Some (velocity body)) (Some (angularVelocity body))
                       (removeBody old p))) = Some b0 /\
        position b0 = position body /\
        velocity b0 = velocity body /\
        angularVelocity b0 = angularVelocity body)
     /\
     exists new b,
       AIBall.bodyRef (fst (AIBall.scaleEffect k kick c p)) = Some new /\
       heap (snd (AIBall.scaleEffect k kick c p)) !! new = Some b /\
       inWorld (snd (AIBall.scaleEffect k kick c p)) new /\
       (old <> nextBody p -> ~ inWorld (snd (AIBall.scaleEffect k kick c p)) old) /\
       position b = position body /\
       veq (angularVelocity b) (angularVelocity body) /\
       (0 < AIBall.massOf k ->
        veq (velocity b)
            (vadd (velocity body) (vscale (/ AIBall.massOf k) kick))) /\
       (AIBall.massOf k <= 0 -> velocity b = velocity body)).
Proof.
  split.
  - intros c p old ws body Hr Hw Hb.
    rewrite (ball_scaleEffect_result k c p old ws body Hr Hw Hb).
    eexists _, _. cbn [fst snd Ball.bodyRef playerBody heap].
    split; [reflexivity|]. split; [reflexivity|].
    split; [apply lookup_insert_eq|].
    split; [apply inWorld_appended|].
    split; [intros Hne; now apply not_inWorld_filtered|].
    cbn [velocity angularVelocity position].
    destruct (Qltb (vy (position body)) (Ball.radiusOf k)) eqn:E;
      conjs; try reflexivity.
    + intros Hle. apply Qltb_true in E. lra.
  - intros kick c p old ws body Hr Hw Hb. split.
    + assert (Hw' : world (removeBody old p)
                    = Some (List.filter (fun h' => negb (Nat.eqb h' old)) ws)).
      { unfold removeBody. simpl. now rewrite Hw. }
      rewrite (createPhysicsBody_result k _ _ _ _ _ Hw'). simpl.
      rewrite lookup_insert_eq. eexists. split; [reflexivity|].
      simpl. auto.
    + rewrite (ai_scaleEffect_result k kick c p old ws body Hr Hw Hb).
      eexists _, _. cbn [fst snd AIBall.bodyRef AIBall.resetTargeting AIBall.setBodyRef heap].
      split; [reflexivity|].
      split; [apply lookup_insert_eq|].
      split; [apply inWorld_appended|].
      split; [intros Hne; now apply not_inWorld_filtered|].
      unfold applyImpulse. cbn [mass inertia position velocity angularVelocity].
      destruct (Qle_bool (AIBall.massOf k) 0) eqn:E;
        cbn [mass inertia position velocity angularVelocity].
      * apply Qle_bool_iff in E. conjs; try reflexivity.
        -- unfold veq. conjs; reflexivity.
        -- intros Hpos. exfalso. lra.
      * assert (Hpos : 0 < AIBall.massOf k).
        { apply Qnot_le_lt. intros Hle. apply Qle_bool_iff in Hle. congruence. }
        unfold veq, vadd, vscale, vcross, vzero. cbn [vx vy vz].
        conjs; try reflexivity; try ring.
        -- intros _. conjs; reflexivity.
        -- intros Hle. exfalso. lra.
Qed.

(** The theorem at the resting player ball and at the moving AI ball. *)
Lemma rescale_kinematics_witness :
  (exists new b,
     Ball.bodyRef (fst (Ball.scaleEffect (5 # 4) (Ball.mkBallRefs (Some 0%nat) true) restingScene))
       = Some new /\
     heap (snd (Ball.scaleEffect (5 # 4) (Ball.mkBallRefs (Some 0%nat) true) restingScene)) !! new
       = Some b /\
     velocity b = velocity restingBall /\
     angularVelocity b = angularVelocity restingBall)
  /\
  (exists new b,
     AIBall.bodyRef
       (fst (AIBall.scaleEffect (5 # 4) (mkVec3 0 0 2)
               (AIBall.mkAIBallRefs 1 "#FF0000" (Some 0%nat) None 0 vzero true 0 true)
               aiScene)) = Some new /\
     heap (snd (AIBall.scaleEffect (5 # 4) (mkVec3 0 0 2)
                  (AIBall.mkAIBallRefs 1 "#FF0000" (Some 0%nat) None 0 vzero true 0 true)
                  aiScene)) !! new = Some b /\
     position b = position movingAIBall).
Proof.
  destruct (rescale_kinematics (5 # 4)) as [Hplayer Hai]. split.
  - destruct (Hplayer (Ball.mkBallRefs (Some 0%nat) true) restingScene 0%nat [0%nat]
                restingBall eq_refl eq_refl eq_refl)
      as (new & b & Hr & _ & Hh & _ & _ & Hv & Hw & _).
    exists new, b. auto.
  - destruct (Hai (mkVec3 0 0 2)
                (AIBall.mkAIBallRefs 1 "#FF0000" (Some 0%nat) None 0 vzero true 0 true)
                aiScene 0%nat [0%nat] movingAIBall eq_refl eq_refl eq_refl)
      as (_ & new & b & Hr & Hh & _ & _ & Hp & _).
    exists new, b. auto.
Defined.

End BodyProps.

(** ** The collection lock *)

Module PowerUpProps.
Import PowerUp.

Lemma credits_app (l1 l2 : list Event) :
  credits (l1 ++ l2) = (credits l1 + credits l2)%nat.
Proof. unfold credits. now rewrite List.filter_app, List.length_app. Qed.

Lemma handlePlayerCollection_locked (now : Z) (c : Component) (r : Round) :
  isCollecting (rendered c) || isCollectingRef c = true ->
  handlePlayerCollection now c r = (c, r).
Proof. intros H. unfold handlePlayerCollection. now rewrite H. Qed.

Lemma handleAICollection_locked (i : nat) (col : string) (now : Z)
    (c : Component) (r : Round) :
  isCollecting (rendered c) || isCollectingRef c = true ->
  handleAICollection i col now c r = (c, r).
Proof. intros H. unfold handleAICollection. now rewrite H. Qed.

Lemma credits_afterLock (who : option nat) (won : bool) :
  List.filter isScore (LockState :: LockRef :: afterLock who won) = [Score who].
Proof. destruct who, won; reflexivity. Qed.

(** A collection by the player that passes the guard. *)
Lemma handlePlayerCollection_fires (now : Z) (c : Component) (r : Round) :
  isCollecting (rendered c) || isCollectingRef c = false ->
  exists won,
    log (snd (handlePlayerCollection now c r))
      = log r ++ LockState :: LockRef :: afterLock None won /\
    isCollectingRef (fst (handlePlayerCollection now c r)) = true /\
    isCollecting (pending (fst (handlePlayerCollection now c r))) = true /\
    active (powerUpState (pending (fst (handlePlayerCollection now c r)))) = false /\
    rendered (fst (handlePlayerCollection now c r)) = rendered c.
Proof.
  intros H. unfold handlePlayerCollection. rewrite H.
  unfold AIBallsStore.incrementPlayerPowerUps. cbv beta zeta iota.
  match goal with |- context [if ?w then _ else _] => destruct w end.
  - exists true. simpl. rewrite <- !List.app_assoc. simpl. auto.
  - exists false. simpl. rewrite <- !List.app_assoc. simpl. auto.
Qed.

(** A collection by an AI ball that passes the guard. *)
Lemma handleAICollection_fires (i : nat) (col : string) (now : Z)
    (c : Component) (r : Round) :
  isCollecting (rendered c) || isCollectingRef c = false ->
  exists won,
    log (snd (handleAICollection i col now c r))
      = log r ++ LockState :: LockRef :: afterLock (Some i) won /\
    isCollectingRef (fst (handleAICollection i col now c r)) = true /\
    isCollecting (pending (fst (handleAICollection i col now c r))) = true /\
    active (powerUpState (pending (fst (handleAICollection i col now c r)))) = false /\
    rendered (fst (handleAICollection i col now c r)) = rendered c.
Proof.
  intros H. unfold handleAICollection. rewrite H.
  unfold AIBallsStore.incrementPowerUps. cbv beta zeta iota.
  match goal with |- context [if ?w then _ else _] => destruct w end.
  - exists true. simpl. rewrite <- !List.app_assoc. simpl. auto.
  - exists false. simpl. rewrite <- !List.app_assoc. simpl. auto.
Qed.

(** The frame callback returns at once while the lock is set. *)
Lemma useFrame_locked (playerBody : option Vec3)
    (aiBalls : list AIBallsStore.AIBallEntry) (now : Z) (c : Component) (r : Round) :
  isCollecting (rendered c) || isCollectingRef c = true ->
  useFrame playerBody aiBalls now c r = (c, r).
Proof.
  intros H. unfold useFrame. apply orb_true_iff in H.
  destruct H as [H|H]; rewrite H; now rewrite ?orb_true_r.
Qed.

Lemma inReach_head (playerBody : option Vec3)
    (aiBalls : list AIBallsStore.AIBallEntry) (spot : Vec3) :
  match playerBody with
  | Some pos => withinReach pos spot
  | None => false
  end = false ->
  inReach playerBody aiBalls spot =
    List.map (fun b => Some (AIBallsStore.id b))
      (List.filter (fun b => withinReach (AIBallsStore.position b) spot) aiBalls).
Proof.
  intros H. unfold inReach. destruct playerBody as [pos|]; [|reflexivity].
  now rewrite H.
Qed.

Lemma find_filter_head {A : Type} (f : A -> bool) (l : list A) :
  List.find f l = List.hd_error (List.filter f l).
Proof.
  induction l as [|a l IH]; simpl; [reflexivity|].
  destruct (f a); [reflexivity | exact IH].
Qed.

(** One pass of the frame callback over an unlocked, visible power-up:
    nothing happens when nobody is within reach, and otherwise exactly
    one collection is credited, to the first entity within reach. *)
Lemma useFrame_one (playerBody : option Vec3)
    (aiBalls : list AIBallsStore.AIBallEntry) (now : Z) (c : Component) (r : Round) :
  meshMounted c = true ->
  isCollecting (rendered c) || isCollectingRef c = false ->
  match inReach playerBody aiBalls (position (powerUpState (rendered c))) with
  | [] => useFrame playerBody aiBalls now c r = (c, r)
  | who :: _ =>
      exists won,
        log (snd (useFrame playerBody aiBalls now c r))
          = log r ++ LockState :: LockRef :: afterLock who won /\
        isCollectingRef (fst (useFrame playerBody aiBalls now c r)) = true /\
        rendered (fst (useFrame playerBody aiBalls now c r)) = rendered c
  end.
Proof.
  intros Hm Hl. unfold useFrame.
  assert (Ha : active (powerUpState (rendered c)) = true).
  { unfold meshMounted in Hm. now apply andb_true_iff in Hm. }
  apply orb_false_iff in Hl. destruct Hl as [Hl1 Hl2].
  rewrite Hm, Ha, Hl1, Hl2. cbn [negb orb]. cbv zeta.
  destruct (match playerBody with
            | Some pos => withinReach pos (position (powerUpState (rendered c)))
            | None => false
            end) eqn:Hp.
  - assert (Hr : exists tl, inReach playerBody aiBalls
                   (position (powerUpState (rendered c))) = None :: tl).
    { unfold inReach. destruct playerBody as [pos|]; [|discriminate].
      rewrite Hp. eexists. reflexivity. }
    destruct Hr as [tl ->].
    destruct (handlePlayerCollection_fires now c r) as (won & H1 & H2 & _ & _ & H5).
    { now rewrite Hl1, Hl2. }
    exists won. auto.
  - rewrite (inReach_head _ _ _ Hp), find_filter_head.
    destruct (List.filter _ aiBalls) as [|b tl]; cbn [List.hd_error List.map].
    + reflexivity.
    + destruct (handleAICollection_fires (AIBallsStore.id b) (AIBallsStore.color b)
                  now c r) as (won & H1 & H2 & _ & _ & H5).
      { now rewrite Hl1, Hl2. }
      exists won. auto.
Qed.

(** A frame never credits more than one collection, and leaves the ref
    lock set when it was set. *)
Lemma useFrame_credits (playerBody : option Vec3)
    (aiBalls : list AIBallsStore.AIBallEntry) (now : Z) (c : Component) (r : Round) :
  (isCollectingRef c = true ->
   useFrame playerBody aiBalls now c r = (c, r)) /\
  (credits (log (snd (useFrame playerBody aiBalls now c r))) = credits (log r) \/
   credits (log (snd (useFrame playerBody aiBalls now c r))) = S (credits (log r)) /\
   isCollectingRef (fst (useFrame playerBody aiBalls now c r)) = true).
Proof.
  split.
  - intros H. apply useFrame_locked. rewrite H. apply orb_true_r.
  - destruct (isCollecting (rendered c) || isCollectingRef c) eqn:Hl.
    { left. now rewrite useFrame_locked. }
    destruct (meshMounted c) eqn:Hm.
    2:{ left. unfold useFrame. rewrite Hm. reflexivity. }
    pose proof (useFrame_one playerBody aiBalls now c r Hm Hl) as H.
    destruct (inReach _ _ _) as [|who tl].
    + left. now rewrite H.
    + right. destruct H as (won & H1 & H2 & _). split; [|exact H2].
      rewrite H1, credits_app. unfold credits at 2.
      rewrite credits_afterLock. simpl. lia.
Qed.

Lemma render_keeps (spot : Q * Q) (c : Component) (r : Round) :
  isCollectingRef (fst (render spot c r)) = isCollectingRef c /\
  log (snd (render spot c r)) = log r.
Proof.
  unfold render. cbv zeta. cbn [fst snd]. split.
  - destruct (_ || _); [|reflexivity].
    unfold respawnEffect. cbv zeta. cbn [rendered pending isCollectingRef].
    destruct (_ && _); reflexivity.
  - destruct (negb _); [|reflexivity].
    unfold endOfGameEffect. destruct (Nat.leb _ _); [|reflexivity].
    destruct (AIBallsStore.getWinnerBySecondaryCondition _); reflexivity.
Qed.

Lemma render_shows_pending (spot : Q * Q) (c : Component) (r : Round) :
  rendered (fst (render spot c r)) = pending c /\
  pending (fst (render spot c r)) = pending c.
Proof.
  unfold render. cbv zeta. cbn [fst].
  match goal with |- context [if ?b then respawnEffect _ _ else _] => destruct b end.
  - unfold respawnEffect. cbv zeta. cbn [rendered pending].
    match goal with |- context [if ?b then _ else _] => destruct b end;
      split; reflexivity.
  - split; reflexivity.
Qed.

(** Once the ref lock is set, frames and renders credit nothing. *)
Lemma run_locked (steps : list Step) : forall (cr : Component * Round),
  isCollectingRef (fst cr) = true ->
  credits (log (snd (run steps cr))) = credits (log (snd cr)).
Proof.
  induction steps as [|st steps IH]; intros [c r] Hl; [reflexivity|].
  unfold run in *. cbn [List.fold_left]. destruct st as [pb ai now|spot]; cbn [step fst snd].
  - cbn [fst] in Hl.
    rewrite (proj1 (useFrame_credits pb ai now c r) Hl). now apply IH.
  - destruct (render_keeps spot c r) as [H1 H2]. cbn [fst] in Hl.
    rewrite IH by (rewrite H1; exact Hl). now rewrite H2.
Qed.

(** Frames and renders credit at most one collection. *)
Lemma run_at_most_one (steps : list Step) : forall (cr : Component * Round),
  (credits (log (snd (run steps cr))) <= S (credits (log (snd cr))))%nat.
Proof.
  induction steps as [|st steps IH]; intros [c r]; [simpl; lia|].
  unfold run in *. cbn [List.fold_left]. destruct st as [pb ai now|spot]; cbn [step fst snd].
  - destruct (proj2 (useFrame_credits pb ai now c r)) as [H|[H Hl]].
    + specialize (IH (useFrame pb ai now c r)). lia.
    + pose proof (run_locked steps (useFrame pb ai now c r) Hl) as Hr.
      unfold run in Hr. lia.
  - destruct (render_keeps spot c r) as [_ H2].
    specialize (IH (render spot c r)). rewrite H2 in IH. exact IH.
Qed.

(** C5.  The collection lock.  A handler that finds the lock set does
    nothing; one that finds it open writes the state lock and the ref
    lock before anything else it does.  The frame callback returns at
    once while the lock is set.  When two or more entities are within
    reach in the same pass over an unlocked, visible power-up, exactly one
    collection is credited, to the first of them.  And however many
    frames and renders follow each other before the respawn, at most one
    collection is credited. *)
Theorem collection_lock :
  (forall now c r,
     isCollecting (rendered c) || isCollectingRef c = true ->
     handlePlayerCollection now c r = (c, r) /\
     forall i col, handleAICollection i col now c r = (c, r))
  /\
  (forall now c r,
     isCollecting (rendered c) || isCollectingRef c = false ->
     ((exists won,
         log (snd (handlePlayerCollection now c r))
           = log r ++ LockState :: LockRef :: afterLock None won) /\
      isCollectingRef (fst (handlePlayerCollection now c r)) = true /\
      isCollecting (pending (fst (handlePlayerCollection now c r))) = true) /\
     forall i col,
       (exists won,
          log (snd (handleAICollection i col now c r))
            = log r ++ LockState :: LockRef :: afterLock (Some i) won) /\
       isCollectingRef (fst (handleAICollection i col now c r)) = true /\
       isCollecting (pending (fst (handleAICollection i col now c r))) = true)
  /\
  (forall pb ai now c r,
     isCollecting (rendered c) || isCollectingRef c = true ->
     useFrame pb ai now c r = (c, r))
  /\
  (forall pb ai now c r who other rest,
     meshMounted c = true ->
     isCollecting (rendered c) || isCollectingRef c = false ->
     inReach pb ai (position (powerUpState (rendered c))) = who :: other :: rest ->
     List.filter isScore (log (snd (useFrame pb ai now c r)))
       = List.filter isScore (log r) ++ [Score who] /\
     credits (log (snd (useFrame pb ai now c r))) = S (credits (log r)) /\
     isCollectingRef (fst (useFrame pb ai now c r)) = true)
  /\
  (forall steps c r,
     (credits (log (snd (run steps (c, r)))) <= S (credits (log r)))%nat).
Proof.
  conjs.
  - intros now c r H. split.
    + now apply handlePlayerCollection_locked.
    + intros i col. now apply handleAICollection_locked.
  - intros now c r H. split.
    + destruct (handlePlayerCollection_fires now c r H) as (won & H1 & H2 & H3 & _).
      conjs; eauto.
    + intros i col.
      destruct (handleAICollection_fires i col now c r H) as (won & H1 & H2 & H3 & _).
      conjs; eauto.
  - intros pb ai now c r H. now apply useFrame_locked.
  - intros pb ai now c r who other rest Hm Hl Hr.
    pose proof (useFrame_one pb ai now c r Hm Hl) as H. rewrite Hr in H.
    destruct H as (won & H1 & H2 & _).
    assert (Hf : List.filter isScore (log (snd (useFrame pb ai now c r)))
                 = List.filter isScore (log r) ++ [Score who]).
    { rewrite H1, List.filter_app, credits_afterLock. reflexivity. }
    conjs; auto.
    unfold credits. rewrite Hf, List.length_app. simpl. lia.
  - intros steps c r. apply (run_at_most_one steps (c, r)).
Qed.

(** The player and two AI balls stand within reach of the power-up in
    the same pass: the player alone is credited. *)
Lemma collection_lock_witness :
  inReach (Some (mkVec3 (1 # 2) (1 # 2) 0)) (AIBallsStore.aiBalls fourEach)
          (position (powerUpState (rendered fourCollected)))
    = [None; Some 1%nat; Some 2%nat] /\
  List.filter isScore
    (log (snd (useFrame (Some (mkVec3 (1 # 2) (1 # 2) 0))
                 (AIBallsStore.aiBalls fourEach) 500%Z fourCollected matchPoint)))
    = [Score None].
Proof.
  split; [reflexivity|].
  destruct collection_lock as (_ & _ & _ & Hone & _).
  destruct (Hone (Some (mkVec3 (1 # 2) (1 # 2) 0)) (AIBallsStore.aiBalls fourEach)
              500%Z fourCollected matchPoint None (Some 1%nat) [Some 2%nat]
              eq_refl eq_refl eq_refl) as (Hf & _).
  exact Hf.
Defined.

(** A collection that brings the collector to the threshold. *)
Lemma handlePlayerCollection_wins (now : Z) (c : Component) (r : Round) :
  isCollecting (rendered c) || isCollectingRef c = false ->
  (4 <= AIBallsStore.playerPowerUpsCollected (store r))%nat ->
  win (snd (handlePlayerCollection now c r))
    = WinStore.mkWinState true (Some 0%nat) true "#1e88e5"
        (AIBallsStore.playerPowerUpsCollected (store r) + 1)
        (Some AIBallsStore.primary) false /\
  phase (snd (handlePlayerCollection now c r)) = Game.finish (phase r) /\
  pending (fst (handlePlayerCollection now c r))
    = mkReactState (mkPowerUpState false (position (powerUpState (pending c))))
        (powerUpsCollected (pending c) + 1) true.
Proof.
  intros H Hc. unfold handlePlayerCollection. rewrite H.
  unfold AIBallsStore.incrementPlayerPowerUps. cbv beta zeta iota.
  cbn [store setStore note growBall].
  destruct (Nat.leb_spec 5 (AIBallsStore.playerPowerUpsCollected (store r) + 1));
    [|lia].
  simpl. auto.
Qed.

Lemma isWinner_no_match (i : nat) (l : list AIBallsStore.AIBallEntry) (w : bool) :
  (forall x, In x l -> AIBallsStore.id x <> i) ->
  List.fold_left (fun w ball =>
      if Nat.eqb (AIBallsStore.id ball) i
      then Nat.leb 5 (AIBallsStore.powerUpsCollected ball + 1) else w) l w = w.
Proof.
  revert w. induction l as [|a l IH]; intros w H; [reflexivity|].
  cbn [List.fold_left].
  destruct (Nat.eqb_spec (AIBallsStore.id a) i) as [He|Hn].
  - exfalso. apply (H a); [now left | exact He].
  - apply IH. intros x Hx. apply H. now right.
Qed.

Lemma find_bumped (i : nat) (now : Z) (l1 l2 : list AIBallsStore.AIBallEntry)
    (b : AIBallsStore.AIBallEntry) :
  AIBallsStore.id b = i ->
  (forall x, In x l1 -> AIBallsStore.id x <> i) ->
  List.find (fun x => Nat.eqb (AIBallsStore.id x) i)
    (List.map (fun ball =>
        if Nat.eqb (AIBallsStore.id ball) i
        then AIBallsStore.mkAIBallEntry (AIBallsStore.id ball)
               (AIBallsStore.position ball)
               (AIBallsStore.powerUpsCollected ball + 1)
               (AIBallsStore.collectionTimestamps ball ++ [now])
               (AIBallsStore.color ball)
        else ball) (l1 ++ b :: l2))
  = Some (AIBallsStore.mkAIBallEntry (AIBallsStore.id b) (AIBallsStore.position b)
            (AIBallsStore.powerUpsCollected b + 1)
            (AIBallsStore.collectionTimestamps b ++ [now]) (AIBallsStore.color b)).
Proof.
  intros Hb H1. induction l1 as [|a l1 IH]; cbn [List.app List.map List.find].
  - rewrite (proj2 (Nat.eqb_eq _ _) Hb). cbn [AIBallsStore.id].
    now rewrite (proj2 (Nat.eqb_eq _ _) Hb).
  - assert (Ha : Nat.eqb (AIBallsStore.id a) i = false).
    { apply Nat.eqb_neq. apply H1. now left. }
    rewrite Ha, Ha. apply IH. intros x Hx. apply H1. now right.
Qed.

(** A collection that brings an AI ball to the threshold. *)
Lemma handleAICollection_wins (i : nat) (col : string) (now : Z)
    (c : Component) (r : Round) (l1 l2 : list AIBallsStore.AIBallEntry)
    (b : AIBallsStore.AIBallEntry) :
  isCollecting (rendered c) || isCollectingRef c = false ->
  AIBallsStore.aiBalls (store r) = l1 ++ b :: l2 ->
  AIBallsStore.id b = i ->
  (forall x, In x (l1 ++ l2) -> AIBallsStore.id x <> i) ->
  (4 <= AIBallsStore.powerUpsCollected b)%nat ->
  win (snd (handleAICollection i col now c r))
    = WinStore.mkWinState true (Some i) false col
        (AIBallsStore.powerUpsCollected b + 1) (Some AIBallsStore.primary) false /\
  phase (snd (handleAICollection i col now c r)) = Game.finish (phase r) /\
  pending (fst (handleAICollection i col now c r))
    = mkReactState (mkPowerUpState false (position (powerUpState (pending c))))
        (powerUpsCollected (pending c) + 1) true.
Proof.
  intros H Hl Hb Hu Hc. unfold handleAICollection. rewrite H.
  unfold AIBallsStore.incrementPowerUps. cbv beta zeta iota.
  cbn [store setStore note growAIBall].
  assert (Hw : List.fold_left (fun w ball =>
                 if Nat.eqb (AIBallsStore.id ball) i
                 then Nat.leb 5 (AIBallsStore.powerUpsCollected ball + 1) else w)
                 (AIBallsStore.aiBalls (store r)) false = true).
  { rewrite Hl, List.fold_left_app. cbn [List.fold_left].
    rewrite (proj2 (Nat.eqb_eq _ _) Hb).
    rewrite isWinner_no_match.
    - apply Nat.leb_le. lia.
    - intros x Hx. apply Hu. apply List.in_or_app. now right. }
  rewrite Hw. cbn [AIBallsStore.aiBalls].
  rewrite Hl, (find_bumped i now l1 l2 b Hb).
  2:{ intros x Hx. apply Hu. apply List.in_or_app. now left. }
  simpl. auto.
Qed.

(** The player collects a fifth power-up in a round in play: the winner
    is set and the round ends; the next render schedules the respawn all
    the same, and two seconds later the power-up is back, unlocked, at
    the scheduled spot. *)
Lemma respawn_after_win_counterexample :
  let won := useFrame (Some (mkVec3 (1 # 2) (1 # 2) 0)) [] 500%Z
               fourCollected matchPoint in
  let shown := render (10, 10) (fst won) (snd won) in
  let back := render (0, 0) (respawnFires (fst shown)) (snd shown) in
  AIBallsStore.playerPowerUpsCollected (store (snd won)) = 5%nat /\
  WinStore.winReason (win (snd won)) = Some AIBallsStore.primary /\
  phase (snd won) = Game.ended /\
  respawnTimeout (fst shown) = Some (10, 10) /\
  phase (snd back) = Game.ended /\
  rendered (fst back)
    = mkReactState (mkPowerUpState true (mkVec3 10 (1 # 2) 10)) 5 false /\
  isCollectingRef (fst back) = false /\
  meshMounted (fst back) = true.
Proof. vm_compute. repeat split. Qed.

(** C6, as the code has it.  A collection that brings the collector to
    five sets the winner with reason [primary] and ends the round at
    once, in the handler itself.  The respawn is not skipped: the render
    that follows any collection schedules the respawn as long as the
    collected counter is at most twelve, whatever the winner store and
    the phase hold, and when the timeout fires the power-up is active
    again at the scheduled spot with the lock released. *)
Theorem primary_win_and_respawn :
  (forall now c r,
     isCollecting (rendered c) || isCollectingRef c = false ->
     (4 <= AIBallsStore.playerPowerUpsCollected (store r))%nat ->
     win (snd (handlePlayerCollection now c r))
       = WinStore.mkWinState true (Some 0%nat) true "#1e88e5"
           (AIBallsStore.playerPowerUpsCollected (store r) + 1)
           (Some AIBallsStore.primary) false /\
     phase (snd (handlePlayerCollection now c r)) = Game.finish (phase r))
  /\
  (forall i col now c r l1 b l2,
     isCollecting (rendered c) || isCollectingRef c = false ->
     AIBallsStore.aiBalls (store r) = l1 ++ b :: l2 ->
     AIBallsStore.id b = i ->
     (forall x, In x (l1 ++ l2) -> AIBallsStore.id x <> i) ->
     (4 <= AIBallsStore.powerUpsCollected b)%nat ->
     win (snd (handleAICollection i col now c r))
       = WinStore.mkWinState true (Some i) false col
           (AIBallsStore.powerUpsCollected b + 1) (Some AIBallsStore.primary) false /\
     phase (snd (handleAICollection i col now c r)) = Game.finish (phase r))
  /\
  Game.finish Game.playing = Game.ended
  /\
  (forall spot c r,
     active (powerUpState (rendered c)) = true ->
     active (powerUpState (pending c)) = false ->
     (powerUpsCollected (pending c) <= MAX_POWER_UPS)%nat ->
     respawnTimeout (fst (render spot c r)) = Some spot /\
     pending (fst (render spot c r)) = pending c)
  /\
  (forall c x z,
     respawnTimeout c = Some (x, z) ->
     pending (respawnFires c)
       = mkReactState (mkPowerUpState true (mkVec3 x POWER_UP_RADIUS z))
           (powerUpsCollected (pending c)) false /\
     isCollectingRef (respawnFires c) = false).
Proof.
  conjs.
  - intros now c r H Hc.
    destruct (handlePlayerCollection_wins now c r H Hc) as (H1 & H2 & _). auto.
  - intros i col now c r l1 b l2 H Hl Hb Hu Hc.
    destruct (handleAICollection_wins i col now c r l1 l2 b H Hl Hb Hu Hc)
      as (H1 & H2 & _). auto.
  - reflexivity.
  - intros spot c r Ha Hp Hc. unfold render. cbv zeta. cbn [fst rendered].
    rewrite Ha, Hp. cbn [Bool.eqb negb orb].
    unfold respawnEffect. cbv zeta. cbn [rendered pending]. rewrite Hp.
    cbn [negb andb]. rewrite (proj2 (Nat.leb_le _ _) Hc). split; reflexivity.
  - intros c x z Ht. unfold respawnFires. rewrite Ht. split; reflexivity.
Qed.

(** The theorem at the match point: the fifth collection of the player,
    the render after it, and the timeout. *)
Lemma primary_win_and_respawn_witness :
  phase (snd (handlePlayerCollection 500%Z fourCollected matchPoint)) = Game.ended /\
  respawnTimeout
    (fst (render (10, 10) (fst (handlePlayerCollection 500%Z fourCollected matchPoint))
            (snd (handlePlayerCollection 500%Z fourCollected matchPoint))))
    = Some (10, 10).
Proof.
  destruct primary_win_and_respawn as (Hwin & _ & _ & Hresp & _). split.
  - destruct (Hwin 500%Z fourCollected matchPoint eq_refl) as (_ & Hph).
    + apply le_n.
    + exact Hph.
  - destruct (Hresp (10, 10)
                (fst (handlePlayerCollection 500%Z fourCollected matchPoint))
                (snd (handlePlayerCollection 500%Z fourCollected matchPoint))
                eq_refl eq_refl) as (Ht & _).
    + vm_compute. lia.
    + exact Ht.
Defined.

End PowerUpProps.

(** ** Restart *)

Module GameManagerProps.
Import GameManager.

Lemma scoresCleared_resetBalls (s : AIBallsStore.AIBallsState) :
  scoresCleared (AIBallsStore.resetBalls s).
Proof.
  unfold scoresCleared, AIBallsStore.entities. constructor.
  - split; reflexivity.
  - apply List.Forall_forall. intros e He.
    apply List.in_map_iff in He. destruct He as [b [<- Hb]].
    cbn [AIBallsStore.resetBalls AIBallsStore.aiBalls] in Hb.
    apply List.in_map_iff in Hb. destruct Hb as [b0 [<- _]].
    split; reflexivity.
Qed.

Lemma scoresCleared_registerBall (i : nat) (p : Vec3) (c : string)
    (s : AIBallsStore.AIBallsState) :
  scoresCleared s -> scoresCleared (AIBallsStore.registerBall i p c s).
Proof.
  unfold scoresCleared, AIBallsStore.entities. intros H.
  apply List.Forall_cons_iff in H. destruct H as [Hp Ha].
  rewrite List.Forall_forall in Ha.
  constructor; [exact Hp|].
  apply List.Forall_forall. intros e He.
  apply List.in_map_iff in He. destruct He as [b [<- Hb]].
  cbn [AIBallsStore.registerBall AIBallsStore.aiBalls] in Hb.
  apply List.in_app_or in Hb. destruct Hb as [Hb|[<-|[]]].
  - apply List.filter_In in Hb. destruct Hb as [Hb _].
    apply Ha. now apply List.in_map.
  - cbn [AIBallsStore.ballEntity AIBallsStore.e_count AIBallsStore.e_stamps
         AIBallsStore.powerUpsCollected AIBallsStore.collectionTimestamps].
    destruct (List.find _ (AIBallsStore.aiBalls s)) as [b|] eqn:Hf.
    + apply List.find_some in Hf. destruct Hf as [Hin _].
      apply (Ha (AIBallsStore.ballEntity b)). now apply List.in_map.
    + split; reflexivity.
Qed.

Lemma scoresCleared_createAIBall (k x z : Q) (c : AIBall.AIBallRefs)
    (p : Cannon.Physics) (s : AIBallsStore.AIBallsState) :
  scoresCleared s -> scoresCleared (snd (AIBall.createAIBall k x z c p s)).
Proof.
  intros H. destruct (Cannon.world p) as [ws|] eqn:Hw.
  - destruct (BodyProps.createAIBall_body k x z c p s ws Hw) as (_ & _ & ->).
    now apply scoresCleared_registerBall.
  - unfold AIBall.createAIBall. rewrite Hw. exact H.
Qed.

Lemma scoresCleared_resetAIBalls (o : Oracle) (comps : list (AIBall.AIBallRefs * Q)) :
  forall (p : Cannon.Physics) (s : AIBallsStore.AIBallsState) (seed : Z),
  scoresCleared s -> scoresCleared (snd (fst (resetAIBalls o comps p s seed))).
Proof.
  induction comps as [|[c k] rest IH]; intros p s seed H; [exact H|].
  cbn [resetAIBalls]. destruct (Cannon.world p).
  - cbv zeta. destruct (fairStart o _ _) as [x z].
    pose proof (scoresCleared_createAIBall k x z c p s H) as H1.
    destruct (AIBall.createAIBall k x z c p s) as [[c' p1] s1]. cbn [snd] in H1.
    specialize (IH p1 s1
      (if Z.eqb (dateNow o / 1000) 0 then seed else (dateNow o / 1000)%Z) H1).
    destruct (resetAIBalls o rest p1 s1 _) as [[[rest' p'] s'] seed']. exact IH.
  - specialize (IH p s seed H).
    destruct (resetAIBalls o rest p s seed) as [[[rest' p'] s'] seed']. exact IH.
Qed.

(** The steps of a restart after the ball positions leave the round's
    stores alone. *)
Lemma resumeGame_round (o : Oracle) (a : App) :
  round (resumeGame o a) = round a /\
  powerUp (resumeGame o a) = powerUp a /\
  Controls.hasPlayerStartedMoving (controls (resumeGame o a))
    = Controls.hasPlayerStartedMoving (controls a).
Proof.
  unfold resumeGame. destruct (negb _); [auto|]. cbv zeta.
  destruct (PowerUp.phase (round a)); try (conjs; reflexivity).
  destruct (Difficulty.hasSelectedLevel (difficulty a)); conjs; reflexivity.
Qed.

Lemma resetControlsState_flag (a : App) :
  Controls.hasPlayerStartedMoving (controls (resetControlsState a)) = false /\
  round (resetControlsState a) = round a /\
  powerUp (resetControlsState a) = powerUp a.
Proof.
  unfold resetControlsState. cbv zeta.
  destruct (Controls.hasPlayerStartedMoving (controls a)) eqn:Hf.
  - conjs; reflexivity.
  - conjs; try reflexivity. cbn. unfold Controls.setMovementDirection.
    destruct (negb (Controls.isInputEnabled (controls a))).
    + destruct (_ || _); cbn; exact Hf.
    + cbn. rewrite Hf. reflexivity.
Qed.

Lemma resetBallPositions_round (o : Oracle) (a : App) :
  scoresCleared (PowerUp.store (round a)) ->
  scoresCleared (PowerUp.store (round (resetBallPositions o a))) /\
  PowerUp.ball (round (resetBallPositions o a)) = PowerUp.ball (round a) /\
  PowerUp.aiScales (round (resetBallPositions o a)) = PowerUp.aiScales (round a) /\
  powerUp (resetBallPositions o a) = powerUp a.
Proof.
  intros H. unfold resetBallPositions.
  set (a1 := match Cannon.world (physics a) with Some _ => _ | None => a end).
  assert (Ha1 : round a1 = round a /\ aiBallComps a1 = aiBallComps a /\
                powerUp a1 = powerUp a /\ sessionRandomSeed a1 = sessionRandomSeed a).
  { unfold a1. destruct (Cannon.world (physics a)); [|auto].
    destruct (Ball.createPlayerBall _ _ _ _ _) as [c p]. auto. }
  destruct Ha1 as (Hr & Hc & Hp & Hs). cbv zeta.
  pose proof (scoresCleared_resetAIBalls o (aiBallComps a1) (physics a1)
                (PowerUp.store (round a1)) (sessionRandomSeed a1)) as Hz.
  rewrite Hr in Hz. specialize (Hz H). rewrite Hr.
  destruct (resetAIBalls o (aiBallComps a1) (physics a1) (PowerUp.store (round a))
              (sessionRandomSeed a1)) as [[[comps p] s] seed].
  cbn [snd fst] in Hz. cbn. rewrite Hr, Hp. auto.
Qed.

Lemma scoresCleared_total (s : AIBallsStore.AIBallsState) :
  scoresCleared s -> AIBallsStore.getTotalPowerupsCollected s = 0%nat.
Proof.
  unfold scoresCleared, AIBallsStore.entities, AIBallsStore.getTotalPowerupsCollected.
  intros H. apply List.Forall_cons_iff in H. destruct H as [[Hp _] Ha].
  cbn in Hp. rewrite Hp. clear Hp.
  induction (AIBallsStore.aiBalls s) as [|b l IH]; [reflexivity|].
  cbn [List.map] in Ha. apply List.Forall_cons_iff in Ha. destruct Ha as [[Hb _] Ha].
  cbn in Hb. cbn [List.fold_left]. rewrite Hb. now apply IH.
Qed.

(** Without a movement input the flag stays down. *)
Lemma flag_stays_down (acts : list Controls.Action) :
  forall s : Controls.ControlsState,
  Controls.hasPlayerStartedMoving s = false ->
  List.forallb (fun act => negb (Controls.isMovementInput act)) acts = true ->
  Controls.hasPlayerStartedMoving (actAll acts s) = false.
Proof.
  induction acts as [|act acts IH]; intros s Hs Hq; [exact Hs|].
  cbn [List.forallb] in Hq. apply andb_true_iff in Hq. destruct Hq as [Hact Hq].
  unfold actAll in *. cbn [List.fold_left]. apply IH; [|exact Hq].
  destruct act as [x z| | | |force]; cbn [Controls.act]; try exact Hs;
    try reflexivity.
  cbn [Controls.isMovementInput] in Hact. apply negb_true_iff in Hact.
  unfold Controls.setMovementDirection.
  destruct (negb (Controls.isInputEnabled s)).
  - destruct (Controls.nonzero (Controls.directionX s) || _); cbn; exact Hs.
  - cbn. rewrite Hs, Hact. reflexivity.
Qed.

(** With the flag down the AI frame callback applies no force and the
    backup interval writes no velocity. *)
Lemma ai_idle_without_flag (isPaused : bool) (o : AIBall.FrameOracle)
    (relaunch : Vec3) (c : AIBall.AIBallRefs) (p : Cannon.Physics) :
  snd (AIBall.frameForces false isPaused o c p) = [] /\
  AIBall.backupCheck false relaunch c p = (c, p).
Proof.
  split.
  - unfold AIBall.frameForces.
    destruct (AIBall.bodyRef c); [|reflexivity].
    destruct (AIBall.meshMounted c); [|reflexivity].
    destruct (Cannon.heap p !! n); [|reflexivity].
    rewrite andb_false_r. reflexivity.
  - unfold AIBall.backupCheck. destruct (AIBall.bodyRef c); reflexivity.
Qed.

(** What a restart clears.  After [restartGame], from any state: every entity's count is 0
    and every list of collection timestamps is empty, so the total is 0;
    the collected counter of the power-up component is 0, also in the
    render that follows; the player's scale is 1 and the table of AI
    scales is empty, so every AI ball reads scale 1; and the "player has
    moved" flag is down, stays down until the controls receive a movement
    input, and while it is down the frame callback and the backup interval
    of the AI balls apply nothing. *)
Lemma restart_clears_round (o : Oracle) (a : App) :
  scoresCleared (PowerUp.store (round (restartGame o a)))
  /\
  AIBallsStore.getTotalPowerupsCollected (PowerUp.store (round (restartGame o a))) = 0%nat
  /\
  PowerUp.powerUpsCollected (PowerUp.pending (powerUp (restartGame o a))) = 0%nat
  /\
  (forall spot,
     PowerUp.powerUpsCollected
       (PowerUp.rendered
          (fst (PowerUp.render spot (powerUp (restartGame o a))
                  (round (restartGame o a))))) = 0%nat)
  /\
  Ball.scale (PowerUp.ball (round (restartGame o a))) = 1
  /\
  PowerUp.aiScales (round (restartGame o a))
    = AIBallScaleStore.mkAIBallScaleState ∅ ∅
  /\
  (forall i, AIBallScaleStore.getScale i (PowerUp.aiScales (round (restartGame o a))) = 1)
  /\
  Controls.hasPlayerStartedMoving (controls (restartGame o a)) = false
  /\
  (forall acts,
     List.forallb (fun act => negb (Controls.isMovementInput act)) acts = true ->
     Controls.hasPlayerStartedMoving (actAll acts (controls (restartGame o a))) = false)
  /\
  (forall isPaused orc relaunch c p,
     snd (AIBall.frameForces
            (Controls.hasPlayerStartedMoving (controls (restartGame o a)))
            isPaused orc c p) = [] /\
     AIBall.backupCheck
       (Controls.hasPlayerStartedMoving (controls (restartGame o a)))
       relaunch c p = (c, p)).
Proof.
  unfold restartGame. cbv zeta. rewrite Bool.eqb_reflx. cbn [negb].
  set (a6 := resetAIBallState _).
  assert (H6 : scoresCleared (PowerUp.store (round a6)) /\
               Ball.scale (PowerUp.ball (round a6)) = 1 /\
               PowerUp.aiScales (round a6) = AIBallScaleStore.mkAIBallScaleState ∅ ∅).
  { unfold a6, resetAIBallState. cbv zeta. cbn. split; [|auto].
    apply scoresCleared_resetBalls. }
  destruct H6 as (Hs6 & Hb6 & Hk6).
  destruct (resetBallPositions_round o a6 Hs6) as (Hs7 & Hb7 & Hk7 & _).
  set (a7 := resetBallPositions o a6) in *.
  set (a8 := resetPowerups a7).
  assert (H8 : round a8 = round a7 /\
               PowerUp.powerUpsCollected (PowerUp.pending (powerUp a8)) = 0%nat).
  { unfold a8, resetPowerups. cbn. auto. }
  destruct H8 as (Hr8 & Hp8).
  destruct (resetControlsState_flag a8) as (Hf9 & Hr9 & Hp9).
  set (a9 := resetControlsState a8) in *.
  set (a11 := resetDifficultySelection (resetPhysicsClock o a9)).
  assert (H11 : round a11 = round a9 /\ powerUp a11 = powerUp a9 /\
                controls a11 = controls a9).
  { unfold a11, resetDifficultySelection, resetPhysicsClock. cbn. auto. }
  destruct H11 as (Hr11 & Hp11 & Hc11).
  destruct (resumeGame_round o a11) as (Hr12 & Hp12 & Hf12).
  assert (Hflag : Controls.hasPlayerStartedMoving (controls (resumeGame o a11)) = false).
  { now rewrite Hf12, Hc11. }
  rewrite Hflag, Hr12, Hp12, Hr11, Hp11, Hr9, Hp9, Hr8.
  conjs.
  - exact Hs7.
  - now apply scoresCleared_total.
  - exact Hp8.
  - intros spot.
    rewrite (proj1 (PowerUpProps.render_shows_pending spot (powerUp a8) (round a7))).
    exact Hp8.
  - now rewrite Hb7.
  - now rewrite Hk7.
  - intros i. rewrite Hk7, Hk6. reflexivity.
  - reflexivity.
  - intros acts Hq. apply flag_stays_down; [|exact Hq].
    now rewrite Hf12, Hc11.
  - intros isPaused orc relaunch c p. apply ai_idle_without_flag.
Qed.

(** The lemma at the scene the player has just won: restart, then a
    pause and a resume of the input without any movement. *)
Lemma restart_clears_round_example :
  AIBallsStore.playerPowerUpsCollected (PowerUp.store (round wonScene)) = 5%nat /\
  Controls.hasPlayerStartedMoving (controls wonScene) = true /\
  AIBallsStore.getTotalPowerupsCollected
    (PowerUp.store (round (restartGame wonOracle wonScene))) = 0%nat /\
  Controls.hasPlayerStartedMoving
    (actAll [Controls.EnableInput; Controls.SetMovementDirection 0 0;
             Controls.DisableInput]
       (controls (restartGame wonOracle wonScene))) = false.
Proof.
  split; [reflexivity|]. split; [reflexivity|].
  destruct (restart_clears_round wonOracle wonScene)
    as (_ & Htotal & _ & _ & _ & _ & _ & _ & Hquiet & _).
  split; [exact Htotal|]. apply Hquiet. reflexivity.
Defined.

(** C7.  The restart of an ended round in which AI ball 2 had grown.
    [restartGame] clears what the claim lists: the counts, the timestamps,
    the collected counter, the scales, and the "player has moved" flag;
    and the bodies that the reset listeners create are at rest.  But the
    reset of the scales makes AI ball 2 read a new scale, so in the render
    that follows its scale-change effect replaces the body and gives the
    new one its kick, which no test of the flag guards: with the flag
    down and no input from the player, AI ball 2 has the velocity
    [kick / mass], here 2/5 along x.  AI ball 1, which had not grown,
    stays at rest. *)
Theorem restart_kicks_grown_ball :
  let a := restartGame endedOracle endedScene in
  let a' := scaleEffects (PowerUp.aiScales (round endedScene)) weakestKick a in
  (PowerUp.phase (round endedScene) = Game.ended /\
   AIBallScaleStore.getScale 1 (PowerUp.aiScales (round endedScene)) == 1 /\
   AIBallScaleStore.getScale 2 (PowerUp.aiScales (round endedScene)) == 5 # 4) /\
  scoresCleared (PowerUp.store (round a)) /\
  PowerUp.powerUpsCollected (PowerUp.pending (powerUp a)) = 0%nat /\
  Ball.scale (PowerUp.ball (round a)) = 1 /\
  (forall i, AIBallScaleStore.getScale i (PowerUp.aiScales (round a)) = 1) /\
  Controls.hasPlayerStartedMoving (controls a) = false /\
  (exists b1 b2,
     List.map (fun ck => BodyLaw.bodyAt (physics a) (AIBall.bodyRef (fst ck)))
       (aiBallComps a) = [Some b1; Some b2] /\
     Cannon.velocity b1 = vzero /\ Cannon.velocity b2 = vzero) /\
  Controls.hasPlayerStartedMoving (controls a') = false /\
  round a' = round a /\
  (exists b1 b2,
     List.map (fun ck => BodyLaw.bodyAt (physics a') (AIBall.bodyRef (fst ck)))
       (aiBallComps a') = [Some b1; Some b2] /\
     Cannon.velocity b1 = vzero /\
     BodyLaw.veq (Cannon.velocity b2) (mkVec3 (2 # 5) 0 0) /\
     ~ BodyLaw.veq (Cannon.velocity b2) vzero /\
     Cannon.mass b2 == 5 /\
     Forall (BodyLaw.inWorld (physics a'))
       (omap (fun ck => AIBall.bodyRef (fst ck)) (aiBallComps a'))).
Proof.
  cbv zeta.
  destruct (restart_clears_round endedOracle endedScene)
    as (Hscores & _ & Hcount & _ & Hscale & _ & Hscales & Hflag & _).
  split; [conjs; reflexivity|].
  conjs.
  - exact Hscores.
  - exact Hcount.
  - exact Hscale.
  - exact Hscales.
  - exact Hflag.
  - eexists _, _. split; [vm_compute; reflexivity|]. split; reflexivity.
  - vm_compute. reflexivity.
  - vm_compute. reflexivity.
  - eexists _, _. split; [vm_compute; reflexivity|].
    conjs.
    + reflexivity.
    + vm_compute. conjs; reflexivity.
    + vm_compute. intros (Hx & _). discriminate.
    + reflexivity.
    + vm_compute. repeat (constructor; [tauto|]). constructor.
Qed.

End GameManagerProps.

(** ** The score store under its own actions *)

Module StoreProps.
Import AIBallsStore StoreCalls.

Lemma fold_total_list_sum (l : list AIBallEntry) (a : nat) :
  List.fold_left (fun total ball => (total + powerUpsCollected ball)%nat) l a
  = (a + list_sum (List.map powerUpsCollected l))%nat.
Proof.
  revert a. induction l as [|b l IH]; intros a; simpl; [lia|].
  rewrite IH. lia.
Qed.

Lemma getTotal_list_sum (s : AIBallsState) :
  getTotalPowerupsCollected s
  = (playerPowerUpsCollected s + list_sum (List.map powerUpsCollected (aiBalls s)))%nat.
Proof. apply fold_total_list_sum. Qed.

Lemma getMax_list_max (s : AIBallsState) :
  getMaxPowerupsCollected s
  = Nat.max (playerPowerUpsCollected s) (list_max (List.map powerUpsCollected (aiBalls s))).
Proof. apply WinResolver.fold_max_list_max. Qed.

Lemma filter_other_ids (i : nat) (l : list AIBallEntry) :
  (forall b, In b l -> id b <> i) ->
  List.filter (fun ball => negb (Nat.eqb (id ball) i)) l = l.
Proof.
  induction l as [|h l IH]; intros H; simpl; [reflexivity|].
  destruct (Nat.eqb_spec (id h) i) as [E|E].
  - exfalso. apply (H h); [now left | exact E].
  - simpl. f_equal. apply IH. intros b Hb. apply H. now right.
Qed.

Lemma find_other_ids (i : nat) (l : list AIBallEntry) :
  (forall b, In b l -> id b <> i) ->
  List.find (fun ball => Nat.eqb (id ball) i) l = None.
Proof.
  induction l as [|h l IH]; intros H; simpl; [reflexivity|].
  destruct (Nat.eqb_spec (id h) i) as [E|E].
  - exfalso. apply (H h); [now left | exact E].
  - apply IH. intros b Hb. apply H. now right.
Qed.

Lemma NoDup_ids_tail (h : AIBallEntry) (l : list AIBallEntry) :
  List.NoDup (List.map id (h :: l)) ->
  List.NoDup (List.map id l) /\ forall b, In b l -> id b <> id h.
Proof.
  simpl. intros H. inversion H as [|x xs Hx Hxs]; subst. split; [exact Hxs|].
  intros b Hb E. apply Hx. rewrite <- E. now apply List.in_map.
Qed.

(** With distinct ids the ball with a given id is the one [find] returns,
    and [filter] removes only that one. *)
Lemma find_filter_unique (i : nat) (l : list AIBallEntry) (b : AIBallEntry) :
  List.NoDup (List.map id l) -> In b l -> id b = i ->
  List.find (fun ball => Nat.eqb (id ball) i) l = Some b /\
  exists l1 l2, l = l1 ++ b :: l2 /\
    List.filter (fun ball => negb (Nat.eqb (id ball) i)) l = l1 ++ l2.
Proof.
  induction l as [|h l IH]; intros Hnd Hin Hid; [contradiction|].
  destruct (NoDup_ids_tail h l Hnd) as [Hnd' Hne].
  destruct Hin as [->|Hin].
  - simpl. rewrite Hid, Nat.eqb_refl. split; [reflexivity|].
    exists [], l. split; [reflexivity|]. simpl.
    apply filter_other_ids. intros x Hx. rewrite <- Hid. now apply Hne.
  - assert (Hh : id h <> i).
    { intros E. apply (Hne b Hin). now rewrite Hid, E. }
    destruct (IH Hnd' Hin Hid) as (Hf & l1 & l2 & Hl & Hfl).
    simpl. destruct (Nat.eqb_spec (id h) i) as [E|_]; [contradiction|].
    split; [exact Hf|].
    exists (h :: l1), l2. simpl. rewrite Hl at 1. split; [reflexivity|].
    now rewrite Hfl.
Qed.

Lemma list_sum_map_app (l1 l2 : list AIBallEntry) :
  list_sum (List.map powerUpsCollected (l1 ++ l2))
  = (list_sum (List.map powerUpsCollected l1)
     + list_sum (List.map powerUpsCollected l2))%nat.
Proof. now rewrite List.map_app, list_sum_app. Qed.

Lemma list_max_map_app (l1 l2 : list AIBallEntry) :
  list_max (List.map powerUpsCollected (l1 ++ l2))
  = Nat.max (list_max (List.map powerUpsCollected l1))
            (list_max (List.map powerUpsCollected l2)).
Proof. now rewrite List.map_app, list_max_app. Qed.

Lemma ids_filter_NoDup (i : nat) (l : list AIBallEntry) (e : AIBallEntry) :
  List.NoDup (List.map id l) -> id e = i ->
  List.NoDup
    (List.map id (List.filter (fun ball => negb (Nat.eqb (id ball) i)) l ++ [e])).
Proof.
  intros Hnd He. rewrite List.map_app. simpl.
  apply List.NoDup_app.
  - induction l as [|h l IH]; simpl; [constructor|].
    destruct (NoDup_ids_tail h l Hnd) as [Hnd' Hne].
    destruct (negb (Nat.eqb (id h) i)); simpl; [|now apply IH].
    constructor; [|now apply IH].
    intros Hin. apply List.in_map_iff in Hin. destruct Hin as (x & Hx & Hxin).
    apply List.filter_In in Hxin. destruct Hxin as [Hxin _].
    now apply (Hne x Hxin).
  - constructor; [intros []|constructor].
  - intros x Hx [E|[]]. apply List.in_map_iff in Hx.
    destruct Hx as (y & Hy & Hyin). apply List.filter_In in Hyin.
    destruct Hyin as [_ Hneq].
    assert (Hyi : id y = i) by congruence.
    rewrite Hyi, Nat.eqb_refl in Hneq. discriminate.
Qed.

(** X1.  Registering a ball again, as every ball does in every frame,
    loses no score.  In a store whose balls have distinct ids,
    [registerBall] keeps the ids distinct, keeps the total and the
    maximum of the counts, leaves every other ball as it is, moves the
    ball to the end of the array with its count and timestamps and the
    new position and colour, and enters an unknown id with count 0 and
    no timestamps. *)
Theorem registerBall_keeps_scores (i : nat) (p : Vec3) (c : string)
    (s : AIBallsState) :
  List.NoDup (ids s) ->
  List.NoDup (ids (registerBall i p c s)) /\
  getTotalPowerupsCollected (registerBall i p c s) = getTotalPowerupsCollected s /\
  getMaxPowerupsCollected (registerBall i p c s) = getMaxPowerupsCollected s /\
  (forall b, In b (aiBalls s) -> id b <> i ->
     In b (aiBalls (registerBall i p c s))) /\
  (forall b, In b (aiBalls s) -> id b = i ->
     exists rest,
       aiBalls (registerBall i p c s) =
         rest ++ [mkAIBallEntry i p (powerUpsCollected b) (collectionTimestamps b) c] /\
       forall x, In x rest <-> In x (aiBalls s) /\ id x <> i) /\
  ((forall b, In b (aiBalls s) -> id b <> i) ->
     aiBalls (registerBall i p c s) = aiBalls s ++ [mkAIBallEntry i p 0 [] c]).
Proof.
  intros Hnd. unfold ids in *.
  assert (Hcases :
    (forall b, In b (aiBalls s) -> id b <> i) \/
    exists b, In b (aiBalls s) /\ id b = i).
  { clear Hnd. induction (aiBalls s) as [|h l IH]; [left; intros b []|].
    destruct (Nat.eq_dec (id h) i) as [E|E].
    - right. exists h. split; [now left | exact E].
    - destruct IH as [IH|(b & Hb & Hi)].
      + left. intros b [<-|Hb]; [exact E | now apply IH].
      + right. exists b. split; [now right | exact Hi]. }
  assert (Hids : List.NoDup (List.map id (aiBalls (registerBall i p c s)))).
  { unfold registerBall. cbn [aiBalls].
    now apply ids_filter_NoDup. }
  split; [exact Hids|].
  rewrite !getTotal_list_sum, !getMax_list_max.
  assert (Hplayer : playerPowerUpsCollected (registerBall i p c s)
                    = playerPowerUpsCollected s) by reflexivity.
  rewrite Hplayer.
  destruct Hcases as [Hnone|(b & Hb & Hi)].
  - assert (Hreg : aiBalls (registerBall i p c s)
                   = aiBalls s ++ [mkAIBallEntry i p 0 [] c]).
    { unfold registerBall. cbn [aiBalls].
      now rewrite (find_other_ids i _ Hnone), (filter_other_ids i _ Hnone). }
    rewrite Hreg, list_sum_map_app, list_max_map_app.
    simpl.
    conjs.
    + lia.
    + lia.
    + intros x Hx _. apply List.in_or_app. now left.
    + intros x Hx E. exfalso. now apply (Hnone x Hx).
    + intros _. reflexivity.
  - destruct (find_filter_unique i (aiBalls s) b Hnd Hb Hi)
      as (Hf & l1 & l2 & Hl & Hfl).
    assert (Hreg : aiBalls (registerBall i p c s)
                   = (l1 ++ l2) ++
                     [mkAIBallEntry i p (powerUpsCollected b)
                        (collectionTimestamps b) c]).
    { unfold registerBall. cbn [aiBalls]. now rewrite Hf, Hfl. }
    rewrite Hreg. conjs.
    + rewrite Hl, !list_sum_map_app. simpl. lia.
    + rewrite Hl, !list_max_map_app. simpl. lia.
    + intros x Hx E. apply List.in_or_app. left.
      rewrite <- Hfl. apply List.filter_In. split; [exact Hx|].
      now destruct (Nat.eqb_spec (id x) i).
    + intros x Hx E.
      assert (x = b) as ->.
      { destruct (find_filter_unique i (aiBalls s) x Hnd Hx E) as [Hf' _].
        congruence. }
      exists (l1 ++ l2). split; [reflexivity|].
      intros y. rewrite <- Hfl, List.filter_In.
      split.
      * intros [Hy Hne]. split; [exact Hy|].
        now destruct (Nat.eqb_spec (id y) i).
      * intros [Hy Hne]. split; [exact Hy|].
        now destruct (Nat.eqb_spec (id y) i).
    + intros Hnone. exfalso. now apply (Hnone b Hb).
Qed.

(** The theorem at a store of three balls: ball 2 registers again. *)
Lemma registerBall_keeps_scores_witness :
  List.NoDup (ids threeBalls) /\
  getTotalPowerupsCollected (registerBall 2 (mkVec3 5 (1 # 2) 5) "#0000FF" threeBalls)
    = getTotalPowerupsCollected threeBalls.
Proof.
  assert (H : List.NoDup (ids threeBalls)).
  { unfold ids, threeBalls. simpl. repeat constructor; simpl; intuition lia. }
  split; [exact H|].
  exact (proj1 (proj2 (registerBall_keeps_scores 2 (mkVec3 5 (1 # 2) 5) "#0000FF"
                         threeBalls H))).
Defined.

Lemma map_other_ids (i : nat) (now : Z) (l : list AIBallEntry) :
  (forall b, In b l -> id b <> i) ->
  List.map (fun ball =>
      if Nat.eqb (id ball) i
      then {| id := id ball;
              position := position ball;
              powerUpsCollected := powerUpsCollected ball + 1;
              collectionTimestamps := collectionTimestamps ball ++ [now];
              color := color ball |}
      else ball) l = l.
Proof.
  induction l as [|h l IH]; intros H; simpl; [reflexivity|].
  destruct (Nat.eqb_spec (id h) i) as [E|E].
  - exfalso. apply (H h); [now left | exact E].
  - f_equal. apply IH. intros b Hb. apply H. now right.
Qed.

Lemma fold_other_ids (i : nat) (l : list AIBallEntry) (w : bool) :
  (forall b, In b l -> id b <> i) ->
  List.fold_left (fun w ball =>
      if Nat.eqb (id ball) i
      then Nat.leb 5 (powerUpsCollected ball + 1) else w) l w = w.
Proof.
  revert w. induction l as [|h l IH]; intros w H; simpl; [reflexivity|].
  destruct (Nat.eqb_spec (id h) i) as [E|E].
  - exfalso. apply (H h); [now left | exact E].
  - apply IH. intros b Hb. apply H. now right.
Qed.

(** X2.  A collection credited to an id that no ball of the array has
    changes nothing: the store is the same and the call reports no win. *)
Theorem incrementPowerUps_unknown_id (i : nat) (now : Z) (s : AIBallsState) :
  (forall b, In b (aiBalls s) -> id b <> i) ->
  incrementPowerUps i now s = (s, false).
Proof.
  intros H. unfold incrementPowerUps.
  rewrite (map_other_ids i now _ H), (fold_other_ids i _ false H).
  now destruct s.
Qed.

(** The theorem at the store of three balls: no ball has id 7. *)
Lemma incrementPowerUps_unknown_id_witness :
  incrementPowerUps 7 900 threeBalls = (threeBalls, false).
Proof.
  apply incrementPowerUps_unknown_id.
  intros b Hb. simpl in Hb.
  destruct Hb as [<-|[<-|[<-|[]]]]; simpl; lia.
Defined.

(** X3.  A collection credited to a ball of a store with distinct ids
    counts once.  That ball gets one more collection and the timestamp at
    the end of its list, keeping id, position and colour; the call
    reports a win exactly when its new count is at least 5; the total
    grows by one; the array keeps its order and every other ball, and the
    player's count is untouched. *)
Theorem incrementPowerUps_counts_once (i : nat) (now : Z) (s : AIBallsState)
    (b : AIBallEntry) :
  List.NoDup (ids s) -> In b (aiBalls s) -> id b = i ->
  snd (incrementPowerUps i now s) = Nat.leb 5 (powerUpsCollected b + 1) /\
  getTotalPowerupsCollected (fst (incrementPowerUps i now s))
    = S (getTotalPowerupsCollected s) /\
  ids (fst (incrementPowerUps i now s)) = ids s /\
  In (mkAIBallEntry i (position b) (powerUpsCollected b + 1)
        (collectionTimestamps b ++ [now]) (color b))
     (aiBalls (fst (incrementPowerUps i now s))) /\
  (forall x, In x (aiBalls s) -> id x <> i ->
     In x (aiBalls (fst (incrementPowerUps i now s)))) /\
  playerPowerUpsCollected (fst (incrementPowerUps i now s))
    = playerPowerUpsCollected s /\
  playerCollectionTimestamps (fst (incrementPowerUps i now s))
    = playerCollectionTimestamps s.
Proof.
  intros Hnd Hb Hi. unfold ids in *.
  destruct (find_filter_unique i (aiBalls s) b Hnd Hb Hi)
    as (_ & l1 & l2 & Hl & Hfl).
  assert (Hrest : forall x, In x (l1 ++ l2) -> id x <> i).
  { intros x Hx. rewrite <- Hfl in Hx. apply List.filter_In in Hx.
    destruct Hx as [_ Hx]. now destruct (Nat.eqb_spec (id x) i). }
  assert (H1 : forall x, In x l1 -> id x <> i).
  { intros x Hx. apply Hrest, List.in_or_app. now left. }
  assert (H2 : forall x, In x l2 -> id x <> i).
  { intros x Hx. apply Hrest, List.in_or_app. now right. }
  rewrite getTotal_list_sum, getTotal_list_sum.
  unfold incrementPowerUps.
  cbn [fst snd aiBalls playerPowerUpsCollected playerCollectionTimestamps].
  rewrite Hl, List.map_app, List.fold_left_app.
  cbn [List.map List.fold_left].
  rewrite (proj2 (Nat.eqb_eq _ _) Hi).
  rewrite (map_other_ids i now l1 H1), (map_other_ids i now l2 H2).
  rewrite (fold_other_ids i l2 _ H2).
  conjs.
  - reflexivity.
  - rewrite !list_sum_map_app. simpl. lia.
  - rewrite !List.map_app. simpl. reflexivity.
  - apply List.in_or_app. right. left. now rewrite Hi.
  - intros x Hx Hne. apply List.in_app_or in Hx.
    apply List.in_or_app. destruct Hx as [Hx|[Hx|Hx]].
    + now left.
    + exfalso. apply Hne. now rewrite <- Hx.
    + right. now right.
  - reflexivity.
  - reflexivity.
Qed.

(** The theorem at the store of three balls: ball 2 collects. *)
Lemma incrementPowerUps_counts_once_witness :
  getTotalPowerupsCollected (fst (incrementPowerUps 2 900 threeBalls))
    = S (getTotalPowerupsCollected threeBalls) /\
  snd (incrementPowerUps 2 900 threeBalls) = false.
Proof.
  assert (H : List.NoDup (ids threeBalls)).
  { unfold ids, threeBalls. simpl. repeat constructor; simpl; intuition lia. }
  destruct (incrementPowerUps_counts_once 2 900 threeBalls
              (mkAIBallEntry 2 (mkVec3 0 (1 # 2) 1) 2 [100; 200]%Z "#0000FF") H)
    as (Hw & Ht & _).
  - simpl. right. now left.
  - reflexivity.
  - split; [exact Ht | exact Hw].
Defined.

Lemma list_max_attained (l : list nat) :
  l <> [] -> In (list_max l) l.
Proof.
  induction l as [|a l IH]; intros H; [contradiction|].
  destruct l as [|b l].
  - simpl. left. lia.
  - change (list_max (a :: b :: l)) with (Nat.max a (list_max (b :: l))).
    destruct (Nat.max_spec a (list_max (b :: l))) as [[_ E]|[_ E]]; rewrite E.
    + right. apply IH. discriminate.
    + now left.
Qed.

Lemma holders_nonempty (s : AIBallsState) : holders s <> [].
Proof.
  unfold holders.
  assert (H : In (maxCount s) (List.map e_count (entities s))).
  { apply list_max_attained. unfold entities. discriminate. }
  apply List.in_map_iff in H. destruct H as (e & He & Hin).
  intros E.
  assert (Hf : In e (List.filter (fun e => Nat.eqb (e_count e) (maxCount s))
                       (entities s))).
  { apply List.filter_In. split; [exact Hin|]. now apply Nat.eqb_eq. }
  rewrite E in Hf. contradiction.
Qed.

Lemma total_zero_iff (s : AIBallsState) :
  getTotalPowerupsCollected s = 0%nat <->
  Forall (fun e => e_count e = 0%nat) (entities s).
Proof.
  rewrite getTotal_list_sum. unfold entities.
  split.
  - intros H. constructor; [simpl; lia|].
    assert (H' : list_sum (List.map powerUpsCollected (aiBalls s)) = 0%nat) by lia.
    clear H. induction (aiBalls s) as [|b l IH]; simpl in *; constructor.
    + simpl. lia.
    + apply IH. lia.
  - intros H. inversion H as [|x xs Hp Hr]; subst. simpl in Hp.
    rewrite Hp. simpl. clear H Hp.
    induction (aiBalls s) as [|b l IH]; simpl in *; [reflexivity|].
    inversion Hr as [|y ys Hb Hl]; subst. simpl in Hb. rewrite Hb.
    now apply IH.
Qed.

Lemma maxCount_zero_iff (s : AIBallsState) :
  maxCount s = 0%nat <-> Forall (fun e => e_count e = 0%nat) (entities s).
Proof.
  split.
  - intros H. apply List.Forall_forall. intros e He.
    pose proof (WinResolver.maxCount_ge s e He). lia.
  - intros H. unfold maxCount.
    assert (Hin : In (list_max (List.map e_count (entities s)))
                     (List.map e_count (entities s))).
    { apply list_max_attained. unfold entities. discriminate. }
    apply List.in_map_iff in Hin. destruct Hin as (e & He & Hin).
    rewrite <- He. now apply (proj1 (List.Forall_forall _ _) H).
Qed.

(** Once something has been collected the resolver returns a winner. *)
Lemma collected_gives_winner (s : AIBallsState) :
  getTotalPowerupsCollected s <> 0%nat -> getWinnerBySecondaryCondition s <> None.
Proof.
  rewrite total_zero_iff, <- maxCount_zero_iff. intros Hmax.
  unfold getWinnerBySecondaryCondition.
  destruct (Nat.leb 5 (playerPowerUpsCollected s)) eqn:Hp; [discriminate|].
  destruct (List.find (fun ball => Nat.leb 5 (powerUpsCollected ball)) (aiBalls s))
    as [b|] eqn:Hfind; [discriminate|].
  rewrite WinResolver.getMax_maxCount, WinResolver.topCollectors_holders.
  destruct (Nat.eqb_spec (maxCount s) 0%nat) as [E|_]; [contradiction|].
  pose proof (holders_nonempty s) as Hh.
  destruct (holders s) as [|e1 [|e2 rest]] eqn:Hhold; [contradiction| |].
  - simpl. discriminate.
  - cbn [List.map].
    destruct (WinResolver.sortByTimestamp_head
                (collectorOf (maxCount s) e1 :: collectorOf (maxCount s) e2
                   :: List.map (collectorOf (maxCount s)) rest))
      as (l1 & c & l2 & rest' & _ & Hsort & _); [discriminate|].
    rewrite Hsort. discriminate.
Qed.

(** X4.  The resolver finds a winner exactly when something has been
    collected: [getWinnerBySecondaryCondition] returns [null] if and only
    if [getTotalPowerupsCollected] is 0. *)
Theorem no_winner_iff_nothing_collected (s : AIBallsState) :
  getWinnerBySecondaryCondition s = None <-> getTotalPowerupsCollected s = 0%nat.
Proof.
  split.
  - intros Hnone.
    destruct (Nat.eq_dec (getTotalPowerupsCollected s) 0%nat) as [E|E]; [exact E|].
    exfalso. now apply (collected_gives_winner s E).
  - intros Hzero.
    assert (Hall : Forall (fun e => e_count e = 0%nat) (entities s))
      by now apply total_zero_iff.
    assert (Hmax : maxCount s = 0%nat) by now apply maxCount_zero_iff.
    inversion Hall as [|p balls Hp Hballs]; subst. simpl in Hp.
    unfold getWinnerBySecondaryCondition. rewrite Hp.
    change (Nat.leb 5 0) with false. cbv iota.
    assert (Hfind : List.find (fun ball => Nat.leb 5 (powerUpsCollected ball))
                      (aiBalls s) = None).
    { destruct (List.find _ (aiBalls s)) as [b|] eqn:Hf; [|reflexivity].
      apply List.find_some in Hf. destruct Hf as [Hb Hfive].
      assert (Hb0 : e_count (ballEntity b) = 0%nat).
      { apply (proj1 (List.Forall_forall _ _) Hballs). now apply List.in_map. }
      simpl in Hb0. rewrite Hb0 in Hfive. discriminate. }
    rewrite Hfind, WinResolver.getMax_maxCount, Hmax. reflexivity.
Qed.

Lemma ids_resetBalls (s : AIBallsState) : ids (resetBalls s) = ids s.
Proof.
  unfold ids, resetBalls. cbn [aiBalls]. rewrite List.map_map. reflexivity.
Qed.

Lemma ids_incrementPowerUps (i : nat) (now : Z) (s : AIBallsState) :
  ids (fst (incrementPowerUps i now s)) = ids s.
Proof.
  unfold ids, incrementPowerUps. cbn [fst aiBalls]. rewrite List.map_map.
  apply List.map_ext. intros b. now destruct (Nat.eqb (id b) i).
Qed.

(** X5.  Two invariants of the store hold after every sequence of calls
    to its actions: the ids of the array stay distinct, and every list of
    timestamps has exactly one entry per collection counted. *)
Theorem store_invariants (l : list Call) (s : AIBallsState) :
  List.NoDup (ids s) -> stampsMatchCounts s ->
  List.NoDup (ids (calls l s)) /\ stampsMatchCounts (calls l s).
Proof.
  revert s. induction l as [|a l IH]; intros s Hnd Hst; [now split|].
  unfold calls. cbn [List.fold_left]. apply IH.
  - destruct a as [|i p c|i now|now]; cbn [call].
    + now rewrite ids_resetBalls.
    + unfold ids, registerBall in *. cbn [aiBalls]. now apply ids_filter_NoDup.
    + now rewrite ids_incrementPowerUps.
    + exact Hnd.
  - destruct a as [|i p c|i now|now]; cbn [call].
    + apply WinResolver.resetBalls_stamps.
    + now apply WinResolver.registerBall_stamps.
    + now apply WinResolver.incrementPowerUps_stamps.
    + now apply WinResolver.incrementPlayerPowerUps_stamps.
Qed.

(** The theorem from the empty store, through a short round. *)
Lemma store_invariants_witness :
  List.NoDup (ids (calls [RegisterBall 1 vzero "#FF0000"; RegisterBall 2 vzero "#0000FF";
                     IncrementPowerUps 2 100; RegisterBall 1 (mkVec3 1 0 1) "#FF0000";
                     IncrementPlayerPowerUps 200; ResetBalls] initialState)) /\
  stampsMatchCounts
    (calls [RegisterBall 1 vzero "#FF0000"; RegisterBall 2 vzero "#0000FF";
            IncrementPowerUps 2 100; RegisterBall 1 (mkVec3 1 0 1) "#FF0000";
            IncrementPlayerPowerUps 200; ResetBalls] initialState).
Proof.
  apply store_invariants.
  - constructor.
  - split; [reflexivity | constructor].
Defined.

End StoreProps.

(** ** The ranking panel *)

Module RankingProps.
Import AIBallsStore RankingSystem.

Lemma insertByCount_In (e x : RankEntry) (l : list RankEntry) :
  In x (insertByCount e l) <-> x = e \/ In x l.
Proof.
  induction l as [|d l IH]; simpl.
  - intuition.
  - destruct (Nat.leb (r_powerUpsCollected d) (r_powerUpsCollected e)); simpl.
    + intuition.
    + rewrite IH. intuition.
Qed.

Lemma insertByCount_perm (e : RankEntry) (l : list RankEntry) :
  Permutation (e :: l) (insertByCount e l).
Proof.
  induction l as [|d l IH]; simpl; [reflexivity|].
  destruct (Nat.leb (r_powerUpsCollected d) (r_powerUpsCollected e)).
  - reflexivity.
  - etransitivity; [apply perm_swap|]. now apply perm_skip.
Qed.

Lemma sortByCount_perm (l : list RankEntry) : Permutation l (sortByCount l).
Proof.
  induction l as [|e l IH]; simpl; [constructor|].
  etransitivity; [|apply insertByCount_perm]. now apply perm_skip.
Qed.

Lemma insertByCount_descending (e : RankEntry) (l : list RankEntry) :
  descending l -> descending (insertByCount e l).
Proof.
  induction l as [|d l IH]; intros H; simpl.
  - split; [constructor | exact I].
  - destruct H as [Hd Hl].
    destruct (Nat.leb_spec (r_powerUpsCollected d) (r_powerUpsCollected e)) as [Hle|Hlt].
    + split; [|split; assumption].
      constructor; [exact Hle|].
      apply List.Forall_forall. intros y Hy.
      pose proof (proj1 (List.Forall_forall _ _) Hd y Hy). simpl in *. lia.
    + split; [|now apply IH].
      apply List.Forall_forall. intros y Hy.
      apply insertByCount_In in Hy. destruct Hy as [->|Hy].
      * lia.
      * exact (proj1 (List.Forall_forall _ _) Hd y Hy).
Qed.

Lemma sortByCount_descending (l : list RankEntry) : descending (sortByCount l).
Proof.
  induction l as [|e l IH]; simpl; [exact I|].
  now apply insertByCount_descending.
Qed.

Lemma descending_app (l1 l2 : list RankEntry) :
  descending (l1 ++ l2) ->
  descending l1 /\ descending l2 /\
  forall x y, In x l1 -> In y l2 ->
    (r_powerUpsCollected y <= r_powerUpsCollected x)%nat.
Proof.
  induction l1 as [|a l1 IH]; simpl; intros H.
  - split; [exact I|]. split; [exact H|]. intros x y [].
  - destruct H as [Ha Hl]. destruct (IH Hl) as (H1 & H2 & H12).
    apply List.Forall_app in Ha. destruct Ha as [Ha1 Ha2].
    split; [split; assumption|]. split; [exact H2|].
    intros x y [<-|Hx] Hy.
    + exact (proj1 (List.Forall_forall _ _) Ha2 y Hy).
    + now apply H12.
Qed.

(** The head of the sorted array is the first entry, in the order of the
    array, among those with the greatest count. *)
Lemma sortByCount_head (l : list RankEntry) :
  l <> [] ->
  exists l1 c l2 rest,
    l = l1 ++ c :: l2 /\ sortByCount l = c :: rest /\
    (forall x, In x l1 -> (r_powerUpsCollected x < r_powerUpsCollected c)%nat) /\
    (forall x, In x l2 -> (r_powerUpsCollected x <= r_powerUpsCollected c)%nat).
Proof.
  induction l as [|a l IH]; intros H; [contradiction|].
  destruct l as [|b l].
  - exists [], a, [], []. simpl. conjs; try reflexivity; intros x [].
  - destruct IH as (l1 & c & l2 & rest & Hl & Hs & H1 & H2); [discriminate|].
    change (sortByCount (a :: b :: l)) with (insertByCount a (sortByCount (b :: l))).
    rewrite Hs. cbn [insertByCount].
    destruct (Nat.leb_spec (r_powerUpsCollected c) (r_powerUpsCollected a)) as [Hle|Hlt].
    + exists [], a, (b :: l), (c :: rest). conjs; try reflexivity.
      * intros x [].
      * intros x Hx. rewrite Hl in Hx. apply List.in_app_or in Hx.
        destruct Hx as [Hx|[<-|Hx]].
        -- specialize (H1 x Hx). lia.
        -- exact Hle.
        -- specialize (H2 x Hx). lia.
    + exists (a :: l1), c, l2, (insertByCount a rest). conjs.
      * now rewrite Hl.
      * reflexivity.
      * intros x [<-|Hx]; [exact Hlt | now apply H1].
      * exact H2.
Qed.

Lemma getMax_allEntities (s : AIBallsState) :
  getMaxPowerupsCollected s
  = list_max (List.map r_powerUpsCollected (allEntities s)).
Proof.
  unfold getMaxPowerupsCollected, allEntities.
  rewrite WinResolver.fold_max_list_max. simpl. now rewrite List.map_map.
Qed.

(** X6.  The panel shows the three best collectors.  [updateRankings]
    keeps [min 3 (1 + number of AI balls)] entries of the array of the
    player and the AI balls; they are in descending order of count, no
    entry left out has more than an entry shown, the first entry shown
    has the count [getMaxPowerupsCollected] returns, and the second
    component is the total of [getTotalPowerupsCollected]. *)
Theorem rankings_top_three (s : AIBallsState) :
  length (fst (updateRankings s)) = Nat.min 3 (S (length (aiBalls s))) /\
  descending (fst (updateRankings s)) /\
  (exists rest,
     Permutation (allEntities s) (fst (updateRankings s) ++ rest) /\
     forall x y, In x (fst (updateRankings s)) -> In y rest ->
       (r_powerUpsCollected y <= r_powerUpsCollected x)%nat) /\
  (exists top others,
     fst (updateRankings s) = top :: others /\
     r_powerUpsCollected top = getMaxPowerupsCollected s) /\
  snd (updateRankings s) = getTotalPowerupsCollected s.
Proof.
  unfold updateRankings. cbn [fst snd].
  pose proof (sortByCount_perm (allEntities s)) as Hperm.
  pose proof (sortByCount_descending (allEntities s)) as Hdesc.
  rewrite <- (List.firstn_skipn 3 (sortByCount (allEntities s))) in Hperm, Hdesc.
  destruct (descending_app _ _ Hdesc) as (H1 & _ & H12).
  conjs.
  - rewrite List.length_firstn.
    rewrite <- (Permutation_length (sortByCount_perm (allEntities s))).
    unfold allEntities. simpl. now rewrite List.length_map.
  - exact H1.
  - exists (List.skipn 3 (sortByCount (allEntities s))). split; assumption.
  - destruct (sortByCount_head (allEntities s)) as (l1 & c & l2 & rest & Hl & Hs & Hlt & Hle).
    { unfold allEntities. discriminate. }
    rewrite Hs. exists c, (List.firstn 2 rest). split; [reflexivity|].
    rewrite getMax_allEntities. apply Nat.le_antisymm.
    + assert (Hin : In (r_powerUpsCollected c)
                       (List.map r_powerUpsCollected (allEntities s))).
      { apply List.in_map. rewrite Hl. apply List.in_or_app. right. now left. }
      assert (Hall : Forall (fun k => (k <= list_max (List.map r_powerUpsCollected
                                                       (allEntities s)))%nat)
                       (List.map r_powerUpsCollected (allEntities s))).
      { apply list_max_le. lia. }
      exact (proj1 (List.Forall_forall _ _) Hall _ Hin).
    + apply list_max_le. apply List.Forall_forall. intros k Hk.
      apply List.in_map_iff in Hk. destruct Hk as (x & <- & Hx).
      rewrite Hl in Hx. apply List.in_app_or in Hx. destruct Hx as [Hx|[<-|Hx]].
      * specialize (Hlt x Hx). lia.
      * lia.
      * now apply Hle.
  - reflexivity.
Qed.

(** X7.  Ties go to the earlier entry of the array, so the player leads
    the panel whenever no AI ball has more collections than the player;
    otherwise the leader is the first AI ball, in the order of the
    store's array, among those with the greatest count. *)
Theorem rankings_leader (s : AIBallsState) :
  (getMaxPowerupsCollected s = playerPowerUpsCollected s ->
   exists others,
     fst (updateRankings s) =
       mkRankEntry None true (playerPowerUpsCollected s) "#1e88e5" :: others)
  /\
  (forall l1 b l2,
     aiBalls s = l1 ++ b :: l2 ->
     (playerPowerUpsCollected s < powerUpsCollected b)%nat ->
     (forall x, In x l1 -> (powerUpsCollected x < powerUpsCollected b)%nat) ->
     (forall x, In x l2 -> (powerUpsCollected x <= powerUpsCollected b)%nat) ->
     exists others,
       fst (updateRankings s) =
         mkRankEntry (Some (id b)) false (powerUpsCollected b) (color b) :: others).
Proof.
  unfold updateRankings. cbn [fst].
  destruct (sortByCount_head (allEntities s))
    as (k1 & c & k2 & rest & Hl & Hs & Hlt & Hle).
  { unfold allEntities. discriminate. }
  rewrite Hs. cbn [List.firstn]. split.
  - intros Hmax. exists (List.firstn 2 rest). f_equal.
    destruct k1 as [|p k1].
    + unfold allEntities in Hl. simpl in Hl. now injection Hl as <- _.
    + exfalso. unfold allEntities in Hl. simpl in Hl. injection Hl as <- Hrest.
      specialize (Hlt _ (or_introl eq_refl)). simpl in Hlt.
      assert (Hc : (r_powerUpsCollected c <= getMaxPowerupsCollected s)%nat).
      { rewrite getMax_allEntities.
        assert (Hall : Forall (fun k => (k <= list_max (List.map r_powerUpsCollected
                                                         (allEntities s)))%nat)
                         (List.map r_powerUpsCollected (allEntities s))).
        { apply list_max_le. lia. }
        apply (proj1 (List.Forall_forall _ _) Hall). apply List.in_map.
        unfold allEntities. right. rewrite Hrest.
        apply List.in_or_app. right. now left. }
      lia.
  - intros l1 b l2 Hb Hp H1 H2. exists (List.firstn 2 rest). f_equal.
    set (entry := fun ball =>
           mkRankEntry (Some (id ball)) false (powerUpsCollected ball) (color ball)) in *.
    change (c = entry b).
    assert (Hall : allEntities s =
              (mkRankEntry None true (playerPowerUpsCollected s) "#1e88e5"
                 :: List.map entry l1) ++ entry b :: List.map entry l2).
    { unfold allEntities. rewrite Hb, List.map_app. reflexivity. }
    (* both decompositions single out the first entry with the greatest count *)
    assert (Hbefore : forall x,
              In x (mkRankEntry None true (playerPowerUpsCollected s) "#1e88e5"
                      :: List.map entry l1) ->
              (r_powerUpsCollected x < r_powerUpsCollected (entry b))%nat).
    { intros x [<-|Hx]; [exact Hp|].
      apply List.in_map_iff in Hx. destruct Hx as (y & <- & Hy). now apply H1. }
    assert (Hafter : forall x, In x (List.map entry l2) ->
              (r_powerUpsCollected x <= r_powerUpsCollected (entry b))%nat).
    { intros x Hx. apply List.in_map_iff in Hx. destruct Hx as (y & <- & Hy).
      now apply H2. }
    rewrite Hall in Hl.
    revert Hl Hbefore Hlt.
    generalize (mkRankEntry None true (playerPowerUpsCollected s) "#1e88e5"
                  :: List.map entry l1).
    intros m1. revert k1.
    induction m1 as [|a m1 IH]; intros k1 Hl Hbefore Hlt.
    + destruct k1 as [|a' k1].
      * simpl in Hl. injection Hl as E _. now symmetry.
      * exfalso. simpl in Hl. injection Hl as <- Hrest.
        specialize (Hlt _ (or_introl eq_refl)).
        assert (Hc : In c (List.map entry l2)).
        { rewrite Hrest. apply List.in_or_app. right. now left. }
        specialize (Hafter c Hc). lia.
    + destruct k1 as [|a' k1].
      * exfalso. simpl in Hl. injection Hl as <- Hrest.
        specialize (Hbefore _ (or_introl eq_refl)).
        assert (Hc : In (entry b) k2).
        { rewrite <- Hrest. apply List.in_or_app. right. now left. }
        specialize (Hle _ Hc). lia.
      * simpl in Hl. injection Hl as <- Hrest.
        apply (IH k1 Hrest).
        -- intros x Hx. apply Hbefore. now right.
        -- intros x Hx. apply Hlt. now right.
Qed.

(** The theorem at the tied round of the resolver: the player and AI
    ball 2 both have four, and the player leads the panel. *)
Lemma rankings_leader_witness :
  getMaxPowerupsCollected tiedRound = playerPowerUpsCollected tiedRound /\
  exists others,
    fst (updateRankings tiedRound) = mkRankEntry None true 4 "#1e88e5" :: others.
Proof.
  split; [reflexivity|].
  exact (proj1 (rankings_leader tiedRound) eq_refl).
Defined.

End RankingProps.

(** ** Time accounting of the fixed-step loop *)

Module PhysicsWorldTimeProps.
Import PhysicsWorld PhysicsWorldTime.










(** X10.  The time spent paused is never simulated.  After the pause
    effect has seen the pause and then the resume, the first unpaused
    frame only records the clock and the second uses the fixed delta
    1/120 whatever the clock says, so neither takes a physics step; the
    accumulator is then 1/120 and real clock deltas are used again. *)
Theorem resume_skips_paused_time (fuel : nat) (r : Refs) (t1 t2 : Q) :
  (1 <= fuel)%nat -> hasWorld r = true ->
  exists r1 r2,
    useFrame fuel false t1 (pauseEffect false (pauseEffect true r))
      = Some (r1, mkFrameLog [] 0) /\
    useFrame fuel false t2 r1 = Some (r2, mkFrameLog [] 0) /\
    accumulatorRef r2 == 1 # 120 /\
    prevTimeRef r2 = Some t2 /\
    justResumedRef r2 = false /\ wasPausedRef r2 = false.
Proof.
  intros Hfuel Hw.
  destruct fuel as [|fuel]; [lia|].
  exists (mkRefs (hasWorld r) 0 (Some t1) true false),
         (mkRefs (hasWorld r) (0 + Qmin (1 # 120) (1 # 10)) (Some t2) false false).
  split.
  { unfold useFrame, pauseEffect.
    cbn [hasWorld prevTimeRef justResumedRef accumulatorRef wasPausedRef].
    rewrite Hw. reflexivity. }
  split.
  { unfold useFrame.
    cbn [hasWorld prevTimeRef justResumedRef accumulatorRef wasPausedRef].
    rewrite Hw. reflexivity. }
  cbn [accumulatorRef prevTimeRef justResumedRef wasPausedRef].
  conjs; reflexivity.
Qed.

(** The theorem for a loop that was paused for an hour. *)
Lemma resume_skips_paused_time_witness :
  exists r1 r2,
    useFrame 4 false 3605
      (pauseEffect false (pauseEffect true (mkRefs true (1 # 100) (Some 5) false false)))
      = Some (r1, mkFrameLog [] 0) /\
    useFrame 4 false 3606 r1 = Some (r2, mkFrameLog [] 0) /\
    accumulatorRef r2 == 1 # 120.
Proof.
  destruct (resume_skips_paused_time 4 (mkRefs true (1 # 100) (Some 5) false false)
              3605 3606) as (r1 & r2 & H1 & H2 & Hacc & _).
  - lia.
  - reflexivity.
  - exists r1, r2. repeat split; assumption.
Defined.

End PhysicsWorldTimeProps.

(** ** Respawn positions and the cap of twelve *)

Module PowerUpSpawnProps.
Import PowerUpSpawn.

Lemma retryLoop_result (draws : nat -> Draw) (prev : list (Q * Q)) (fuel : nat) :
  forall attempts,
  (attempts < maxAttempts)%nat -> (maxAttempts <= fuel + attempts)%nat ->
  exists k,
    (attempts <= k < maxAttempts)%nat /\
    retryLoop fuel attempts draws prev = Some (generateRandomPosition (draws k)) /\
    (forall j, (attempts <= j < k)%nat ->
       isFarEnough prev (generateRandomPosition (draws j)) = false) /\
    (isFarEnough prev (generateRandomPosition (draws k)) = true \/
     S k = maxAttempts).
Proof.
  unfold maxAttempts.
  induction fuel as [|fuel IH]; intros attempts Ha Hf; [lia|].
  cbn [retryLoop].
  destruct (isFarEnough prev (generateRandomPosition (draws attempts))) eqn:Hfar.
  - exists attempts. cbn [orb]. conjs; try lia; auto; intros j Hj; lia.
  - cbn [orb]. unfold maxAttempts.
    destruct (Nat.leb_spec 20 (S attempts)) as [Hcap|Hcap].
    + exists attempts. conjs; try lia; auto; try (intros j Hj; lia).
    + destruct (IH (S attempts)) as (k & Hk & Hrun & Hbefore & Hlast); try lia.
      exists k. conjs; try lia; auto.
      intros j Hj. destruct (Nat.eq_dec j attempts) as [->|Hne]; [exact Hfar|].
      apply Hbefore. lia.
Qed.

Lemma isFarEnough_true (prev : list (Q * Q)) (position : Q * Q) :
  isFarEnough prev position = true <->
  forall p, In p prev ->
    100 < (fst p - fst position) * (fst p - fst position)
          + (snd p - snd position) * (snd p - snd position).
Proof.
  unfold isFarEnough. rewrite List.forallb_forall.
  split; intros H p Hp.
  - specialize (H p Hp). cbv zeta in H. apply Qltb_true in H.
    unfold minDistance in H.
    assert (E : (10 : Q) * 10 == 100) by reflexivity. now rewrite E in H.
  - cbv zeta. apply Qltb_true. unfold minDistance.
    assert (E : (10 : Q) * 10 == 100) by reflexivity. rewrite E. now apply H.
Qed.

(** X11.  The retry loop of the respawn effect ends within 20 calls of
    [generateRandomPosition] and returns the first position drawn that
    is more than 10 units away from every position used before, or the
    twentieth position drawn when none of the twenty is.  Any fuel of at
    least 20 gives the result. *)
Theorem chooseSpot_first_far_enough (fuel : nat) (draws : nat -> Draw)
    (prev : list (Q * Q)) :
  (20 <= fuel)%nat ->
  exists k,
    (k < 20)%nat /\
    chooseSpot fuel draws prev = Some (generateRandomPosition (draws k)) /\
    (forall j, (j < k)%nat ->
       isFarEnough prev (generateRandomPosition (draws j)) = false) /\
    ((forall p, In p prev ->
        100 < (fst p - fst (generateRandomPosition (draws k)))
                * (fst p - fst (generateRandomPosition (draws k)))
              + (snd p - snd (generateRandomPosition (draws k)))
                * (snd p - snd (generateRandomPosition (draws k))))
     \/ (k = 19%nat /\
         isFarEnough prev (generateRandomPosition (draws k)) = false)).
Proof.
  intros Hfuel.
  destruct (retryLoop_result draws prev fuel 0) as (k & Hk & Hrun & Hbefore & Hlast).
  - unfold maxAttempts. lia.
  - unfold maxAttempts. lia.
  - unfold maxAttempts in *. exists k. conjs; [lia | exact Hrun | |].
    + intros j Hj. apply Hbefore. lia.
    + destruct (isFarEnough prev (generateRandomPosition (draws k))) eqn:Hfar.
      * left. now apply isFarEnough_true.
      * right. destruct Hlast as [Hlast|Hlast]; [discriminate|]. split; [lia|reflexivity].
Qed.

(** The theorem with the centre used before and steady draws: the first
    draw is already far enough. *)
Lemma chooseSpot_first_far_enough_witness :
  (20 <= 20)%nat /\
  chooseSpot 20 steadyDraws [(0, 0)] = Some (generateRandomPosition (steadyDraws 0)).
Proof.
  split; [lia|].
  destruct (chooseSpot_first_far_enough 20 steadyDraws [(0, 0)] (le_n 20))
    as (k & Hk & Hrun & Hbefore & _).
  destruct k as [|k]; [exact Hrun|].
  exfalso. specialize (Hbefore 0%nat (Nat.lt_0_succ k)).
  vm_compute in Hbefore. discriminate.
Defined.

Lemma position_in_ring (d : Draw) :
  validDraw d ->
  (198 # 25) * (198 # 25)
    <= fst (generateRandomPosition d) * fst (generateRandomPosition d)
       + snd (generateRandomPosition d) * snd (generateRandomPosition d) /\
  fst (generateRandomPosition d) * fst (generateRandomPosition d)
    + snd (generateRandomPosition d) * snd (generateRandomPosition d)
    < (132 # 5) * (132 # 5).
Proof.
  intros (Hc & H0 & H1). unfold generateRandomPosition. cbn [fst snd].
  unfold safeRadius, groundRadius.
  set (q := sqrtRandom d) in *. set (c := cosAngle d) in *. set (s := sinAngle d) in *.
  set (dist := 33 * (4 # 5) * (3 # 10) + 33 * (4 # 5) * (7 # 10) * q).
  assert (Hd : dist == (198 # 25) + (462 # 25) * q) by (unfold dist; ring).
  assert (Hsq : c * dist * (c * dist) + s * dist * (s * dist) == dist * dist).
  { transitivity ((c * c + s * s) * (dist * dist)); [ring|]. rewrite Hc. ring. }
  rewrite Hsq, Hd. split; nra.
Qed.

(** X12.  A power-up never respawns near the centre or near the fence.
    When every draw is a point of the unit circle and a square root of a
    number of [0, 1), the spot the respawn effect chooses is at least
    7.92 and less than 26.4 units from the centre of the ground, whose
    radius is 33. *)
Theorem respawn_spot_in_ring (fuel : nat) (draws : nat -> Draw)
    (prev : list (Q * Q)) :
  (20 <= fuel)%nat -> (forall k, (k < 20)%nat -> validDraw (draws k)) ->
  exists spot,
    chooseSpot fuel draws prev = Some spot /\
    (198 # 25) * (198 # 25) <= fst spot * fst spot + snd spot * snd spot /\
    fst spot * fst spot + snd spot * snd spot < (132 # 5) * (132 # 5) /\
    fst spot * fst spot + snd spot * snd spot < groundRadius * groundRadius.
Proof.
  intros Hfuel Hvalid.
  destruct (retryLoop_result draws prev fuel 0) as (k & Hk & Hrun & _).
  - unfold maxAttempts. lia.
  - unfold maxAttempts. lia.
  - exists (generateRandomPosition (draws k)). split; [exact Hrun|].
    assert (Hk20 : (k < 20)%nat) by (unfold maxAttempts in Hk; lia).
    destruct (position_in_ring (draws k) (Hvalid k Hk20)) as [Hlo Hhi].
    conjs; [exact Hlo | exact Hhi |].
    unfold groundRadius. eapply Qlt_trans; [exact Hhi|]. reflexivity.
Qed.

(** The theorem with the steady draws. *)
Lemma respawn_spot_in_ring_witness :
  exists spot,
    chooseSpot 20 steadyDraws [(0, 0)] = Some spot /\
    fst spot * fst spot + snd spot * snd spot < groundRadius * groundRadius.
Proof.
  destruct (respawn_spot_in_ring 20 steadyDraws [(0, 0)] (le_n 20))
    as (spot & Hrun & _ & _ & Hin).
  - intros k _. unfold validDraw, steadyDraws. cbn [cosAngle sinAngle sqrtRandom].
    split; [reflexivity|]. split; lra.
  - exists spot. split; assumption.
Defined.

End PowerUpSpawnProps.

(** ** The cap of twelve and the reset of the power-up *)

Module PowerUpLifeProps.
Import PowerUp PowerUpLife.

Lemma useFrame_unmounted (playerBody : option Vec3)
    (aiBalls : list AIBallsStore.AIBallEntry) (now : Z) (c : Component) (r : Round) :
  (MAX_POWER_UPS <= powerUpsCollected (rendered c))%nat ->
  useFrame playerBody aiBalls now c r = (c, r).
Proof.
  intros H. unfold useFrame, meshMounted.
  rewrite (proj2 (Nat.ltb_ge _ _) H), andb_false_r. reflexivity.
Qed.

Lemma endOfGameEffect_keeps (c : Component) (r : Round) :
  store (endOfGameEffect c r) = store r /\ log (endOfGameEffect c r) = log r /\
  ball (endOfGameEffect c r) = ball r /\ aiScales (endOfGameEffect c r) = aiScales r.
Proof.
  unfold endOfGameEffect. destruct (Nat.leb _ _); [|auto].
  destruct (AIBallsStore.getWinnerBySecondaryCondition _); auto.
Qed.

Lemma render_round (spot : Q * Q) (c : Component) (r : Round) :
  store (snd (render spot c r)) = store r /\ log (snd (render spot c r)) = log r /\
  ball (snd (render spot c r)) = ball r /\ aiScales (snd (render spot c r)) = aiScales r.
Proof.
  unfold render. cbv zeta. cbn [snd].
  destruct (negb _); [apply endOfGameEffect_keeps | auto].
Qed.

Lemma respawnFires_counts (c : Component) :
  rendered (respawnFires c) = rendered c /\
  powerUpsCollected (pending (respawnFires c)) = powerUpsCollected (pending c).
Proof.
  unfold respawnFires. destruct (respawnTimeout c) as [[x z]|]; auto.
Qed.

(** One happening at the cap. *)
Lemma happen_at_cap (h : Happening) (c : Component) (r : Round) :
  (MAX_POWER_UPS <= powerUpsCollected (rendered c))%nat ->
  (MAX_POWER_UPS <= powerUpsCollected (pending c))%nat ->
  (MAX_POWER_UPS <= powerUpsCollected (rendered (fst (happen h (c, r)))))%nat /\
  powerUpsCollected (pending (fst (happen h (c, r)))) = powerUpsCollected (pending c) /\
  store (snd (happen h (c, r))) = store r /\ log (snd (happen h (c, r))) = log r /\
  ball (snd (happen h (c, r))) = ball r /\ aiScales (snd (happen h (c, r))) = aiScales r.
Proof.
  intros Hr Hp. destruct h as [playerBody aiBalls now|spot|]; cbn [happen fst snd].
  - rewrite (useFrame_unmounted playerBody aiBalls now c r Hr). cbn [fst snd].
    conjs; auto.
  - destruct (PowerUpProps.render_shows_pending spot c r) as [E1 E2].
    rewrite E1, E2. destruct (render_round spot c r) as (H1 & H2 & H3 & H4).
    conjs; auto.
  - destruct (respawnFires_counts c) as [E1 E2]. rewrite E1, E2. conjs; auto.
Qed.

(** X13.  Twelve is final.  Once a render has shown twelve collections,
    no sequence of frames, renders and respawn timers collects again,
    whoever stands on the power-up: the score store, the log of
    collections, the scales and the collected counter stay as they are.
    The respawn timer still fires after the twelfth collection, but the
    component renders nothing at twelve, so the frame callback finds no
    mesh. *)
Theorem nothing_collected_after_twelve (hs : list Happening) (c : Component)
    (r : Round) :
  (12 <= powerUpsCollected (rendered c))%nat ->
  (12 <= powerUpsCollected (pending c))%nat ->
  store (snd (happenAll hs (c, r))) = store r /\
  log (snd (happenAll hs (c, r))) = log r /\
  ball (snd (happenAll hs (c, r))) = ball r /\
  aiScales (snd (happenAll hs (c, r))) = aiScales r /\
  powerUpsCollected (pending (fst (happenAll hs (c, r))))
    = powerUpsCollected (pending c).
Proof.
  revert c r. induction hs as [|h hs IH]; intros c r Hr Hp; [cbn; conjs; auto|].
  unfold happenAll. cbn [List.fold_left]. fold (happenAll hs (happen h (c, r))).
  destruct (happen_at_cap h c r Hr Hp) as (Hr' & Hp' & Hs & Hl & Hb & Hk).
  destruct (happen h (c, r)) as [c' r'] eqn:E. cbn [fst snd] in *.
  destruct (IH c' r' Hr') as (Hs2 & Hl2 & Hb2 & Hk2 & Hp2).
  - rewrite Hp'. exact Hp.
  - rewrite Hs2, Hl2, Hb2, Hk2, Hp2. conjs; auto.
Qed.

(** The theorem after the twelfth collection: the respawn timer fires,
    the component renders, and the player stands on the respawn spot. *)
Lemma nothing_collected_after_twelve_witness :
  log (snd (happenAll
              [RespawnTimerFires; Renders (0, 0);
               FrameRuns (Some (mkVec3 10 (1 # 2) 10)) [] 9000%Z]
              (twelveShown, matchPoint))) = log matchPoint.
Proof.
  destruct (nothing_collected_after_twelve
              [RespawnTimerFires; Renders (0, 0);
               FrameRuns (Some (mkVec3 10 (1 # 2) 10)) [] 9000%Z]
              twelveShown matchPoint) as (_ & Hl & _).
  - cbn. lia.
  - cbn. lia.
  - exact Hl.
Defined.

(** X14.  At the cap the round always ends with a winner.  In the render
    in which the collected counter has changed and is at least 12, if
    anything has been scored the end-of-game effect sets the winner the
    resolver returns and calls [end()]; the score store is left as it
    is. *)
Theorem cap_ends_round (spot : Q * Q) (c : Component) (r : Round) :
  powerUpsCollected (rendered c) <> powerUpsCollected (pending c) ->
  (12 <= powerUpsCollected (pending c))%nat ->
  AIBallsStore.getTotalPowerupsCollected (store r) <> 0%nat ->
  exists w,
    AIBallsStore.getWinnerBySecondaryCondition (store r) = Some w /\
    win (snd (render spot c r)) =
      WinStore.mkWinState true (Some (AIBallsStore.w_id w))
        (AIBallsStore.w_isPlayer w) (AIBallsStore.w_color w)
        (AIBallsStore.w_powerupsCount w) (Some (AIBallsStore.w_reason w))
        (match AIBallsStore.w_playerWasInTie w with Some b => b | None => false end) /\
    phase (snd (render spot c r)) = Game.finish (phase r) /\
    store (snd (render spot c r)) = store r.
Proof.
  intros Hchanged Hcap Htotal.
  destruct (AIBallsStore.getWinnerBySecondaryCondition (store r)) as [w|] eqn:Hw.
  - exists w. split; [reflexivity|].
    unfold render. cbv zeta. cbn [snd rendered].
    rewrite (proj2 (Nat.eqb_neq _ _) Hchanged). cbn [negb].
    unfold endOfGameEffect. cbn [rendered].
    rewrite (proj2 (Nat.leb_le MAX_POWER_UPS _) Hcap), Hw.
    conjs; reflexivity.
  - exfalso. now apply (StoreProps.collected_gives_winner (store r) Htotal).
Qed.

(** The theorem for the twelfth collection of a round the player leads. *)
Lemma cap_ends_round_witness :
  win (snd (render (10, 10)
              (mkComponent (mkReactState centre 11 false)
                 (mkReactState (mkPowerUpState false (mkVec3 0 (1 # 2) 0)) 12 true)
                 true [(0, 0)] None)
              matchPoint))
  = WinStore.mkWinState true (Some 0%nat) true "#1e88e5" 4
      (Some AIBallsStore.most_powerups) false.
Proof.
  destruct (cap_ends_round (10, 10)
              (mkComponent (mkReactState centre 11 false)
                 (mkReactState (mkPowerUpState false (mkVec3 0 (1 # 2) 0)) 12 true)
                 true [(0, 0)] None)
              matchPoint) as (w & Hw & Hwin & _).
  - cbn. lia.
  - cbn. lia.
  - vm_compute. lia.
  - rewrite Hwin. vm_compute in Hw. injection Hw as <-. reflexivity.
Defined.

(** X15.  The reset event restores the power-up: after [handleReset] and
    the render that follows, the component is as it was mounted - active
    at the centre, counter 0, both locks open, only the centre among the
    previous positions, no respawn pending - and the round's stores are
    untouched.  (In every state the component reaches, a respawn is
    pending only while the last render showed the power-up inactive.) *)
Theorem reset_restores_power_up (spot : Q * Q) (c : Component) (r : Round) :
  (respawnTimeout c <> None -> active (powerUpState (rendered c)) = false) ->
  render spot (handleReset c) r = (mountedComponent, r).
Proof.
  intros Hinv. unfold render, handleReset. cbv zeta.
  cbn [rendered pending isCollectingRef prevPositionsRef respawnTimeout
       setPowerUpState setIsCollecting setIsCollectingRef setPowerUpsCollected
       setPending powerUpState powerUpsCollected isCollecting active centre].
  assert (Hend : forall c', endOfGameEffect
            (mkComponent (mkReactState centre 0 false) (mkReactState centre 0 false)
               false [(0, 0)] c') r = r).
  { intros c'. reflexivity. }
  destruct (active (powerUpState (rendered c))) eqn:Hact.
  - destruct (Nat.eqb_spec (powerUpsCollected (rendered c)) 0) as [E|E].
    + cbn [negb Bool.eqb orb].
      destruct (respawnTimeout c) as [t|] eqn:Ht.
      * exfalso. assert (H : true = false) by (apply Hinv; discriminate).
        discriminate.
      * reflexivity.
    + cbn [negb Bool.eqb orb]. reflexivity.
  - cbn [negb Bool.eqb orb].
    destruct (negb (Nat.eqb (powerUpsCollected (rendered c)) 0)); reflexivity.
Qed.

(** The theorem for the component after the twelfth collection. *)
Lemma reset_restores_power_up_witness :
  render (1, 1) (handleReset twelveShown) matchPoint = (mountedComponent, matchPoint).
Proof.
  apply reset_restores_power_up. intros _. reflexivity.
Defined.

End PowerUpLifeProps.

(** ** Pause, restart of the same level and return to the menu *)

Module GameManagerMenuProps.
Import GameManager GameManagerMenu.

(** The reset of the ball positions touches the bodies, the ball
    components, the positions of the score store and the session seed,
    and nothing else. *)
Lemma resetBallPositions_others (o : Oracle) (a : App) :
  PowerUp.win (round (resetBallPositions o a)) = PowerUp.win (round a) /\
  PowerUp.phase (round (resetBallPositions o a)) = PowerUp.phase (round a) /\
  controls (resetBallPositions o a) = controls a /\
  clock (resetBallPositions o a) = clock a /\
  difficulty (resetBallPositions o a) = difficulty a /\
  pause (resetBallPositions o a) = pause a /\
  physicsWorld (resetBallPositions o a) = physicsWorld a /\
  isMuted (resetBallPositions o a) = isMuted a /\
  pointerLocked (resetBallPositions o a) = pointerLocked a /\
  cameraPointerLocked (resetBallPositions o a) = cameraPointerLocked a /\
  browserPointerLock (resetBallPositions o a) = browserPointerLock a /\
  camera (resetBallPositions o a) = camera a.
Proof.
  unfold resetBallPositions.
  set (a1 := match Cannon.world (physics a) with Some _ => _ | None => a end).
  assert (Ha1 : round a1 = round a /\ controls a1 = controls a /\ clock a1 = clock a /\
                difficulty a1 = difficulty a /\ pause a1 = pause a /\
                physicsWorld a1 = physicsWorld a /\ isMuted a1 = isMuted a /\
                pointerLocked a1 = pointerLocked a /\
                cameraPointerLocked a1 = cameraPointerLocked a /\
                browserPointerLock a1 = browserPointerLock a /\ camera a1 = camera a).
  { unfold a1. destruct (Cannon.world (physics a)); [|conjs; reflexivity].
    destruct (Ball.createPlayerBall _ _ _ _ _) as [c p]. conjs; reflexivity. }
  destruct Ha1 as (Hr & Hc & Hk & Hd & Hp & Hw & Hm & Hl1 & Hl2 & Hl3 & Hcam).
  cbv zeta.
  destruct (resetAIBalls o (aiBallComps a1) (physics a1) (PowerUp.store (round a1))
              (sessionRandomSeed a1)) as [[[comps p] s] seed].
  cbn. rewrite Hr, Hc, Hk, Hd, Hp, Hw, Hm, Hl1, Hl2, Hl3, Hcam. conjs; reflexivity.
Qed.

Lemma resetPointerLockState_fields (a : App) :
  pointerLocked (resetPointerLockState a) = false /\
  cameraPointerLocked (resetPointerLockState a) = false /\
  browserPointerLock (resetPointerLockState a) = false /\
  round (resetPointerLockState a) = round a /\
  powerUp (resetPointerLockState a) = powerUp a /\
  physics (resetPointerLockState a) = physics a /\
  physicsWorld (resetPointerLockState a) = physicsWorld a /\
  controls (resetPointerLockState a) = controls a /\
  clock (resetPointerLockState a) = clock a /\
  difficulty (resetPointerLockState a) = difficulty a /\
  pause (resetPointerLockState a) = pause a /\
  isMuted (resetPointerLockState a) = isMuted a /\
  ballRefs (resetPointerLockState a) = ballRefs a /\
  aiBallComps (resetPointerLockState a) = aiBallComps a /\
  camera (resetPointerLockState a) = camera a.
Proof.
  unfold resetPointerLockState. cbv zeta. cbn [browserPointerLock onCameraPointerLocked onPointerLocked].
  destruct (browserPointerLock a) eqn:E; cbn; rewrite ?E; conjs; reflexivity.
Qed.

(** X16.  Pause and resume.  Pausing a running game and resuming it
    leaves the round (scores, scales, winner, phase), the power-up, the
    bodies and the difficulty as they were; the game is unpaused with the
    settings closed; the direction is zero and the "player has moved"
    flag is as before; the input is enabled again exactly when the round
    is in play with a level selected; the pointer lock is released; the
    timing of the physics loop is reset; and the physics clock is re-based
    to the resume time with its first-frame flag set, so that its next
    tick hands out 1/120 s whatever the length of the pause. *)
Theorem pause_then_resume (now t : Q) (o : Oracle) (a : App) :
  PauseStore.isPaused (pause a) = false ->
  round (resumeGame o (pauseGame now a)) = round a /\
  powerUp (resumeGame o (pauseGame now a)) = powerUp a /\
  physics (resumeGame o (pauseGame now a)) = physics a /\
  difficulty (resumeGame o (pauseGame now a)) = difficulty a /\
  pause (resumeGame o (pauseGame now a)) = PauseStore.mkPauseState false false /\
  controls (resumeGame o (pauseGame now a)) =
    Controls.mkControlsState 0 0
      (Controls.hasPlayerStartedMoving (controls a))
      (match PowerUp.phase (round a) with
       | Game.playing => Difficulty.hasSelectedLevel (difficulty a)
       | _ => false
       end)
      (Controls.movementForce (controls a)) /\
  pointerLocked (resumeGame o (pauseGame now a)) = false /\
  cameraPointerLocked (resumeGame o (pauseGame now a)) = false /\
  browserPointerLock (resumeGame o (pauseGame now a)) = false /\
  physicsWorld (resumeGame o (pauseGame now a))
    = option_map PhysicsWorld.resetPhysicsTiming (physicsWorld a) /\
  clock (resumeGame o (pauseGame now a)) =
    PhysicsClock.mkPhysicsClockState (clockResumeAt o / 1000) false
      (PhysicsClock.accumulatedTime (clock a)) None true /\
  snd (PhysicsClock.tick t (clock (resumeGame o (pauseGame now a)))) = 1 # 120.
Proof.
  intros Hp. unfold pauseGame. rewrite Hp. cbv zeta.
  set (a3 := onClock _ _).
  destruct (resetPointerLockState_fields a3)
    as (Hl1 & Hl2 & Hl3 & Hr & Hpu & Hph & Hpw & Hc & Hk & Hd & Hpa & _).
  set (a4 := resetPointerLockState a3) in *.
  assert (H3 : round a3 = round a /\ powerUp a3 = powerUp a /\ physics a3 = physics a /\
               physicsWorld a3 = physicsWorld a /\ difficulty a3 = difficulty a /\
               pause a3 = PauseStore.mkPauseState true (PauseStore.isSettingsOpen (pause a)) /\
               controls a3 = Controls.disableInput (controls a) /\
               clock a3 = PhysicsClock.setPaused true now (clock a)).
  { unfold a3. cbn. conjs; reflexivity. }
  destruct H3 as (Hr3 & Hpu3 & Hph3 & Hpw3 & Hd3 & Hpa3 & Hc3 & Hk3).
  unfold resumeGame. rewrite Hpa, Hpa3. cbn [PauseStore.isPaused negb]. cbv zeta.
  rewrite Hr, Hr3, Hd, Hd3.
  assert (Hclock : PhysicsClock.setPaused false (clockResumeAt o) (clock a4)
                   = PhysicsClock.mkPhysicsClockState (clockResumeAt o / 1000) false
                       (PhysicsClock.accumulatedTime (clock a)) None true).
  { rewrite Hk, Hk3. unfold PhysicsClock.setPaused.
    destruct (PhysicsClock.isPaused (clock a)) eqn:E; cbn; rewrite ?E; reflexivity. }
  destruct (PowerUp.phase (round a)) eqn:Hphase;
    try destruct (Difficulty.hasSelectedLevel (difficulty a)) eqn:Hsel;
    cbn; rewrite ?Hr, ?Hr3, ?Hpu, ?Hpu3, ?Hph, ?Hph3, ?Hd, ?Hd3, ?Hl1, ?Hl2, ?Hl3,
      ?Hpw, ?Hpw3, ?Hc, ?Hc3, ?Hclock, ?Hphase;
    conjs; reflexivity.
Qed.

(** The theorem at the won scene put back into play: paused for an hour. *)
Lemma pause_then_resume_witness :
  round (resumeGame wonOracle
           (pauseGame 1000 (onRound (onPhase (fun _ => Game.playing)) wonScene)))
    = round (onRound (onPhase (fun _ => Game.playing)) wonScene) /\
  snd (PhysicsClock.tick 3605000
         (clock (resumeGame wonOracle
                   (pauseGame 1000
                      (onRound (onPhase (fun _ => Game.playing)) wonScene)))))
    = 1 # 120.
Proof.
  destruct (pause_then_resume 1000 3605000 wonOracle
              (onRound (onPhase (fun _ => Game.playing)) wonScene) eq_refl)
    as (Hr & _ & _ & _ & _ & _ & _ & _ & _ & _ & _ & Ht).
  split; [exact Hr | exact Ht].
Defined.

(** X17.  A second pause and a resume of a game that is not paused do
    nothing, so the pause time of the physics clock is the time of the
    first pause. *)
Theorem pause_twice_is_once (now1 now2 : Q) (o : Oracle) (a : App) :
  pauseGame now2 (pauseGame now1 a) = pauseGame now1 a /\
  resumeGame o (resumeGame o a) = resumeGame o a /\
  (PauseStore.isPaused (pause a) = false ->
   PhysicsClock.isPaused (clock a) = false ->
   PhysicsClock.pauseStartTime (clock (pauseGame now2 (pauseGame now1 a)))
     = Some (now1 / 1000)).
Proof.
  assert (Hp : PauseStore.isPaused (pause (pauseGame now1 a)) = true).
  { unfold pauseGame. destruct (PauseStore.isPaused (pause a)) eqn:E; [exact E|].
    cbv zeta.
    match goal with |- context [resetPointerLockState ?x] =>
      destruct (resetPointerLockState_fields x)
        as (_ & _ & _ & _ & _ & _ & _ & _ & _ & _ & Hpa & _)
    end.
    now rewrite Hpa. }
  assert (Hr : PauseStore.isPaused (pause (resumeGame o a)) = false).
  { unfold resumeGame. destruct (PauseStore.isPaused (pause a)) eqn:E; [|exact E].
    cbn [negb]. cbv zeta.
    destruct (PowerUp.phase (round a)); try reflexivity.
    destruct (Difficulty.hasSelectedLevel (difficulty a)); reflexivity. }
  conjs.
  - unfold pauseGame at 1. now rewrite Hp.
  - unfold resumeGame at 1. now rewrite Hr.
  - intros Ha Hc. unfold pauseGame at 1. rewrite Hp.
    unfold pauseGame. rewrite Ha. cbv zeta.
    match goal with |- context [resetPointerLockState ?x] =>
      destruct (resetPointerLockState_fields x)
        as (_ & _ & _ & _ & _ & _ & _ & _ & Hk & _)
    end.
    rewrite Hk. cbn [clock onClock]. unfold PhysicsClock.setPaused.
    cbn. rewrite Hc. reflexivity.
Qed.

(** The theorem at the won scene put back into play. *)
Lemma pause_twice_is_once_witness :
  PhysicsClock.pauseStartTime
    (clock (pauseGame 9000 (pauseGame 1000
              (onRound (onPhase (fun _ => Game.playing)) wonScene))))
    = Some (1000 / 1000).
Proof.
  exact (proj2 (proj2 (pause_twice_is_once 1000 9000 wonOracle
                         (onRound (onPhase (fun _ => Game.playing)) wonScene)))
           eq_refl eq_refl).
Defined.

(** The resets of the balls and of the power-up, in the order every
    restart calls them. *)
Lemma reset_of_balls_and_powerup (o : Oracle) (a : App) :
  scoresCleared
    (PowerUp.store (round (resetPowerups (resetBallPositions o
                             (resetAIBallState (resetBallState a)))))) /\
  PowerUp.ball (round (resetPowerups (resetBallPositions o
                         (resetAIBallState (resetBallState a)))))
    = Ball.setScale 1 (PowerUp.ball (round a)) /\
  PowerUp.aiScales (round (resetPowerups (resetBallPositions o
                             (resetAIBallState (resetBallState a)))))
    = AIBallScaleStore.mkAIBallScaleState ∅ ∅ /\
  powerUp (resetPowerups (resetBallPositions o (resetAIBallState (resetBallState a))))
    = PowerUp.handleReset (powerUp a) /\
  PowerUp.win (round (resetPowerups (resetBallPositions o
                        (resetAIBallState (resetBallState a)))))
    = PowerUp.win (round a) /\
  PowerUp.phase (round (resetPowerups (resetBallPositions o
                          (resetAIBallState (resetBallState a)))))
    = PowerUp.phase (round a) /\
  controls (resetPowerups (resetBallPositions o (resetAIBallState (resetBallState a))))
    = controls a /\
  clock (resetPowerups (resetBallPositions o (resetAIBallState (resetBallState a))))
    = clock a /\
  difficulty (resetPowerups (resetBallPositions o (resetAIBallState (resetBallState a))))
    = difficulty a /\
  pause (resetPowerups (resetBallPositions o (resetAIBallState (resetBallState a))))
    = pause a /\
  physicsWorld (resetPowerups (resetBallPositions o (resetAIBallState (resetBallState a))))
    = physicsWorld a /\
  isMuted (resetPowerups (resetBallPositions o (resetAIBallState (resetBallState a))))
    = isMuted a.
Proof.
  set (a2 := resetAIBallState (resetBallState a)).
  assert (H2 : scoresCleared (PowerUp.store (round a2)) /\
               PowerUp.ball (round a2) = Ball.setScale 1 (PowerUp.ball (round a)) /\
               PowerUp.aiScales (round a2) = AIBallScaleStore.mkAIBallScaleState ∅ ∅ /\
               powerUp a2 = powerUp a /\
               PowerUp.win (round a2) = PowerUp.win (round a) /\
               PowerUp.phase (round a2) = PowerUp.phase (round a) /\
               controls a2 = controls a /\ clock a2 = clock a /\
               difficulty a2 = difficulty a /\ pause a2 = pause a /\
               physicsWorld a2 = physicsWorld a /\ isMuted a2 = isMuted a).
  { unfold a2, resetAIBallState, resetBallState. cbv zeta. cbn.
    split; [apply GameManagerProps.scoresCleared_resetBalls|]. conjs; reflexivity. }
  destruct H2 as (Hs & Hb & Hk & Hpu & Hw & Hph & Hc & Hcl & Hd & Hpa & Hpw & Hm).
  destruct (GameManagerProps.resetBallPositions_round o a2 Hs) as (Hs3 & Hb3 & Hk3 & Hpu3).
  destruct (resetBallPositions_others o a2)
    as (Hw3 & Hph3 & Hc3 & Hcl3 & Hd3 & Hpa3 & Hpw3 & Hm3 & _).
  unfold resetPowerups. cbn.
  rewrite Hb3, Hk3, Hpu3, Hw3, Hph3, Hc3, Hcl3, Hd3, Hpa3, Hpw3, Hm3.
  rewrite Hb, Hk, Hpu, Hw, Hph, Hc, Hcl, Hd, Hpa, Hpw, Hm.
  conjs; try reflexivity. exact Hs3.
Qed.

Lemma resetControlsState_controls (a : App) :
  controls (resetControlsState a)
    = Controls.mkControlsState 0 0 false false (Controls.movementForce (controls a)).
Proof.
  unfold resetControlsState. cbv zeta.
  destruct (Controls.hasPlayerStartedMoving (controls a)) eqn:Hf; cbn.
  - unfold Controls.setMovementDirection.
    destruct (negb (Controls.isInputEnabled (controls a))).
    + destruct (_ || _); reflexivity.
    + reflexivity.
  - unfold Controls.setMovementDirection, Controls.disableInput.
    destruct (negb (Controls.isInputEnabled (controls a))).
    + destruct (_ || _); cbn; rewrite ?Hf; reflexivity.
    + cbn. rewrite Hf. reflexivity.
Qed.

Lemma resetControlsState_others (a : App) :
  round (resetControlsState a) = round a /\
  powerUp (resetControlsState a) = powerUp a /\
  clock (resetControlsState a) = clock a /\
  difficulty (resetControlsState a) = difficulty a /\
  pause (resetControlsState a) = pause a /\
  physicsWorld (resetControlsState a) = physicsWorld a /\
  isMuted (resetControlsState a) = isMuted a.
Proof.
  unfold resetControlsState. cbv zeta.
  destruct (Controls.hasPlayerStartedMoving (controls a)); conjs; reflexivity.
Qed.

Lemma handleReset_count (c : PowerUp.Component) :
  PowerUp.powerUpsCollected (PowerUp.pending (PowerUp.handleReset c)) = 0%nat.
Proof. reflexivity. Qed.

Lemma resumeGame_fields (o : Oracle) (a : App) :
  round (resumeGame o a) = round a /\
  powerUp (resumeGame o a) = powerUp a /\
  difficulty (resumeGame o a) = difficulty a /\
  isMuted (resumeGame o a) = isMuted a /\
  PauseStore.isPaused (pause (resumeGame o a)) = false /\
  controls (resumeGame o a) =
    if PauseStore.isPaused (pause a) &&
       match PowerUp.phase (round a) with
       | Game.playing => Difficulty.hasSelectedLevel (difficulty a)
       | _ => false
       end
    then Controls.enableInput (controls a) else controls a.
Proof.
  unfold resumeGame.
  destruct (PauseStore.isPaused (pause a)) eqn:Hp; cbn [negb andb].
  - cbv zeta. destruct (PowerUp.phase (round a));
      try destruct (Difficulty.hasSelectedLevel (difficulty a));
      conjs; reflexivity.
  - conjs; try reflexivity. exact Hp.
Qed.

(** The step of [restartCurrentGame] that calls [start()] unless the
    phase is playing. *)
Lemma start_unless_playing (a : App) :
  PowerUp.phase (round (match PowerUp.phase (round a) with
                        | Game.playing => a
                        | _ => onRound (onPhase Game.start) a
                        end))
    = match PowerUp.phase (round a) with
      | Game.ready => Game.playing
      | ph => ph
      end /\
  PowerUp.store (round (match PowerUp.phase (round a) with
                        | Game.playing => a
                        | _ => onRound (onPhase Game.start) a
                        end)) = PowerUp.store (round a) /\
  PowerUp.ball (round (match PowerUp.phase (round a) with
                       | Game.playing => a
                       | _ => onRound (onPhase Game.start) a
                       end)) = PowerUp.ball (round a) /\
  PowerUp.aiScales (round (match PowerUp.phase (round a) with
                           | Game.playing => a
                           | _ => onRound (onPhase Game.start) a
                           end)) = PowerUp.aiScales (round a) /\
  PowerUp.win (round (match PowerUp.phase (round a) with
                      | Game.playing => a
                      | _ => onRound (onPhase Game.start) a
                      end)) = PowerUp.win (round a) /\
  powerUp (match PowerUp.phase (round a) with
           | Game.playing => a
           | _ => onRound (onPhase Game.start) a
           end) = powerUp a /\
  controls (match PowerUp.phase (round a) with
            | Game.playing => a
            | _ => onRound (onPhase Game.start) a
            end) = controls a /\
  difficulty (match PowerUp.phase (round a) with
              | Game.playing => a
              | _ => onRound (onPhase Game.start) a
              end) = difficulty a /\
  pause (match PowerUp.phase (round a) with
         | Game.playing => a
         | _ => onRound (onPhase Game.start) a
         end) = pause a /\
  isMuted (match PowerUp.phase (round a) with
           | Game.playing => a
           | _ => onRound (onPhase Game.start) a
           end) = isMuted a.
Proof.
  destruct (PowerUp.phase (round a)) eqn:E; cbn; rewrite ?E; conjs; reflexivity.
Qed.

Lemma prefix_fields (a : App) :
  PowerUp.ball (round (resetPhysicsWorld (onRound (onWin WinStore.resetWin)
      (resetCameraDirection (resetPointerLockState a))))) = PowerUp.ball (round a) /\
  PowerUp.win (round (resetPhysicsWorld (onRound (onWin WinStore.resetWin)
      (resetCameraDirection (resetPointerLockState a))))) = WinStore.noWinner /\
  PowerUp.phase (round (resetPhysicsWorld (onRound (onWin WinStore.resetWin)
      (resetCameraDirection (resetPointerLockState a))))) = PowerUp.phase (round a) /\
  controls (resetPhysicsWorld (onRound (onWin WinStore.resetWin)
      (resetCameraDirection (resetPointerLockState a)))) = controls a /\
  difficulty (resetPhysicsWorld (onRound (onWin WinStore.resetWin)
      (resetCameraDirection (resetPointerLockState a)))) = difficulty a /\
  pause (resetPhysicsWorld (onRound (onWin WinStore.resetWin)
      (resetCameraDirection (resetPointerLockState a)))) = pause a /\
  isMuted (resetPhysicsWorld (onRound (onWin WinStore.resetWin)
      (resetCameraDirection (resetPointerLockState a)))) = isMuted a.
Proof.
  unfold resetPhysicsWorld, resetCameraDirection. cbv zeta.
  destruct (resetPointerLockState_fields a)
    as (_ & _ & _ & Hr & _ & _ & _ & Hc & _ & Hd & Hp & Hm & _).
  cbn. rewrite Hr, Hc, Hd, Hp, Hm. conjs; reflexivity.
Qed.

Lemma resetPhysicsClock_fields (o : Oracle) (a : App) :
  round (resetPhysicsClock o a) = round a /\
  powerUp (resetPhysicsClock o a) = powerUp a /\
  controls (resetPhysicsClock o a) = controls a /\
  difficulty (resetPhysicsClock o a) = difficulty a /\
  pause (resetPhysicsClock o a) = pause a /\
  isMuted (resetPhysicsClock o a) = isMuted a.
Proof. unfold resetPhysicsClock. cbn. conjs; reflexivity. Qed.

Lemma restartCurrentGame_steps (o : Oracle) (a : App) :
  restartCurrentGame o a =
    resumeGame o
      (match PowerUp.phase (round (resetPhysicsClock o (resetControlsState (resetPowerups
                (resetBallPositions o (resetAIBallState (resetBallState
                   (resetPhysicsWorld (onRound (onWin WinStore.resetWin)
                      (resetCameraDirection (resetPointerLockState a))))))))))) with
       | Game.playing =>
           resetPhysicsClock o (resetControlsState (resetPowerups
                (resetBallPositions o (resetAIBallState (resetBallState
                   (resetPhysicsWorld (onRound (onWin WinStore.resetWin)
                      (resetCameraDirection (resetPointerLockState a)))))))))
       | _ =>
           onRound (onPhase Game.start)
             (resetPhysicsClock o (resetControlsState (resetPowerups
                (resetBallPositions o (resetAIBallState (resetBallState
                   (resetPhysicsWorld (onRound (onWin WinStore.resetWin)
                      (resetCameraDirection (resetPointerLockState a))))))))))
       end).
Proof.
  unfold restartCurrentGame. cbv zeta. rewrite Bool.eqb_reflx. reflexivity.
Qed.

(** X18.  Restart of the same level, as the pause menu calls it.  After
    [restartCurrentGame] the scores, the collected counter, the scales
    and the winner are cleared and the "player has moved" flag is down,
    as after [restartGame]; but the difficulty and its selection are
    kept.  The phase becomes playing from ready and is left as it is
    otherwise - also when it is ended, since [start()] only acts in the
    ready phase.  The game is unpaused, and the input, which the reset
    disables, is enabled again only if the game was paused and the round
    is then in play with a level selected. *)
Theorem restartCurrentGame_keeps_level (o : Oracle) (a : App) :
  GameManager.scoresCleared (PowerUp.store (round (restartCurrentGame o a))) /\
  AIBallsStore.getTotalPowerupsCollected
    (PowerUp.store (round (restartCurrentGame o a))) = 0%nat /\
  PowerUp.powerUpsCollected (PowerUp.pending (powerUp (restartCurrentGame o a))) = 0%nat /\
  Ball.scale (PowerUp.ball (round (restartCurrentGame o a))) = 1 /\
  PowerUp.aiScales (round (restartCurrentGame o a))
    = AIBallScaleStore.mkAIBallScaleState ∅ ∅ /\
  PowerUp.win (round (restartCurrentGame o a)) = WinStore.noWinner /\
  difficulty (restartCurrentGame o a) = difficulty a /\
  PowerUp.phase (round (restartCurrentGame o a))
    = match PowerUp.phase (round a) with
      | Game.ready => Game.playing
      | ph => ph
      end /\
  PauseStore.isPaused (pause (restartCurrentGame o a)) = false /\
  controls (restartCurrentGame o a)
    = Controls.mkControlsState 0 0 false
        (PauseStore.isPaused (pause a) &&
         match PowerUp.phase (round a) with
         | Game.playing | Game.ready => Difficulty.hasSelectedLevel (difficulty a)
         | _ => false
         end)
        (Controls.movementForce (controls a)) /\
  isMuted (restartCurrentGame o a) = isMuted a.
Proof.
  rewrite restartCurrentGame_steps.
  match goal with |- context [resumeGame o ?x] =>
    destruct (resumeGame_fields o x) as (Hr8 & Hpu8 & Hd8 & Hm8 & Hp8 & Hc8)
  end.
  rewrite Hr8, Hpu8, Hd8, Hm8, Hp8, Hc8. clear Hr8 Hpu8 Hd8 Hm8 Hp8 Hc8.
  match goal with |- context [resetPhysicsClock o ?x] =>
    destruct (start_unless_playing (resetPhysicsClock o x))
      as (Hph7 & Hs7 & Hb7 & Hk7 & Hw7 & Hpu7 & Hc7 & Hd7 & Hp7 & Hm7);
    destruct (resetPhysicsClock_fields o x) as (Hr6 & Hpu6 & Hc6 & Hd6 & Hp6 & Hm6)
  end.
  rewrite Hph7, Hs7, Hb7, Hk7, Hw7, Hpu7, Hc7, Hd7, Hp7, Hm7.
  clear Hph7 Hs7 Hb7 Hk7 Hw7 Hpu7 Hc7 Hd7 Hp7 Hm7.
  rewrite Hr6, Hpu6, Hc6, Hd6, Hp6, Hm6. clear Hr6 Hpu6 Hc6 Hd6 Hp6 Hm6.
  match goal with |- context [resetControlsState ?x] =>
    destruct (resetControlsState_others x) as (Hr5 & Hpu5 & _ & Hd5 & Hp5 & _ & Hm5);
    pose proof (resetControlsState_controls x) as Hc5
  end.
  rewrite Hr5, Hpu5, Hc5, Hd5, Hp5, Hm5. clear Hr5 Hpu5 Hc5 Hd5 Hp5 Hm5.
  match goal with |- context [resetBallState ?x] =>
    destruct (reset_of_balls_and_powerup o x)
      as (Hs & Hb & Hk & Hpu & Hw & Hph & Hc & _ & Hd & Hp & _ & Hm)
  end.
  rewrite Hb, Hk, Hpu, Hw, Hph, Hc, Hd, Hp, Hm.
  destruct (prefix_fields a) as (Hb0 & Hw0 & Hph0 & Hc0 & Hd0 & Hp0 & Hm0).
  rewrite Hw0, Hph0, Hc0, Hd0, Hp0, Hm0.
  conjs; try reflexivity.
  - exact Hs.
  - now apply GameManagerProps.scoresCleared_total.
  - destruct (PauseStore.isPaused (pause a)); [|reflexivity].
    destruct (PowerUp.phase (round a)); cbn [andb]; try reflexivity;
      destruct (Difficulty.hasSelectedLevel (difficulty a)); reflexivity.
Qed.

Lemma returnToMainMenu_steps (o : Oracle) (a : App) :
  returnToMainMenu o a =
    onRound (onPhase Game.showStartMenu)
      (onPause PauseStore.resumeGame
         (onDifficulty Difficulty.resetDifficultySelection
            (onRound (onWin WinStore.resetWin)
               (resetCameraDirection
                  (resetControlsState (resetPowerups
                     (resetBallPositions o (resetAIBallState (resetBallState
                        (resetPhysicsWorld (resetPointerLockState a))))))))))).
Proof.
  unfold returnToMainMenu. cbv zeta. rewrite Bool.eqb_reflx. reflexivity.
Qed.

(** The last five steps of [returnToMainMenu]. *)
Lemma menu_suffix_fields (x : App) :
  PowerUp.phase (round (onRound (onPhase Game.showStartMenu)
           (onPause PauseStore.resumeGame
              (onDifficulty Difficulty.resetDifficultySelection
                 (onRound (onWin WinStore.resetWin) (resetCameraDirection x))))))
    = Game.start_menu /\
  PowerUp.win (round (onRound (onPhase Game.showStartMenu)
           (onPause PauseStore.resumeGame
              (onDifficulty Difficulty.resetDifficultySelection
                 (onRound (onWin WinStore.resetWin) (resetCameraDirection x))))))
    = WinStore.noWinner /\
  PowerUp.store (round (onRound (onPhase Game.showStartMenu)
           (onPause PauseStore.resumeGame
              (onDifficulty Difficulty.resetDifficultySelection
                 (onRound (onWin WinStore.resetWin) (resetCameraDirection x))))))
    = PowerUp.store (round x) /\
  PowerUp.ball (round (onRound (onPhase Game.showStartMenu)
           (onPause PauseStore.resumeGame
              (onDifficulty Difficulty.resetDifficultySelection
                 (onRound (onWin WinStore.resetWin) (resetCameraDirection x))))))
    = PowerUp.ball (round x) /\
  PowerUp.aiScales (round (onRound (onPhase Game.showStartMenu)
           (onPause PauseStore.resumeGame
              (onDifficulty Difficulty.resetDifficultySelection
                 (onRound (onWin WinStore.resetWin) (resetCameraDirection x))))))
    = PowerUp.aiScales (round x) /\
  powerUp (onRound (onPhase Game.showStartMenu)
           (onPause PauseStore.resumeGame
              (onDifficulty Difficulty.resetDifficultySelection
                 (onRound (onWin WinStore.resetWin) (resetCameraDirection x)))))
    = powerUp x /\
  controls (onRound (onPhase Game.showStartMenu)
           (onPause PauseStore.resumeGame
              (onDifficulty Difficulty.resetDifficultySelection
                 (onRound (onWin WinStore.resetWin) (resetCameraDirection x)))))
    = controls x /\
  clock (onRound (onPhase Game.showStartMenu)
           (onPause PauseStore.resumeGame
              (onDifficulty Difficulty.resetDifficultySelection
                 (onRound (onWin WinStore.resetWin) (resetCameraDirection x)))))
    = clock x /\
  difficulty (onRound (onPhase Game.showStartMenu)
           (onPause PauseStore.resumeGame
              (onDifficulty Difficulty.resetDifficultySelection
                 (onRound (onWin WinStore.resetWin) (resetCameraDirection x)))))
    = Difficulty.mkDifficultyState (Difficulty.level (difficulty x)) false /\
  pause (onRound (onPhase Game.showStartMenu)
           (onPause PauseStore.resumeGame
              (onDifficulty Difficulty.resetDifficultySelection
                 (onRound (onWin WinStore.resetWin) (resetCameraDirection x)))))
    = PauseStore.mkPauseState false false /\
  physicsWorld (onRound (onPhase Game.showStartMenu)
           (onPause PauseStore.resumeGame
              (onDifficulty Difficulty.resetDifficultySelection
                 (onRound (onWin WinStore.resetWin) (resetCameraDirection x)))))
    = physicsWorld x /\
  isMuted (onRound (onPhase Game.showStartMenu)
           (onPause PauseStore.resumeGame
              (onDifficulty Difficulty.resetDifficultySelection
                 (onRound (onWin WinStore.resetWin) (resetCameraDirection x)))))
    = isMuted x.
Proof. unfold resetCameraDirection. cbn. conjs; reflexivity. Qed.

Lemma resetPhysicsWorld_fields (a : App) :
  round (resetPhysicsWorld a) = round a /\
  powerUp (resetPhysicsWorld a) = powerUp a /\
  controls (resetPhysicsWorld a) = controls a /\
  clock (resetPhysicsWorld a) = clock a /\
  difficulty (resetPhysicsWorld a) = difficulty a /\
  pause (resetPhysicsWorld a) = pause a /\
  physicsWorld (resetPhysicsWorld a)
    = option_map PhysicsWorld.resetPhysicsTiming (physicsWorld a) /\
  isMuted (resetPhysicsWorld a) = isMuted a.
Proof. unfold resetPhysicsWorld. cbn. conjs; reflexivity. Qed.

Lemma resetControlsState_world (a : App) :
  physicsWorld (resetControlsState a) = physicsWorld a /\
  clock (resetControlsState a) = clock a.
Proof.
  destruct (resetControlsState_others a) as (_ & _ & Hk & _ & _ & Hw & _).
  now split.
Qed.

(** X19.  Return to the main menu.  After [returnToMainMenu] the phase is
    the start menu; the scores, the collected counter, the scales and the
    winner are cleared; the level is kept but no longer selected; the
    game is unpaused with the settings closed; the input is disabled, the
    direction zero and the "player has moved" flag down; the timing of
    the physics loop is reset.  The physics clock is not touched: a clock
    that [pauseGame] has paused stays paused. *)
Theorem returnToMainMenu_result (o : Oracle) (a : App) :
  PowerUp.phase (round (returnToMainMenu o a)) = Game.start_menu /\
  GameManager.scoresCleared (PowerUp.store (round (returnToMainMenu o a))) /\
  PowerUp.powerUpsCollected (PowerUp.pending (powerUp (returnToMainMenu o a))) = 0%nat /\
  Ball.scale (PowerUp.ball (round (returnToMainMenu o a))) = 1 /\
  PowerUp.aiScales (round (returnToMainMenu o a))
    = AIBallScaleStore.mkAIBallScaleState ∅ ∅ /\
  PowerUp.win (round (returnToMainMenu o a)) = WinStore.noWinner /\
  difficulty (returnToMainMenu o a)
    = Difficulty.mkDifficultyState (Difficulty.level (difficulty a)) false /\
  pause (returnToMainMenu o a) = PauseStore.mkPauseState false false /\
  controls (returnToMainMenu o a)
    = Controls.mkControlsState 0 0 false false (Controls.movementForce (controls a)) /\
  clock (returnToMainMenu o a) = clock a /\
  physicsWorld (returnToMainMenu o a)
    = option_map PhysicsWorld.resetPhysicsTiming (physicsWorld a) /\
  isMuted (returnToMainMenu o a) = isMuted a.
Proof.
  rewrite returnToMainMenu_steps.
  match goal with |- context [resetCameraDirection ?x] =>
    destruct (menu_suffix_fields x)
      as (Hph9 & Hwin9 & Hs9 & Hb9 & Hsc9 & Hpu9 & Hc9 & Hk9 & Hd9 & Hp9 & Hw9 & Hm9)
  end.
  rewrite Hph9, Hwin9, Hs9, Hb9, Hsc9, Hpu9, Hc9, Hk9, Hd9, Hp9, Hw9, Hm9.
  clear Hph9 Hwin9 Hs9 Hb9 Hsc9 Hpu9 Hc9 Hk9 Hd9 Hp9 Hw9 Hm9.
  match goal with |- context [resetControlsState ?x] =>
    destruct (resetControlsState_others x) as (Hr5 & Hpu5 & Hk5 & Hd5 & _ & Hw5 & Hm5);
    pose proof (resetControlsState_controls x) as Hc5
  end.
  rewrite Hr5, Hpu5, Hk5, Hd5, Hw5, Hm5, Hc5. clear Hr5 Hpu5 Hk5 Hd5 Hw5 Hm5 Hc5.
  match goal with |- context [resetBallState ?x] =>
    destruct (reset_of_balls_and_powerup o x)
      as (Hs & Hb & Hk & Hpu & _ & _ & Hc & Hcl & Hd & _ & Hpw & Hm)
  end.
  rewrite Hb, Hk, Hpu, Hc, Hcl, Hd, Hpw, Hm.
  destruct (resetPhysicsWorld_fields (resetPointerLockState a))
    as (Hr1 & _ & Hc1 & Hk1 & Hd1 & _ & Hw1 & Hm1).
  rewrite Hc1, Hk1, Hd1, Hw1, Hm1.
  destruct (resetPointerLockState_fields a)
    as (_ & _ & _ & _ & _ & _ & Hw0 & Hc0 & Hk0 & Hd0 & _ & Hm0 & _).
  rewrite Hw0, Hc0, Hk0, Hd0, Hm0.
  conjs; try reflexivity. exact Hs.
Qed.

End GameManagerMenuProps.

Module GameManagerSameLevelProps.
Import GameManager.

Lemma sameLevel_restartGame_steps (o : Oracle) (a : App) :
  GameManagerSameLevel.restartGame o a =
    onRound (onPhase Game.start)
      (GameManagerSameLevel.resetControlsState (resetPowerups
         (resetBallPositions o (resetAIBallState (resetBallState
            (GameManagerSameLevel.resetPhysicsWorld
               (resetGameState (resetCameraDirection (resetPointerLockState a))))))))).
Proof. reflexivity. Qed.

Lemma sameLevel_prefix_fields (a : App) :
  PowerUp.ball (round (GameManagerSameLevel.resetPhysicsWorld
      (resetGameState (resetCameraDirection (resetPointerLockState a)))))
    = PowerUp.ball (round a) /\
  PowerUp.win (round (GameManagerSameLevel.resetPhysicsWorld
      (resetGameState (resetCameraDirection (resetPointerLockState a)))))
    = WinStore.noWinner /\
  PowerUp.phase (round (GameManagerSameLevel.resetPhysicsWorld
      (resetGameState (resetCameraDirection (resetPointerLockState a)))))
    = Game.ready /\
  controls (GameManagerSameLevel.resetPhysicsWorld
      (resetGameState (resetCameraDirection (resetPointerLockState a)))) = controls a /\
  clock (GameManagerSameLevel.resetPhysicsWorld
      (resetGameState (resetCameraDirection (resetPointerLockState a)))) = clock a /\
  difficulty (GameManagerSameLevel.resetPhysicsWorld
      (resetGameState (resetCameraDirection (resetPointerLockState a)))) = difficulty a /\
  pause (GameManagerSameLevel.resetPhysicsWorld
      (resetGameState (resetCameraDirection (resetPointerLockState a)))) = pause a /\
  physicsWorld (GameManagerSameLevel.resetPhysicsWorld
      (resetGameState (resetCameraDirection (resetPointerLockState a))))
    = physicsWorld a.
Proof.
  unfold GameManagerSameLevel.resetPhysicsWorld, resetGameState, resetCameraDirection.
  cbv zeta.
  destruct (GameManagerMenuProps.resetPointerLockState_fields a)
    as (_ & _ & _ & Hr & _ & _ & Hw & Hc & Hk & Hd & Hp & _).
  cbn. rewrite Hr, Hw, Hc, Hk, Hd, Hp. conjs; reflexivity.
Qed.

Lemma sameLevel_resetControlsState_fields (a : App) :
  round (GameManagerSameLevel.resetControlsState a) = round a /\
  powerUp (GameManagerSameLevel.resetControlsState a) = powerUp a /\
  clock (GameManagerSameLevel.resetControlsState a) = clock a /\
  difficulty (GameManagerSameLevel.resetControlsState a) = difficulty a /\
  pause (GameManagerSameLevel.resetControlsState a) = pause a /\
  physicsWorld (GameManagerSameLevel.resetControlsState a) = physicsWorld a /\
  Controls.hasPlayerStartedMoving (controls (GameManagerSameLevel.resetControlsState a))
    = false /\
  Controls.isInputEnabled (controls (GameManagerSameLevel.resetControlsState a))
    = Controls.isInputEnabled (controls a) /\
  Controls.movementForce (controls (GameManagerSameLevel.resetControlsState a))
    = Controls.movementForce (controls a) /\
  Controls.directionX (controls (GameManagerSameLevel.resetControlsState a)) == 0 /\
  Controls.directionZ (controls (GameManagerSameLevel.resetControlsState a)) == 0.
Proof.
  unfold GameManagerSameLevel.resetControlsState. cbv zeta.
  destruct (Controls.hasPlayerStartedMoving (controls a)) eqn:Hf;
    cbn; unfold Controls.setMovementDirection, Controls.nonzero;
    destruct (Controls.isInputEnabled (controls a)) eqn:He; cbn [negb];
    try (destruct (Qeq_bool (Controls.directionX (controls a)) 0) eqn:Hx;
         destruct (Qeq_bool (Controls.directionZ (controls a)) 0) eqn:Hz);
    cbn; rewrite ?Hf, ?He; conjs; try reflexivity;
    try (now apply Qeq_bool_iff).
Qed.

Lemma start_from_ready_fields (x : App) :
  PowerUp.phase (round x) = Game.ready ->
  PowerUp.phase (round (onRound (onPhase Game.start) x)) = Game.playing.
Proof. intros H. cbn. now rewrite H. Qed.

Lemma onPhase_fields (f : Game.GamePhase -> Game.GamePhase) (x : App) :
  PowerUp.store (round (onRound (onPhase f) x)) = PowerUp.store (round x) /\
  PowerUp.ball (round (onRound (onPhase f) x)) = PowerUp.ball (round x) /\
  PowerUp.aiScales (round (onRound (onPhase f) x)) = PowerUp.aiScales (round x) /\
  PowerUp.win (round (onRound (onPhase f) x)) = PowerUp.win (round x) /\
  powerUp (onRound (onPhase f) x) = powerUp x /\
  controls (onRound (onPhase f) x) = controls x /\
  clock (onRound (onPhase f) x) = clock x /\
  difficulty (onRound (onPhase f) x) = difficulty x /\
  pause (onRound (onPhase f) x) = pause x /\
  physicsWorld (onRound (onPhase f) x) = physicsWorld x.
Proof. cbn. conjs; reflexivity. Qed.

(** X20.  The older restart of [GameManagerSameLevel].  From any phase,
    [GameManagerSameLevel.restartGame] ends in the playing phase with the
    difficulty, the pause state and the physics clock as they were and
    the timing of the physics loop not reset; the scores, the collected
    counter, the scales and the winner are cleared, the direction is zero
    and the "player has moved" flag is down, and the input stays enabled
    or disabled as it was. *)
Theorem sameLevel_restart_plays_on (o : Oracle) (a : App) :
  PowerUp.phase (round (GameManagerSameLevel.restartGame o a)) = Game.playing /\
  GameManager.scoresCleared
    (PowerUp.store (round (GameManagerSameLevel.restartGame o a))) /\
  PowerUp.powerUpsCollected
    (PowerUp.pending (powerUp (GameManagerSameLevel.restartGame o a))) = 0%nat /\
  Ball.scale (PowerUp.ball (round (GameManagerSameLevel.restartGame o a))) = 1 /\
  PowerUp.aiScales (round (GameManagerSameLevel.restartGame o a))
    = AIBallScaleStore.mkAIBallScaleState ∅ ∅ /\
  PowerUp.win (round (GameManagerSameLevel.restartGame o a)) = WinStore.noWinner /\
  difficulty (GameManagerSameLevel.restartGame o a) = difficulty a /\
  pause (GameManagerSameLevel.restartGame o a) = pause a /\
  clock (GameManagerSameLevel.restartGame o a) = clock a /\
  physicsWorld (GameManagerSameLevel.restartGame o a) = physicsWorld a /\
  Controls.hasPlayerStartedMoving (controls (GameManagerSameLevel.restartGame o a))
    = false /\
  Controls.isInputEnabled (controls (GameManagerSameLevel.restartGame o a))
    = Controls.isInputEnabled (controls a) /\
  Controls.directionX (controls (GameManagerSameLevel.restartGame o a)) == 0 /\
  Controls.directionZ (controls (GameManagerSameLevel.restartGame o a)) == 0.
Proof.
  rewrite sameLevel_restartGame_steps.
  match goal with |- context [onRound (onPhase Game.start) ?x] =>
    destruct (onPhase_fields Game.start x)
      as (Hs9 & Hb9 & Hk9 & Hw9 & Hpu9 & Hc9 & Hcl9 & Hd9 & Hp9 & Hpw9);
    pose proof (start_from_ready_fields x) as Hph9
  end.
  rewrite Hs9, Hb9, Hk9, Hw9, Hpu9, Hc9, Hcl9, Hd9, Hp9, Hpw9.
  clear Hs9 Hb9 Hk9 Hw9 Hpu9 Hc9 Hcl9 Hd9 Hp9 Hpw9.
  match goal with |- context [GameManagerSameLevel.resetControlsState ?x] =>
    destruct (sameLevel_resetControlsState_fields x)
      as (Hr5 & Hpu5 & Hk5 & Hd5 & Hp5 & Hw5 & Hf5 & He5 & _ & Hx5 & Hz5)
  end.
  rewrite Hr5 in Hph9. rewrite Hr5, Hpu5, Hk5, Hd5, Hp5, Hw5, Hf5, He5.
  match goal with |- context [resetBallState ?x] =>
    destruct (GameManagerMenuProps.reset_of_balls_and_powerup o x)
      as (Hs & Hb & Hk & Hpu & Hw & Hph & Hc & Hcl & Hd & Hp & Hpw & _)
  end.
  rewrite Hph in Hph9. rewrite Hb, Hk, Hpu, Hw, Hc, Hcl, Hd, Hp, Hpw.
  destruct (sameLevel_prefix_fields a) as (Hb0 & Hw0 & Hph0 & Hc0 & Hk0 & Hd0 & Hp0 & Hpw0).
  rewrite Hw0, Hc0, Hk0, Hd0, Hp0, Hpw0.
  conjs; try reflexivity.
  - apply Hph9. exact Hph0.
  - exact Hs.
  - exact Hx5.
  - exact Hz5.
Qed.

Lemma restartGame_steps (o : Oracle) (a : App) :
  restartGame o a =
    resumeGame o
      (resetDifficultySelection (resetPhysicsClock o
         (resetControlsState (resetPowerups
            (resetBallPositions o (resetAIBallState (resetBallState
               (resetPhysicsWorld
                  (resetGameState (resetCameraDirection
                     (resetPointerLockState a)))))))))))
.
Proof.
  unfold restartGame. cbv zeta. rewrite Bool.eqb_reflx. reflexivity.
Qed.

Lemma restart_prefix_fields (a : App) :
  PowerUp.win (round (resetPhysicsWorld
      (resetGameState (resetCameraDirection (resetPointerLockState a)))))
    = WinStore.noWinner /\
  PowerUp.phase (round (resetPhysicsWorld
      (resetGameState (resetCameraDirection (resetPointerLockState a)))))
    = Game.ready /\
  controls (resetPhysicsWorld
      (resetGameState (resetCameraDirection (resetPointerLockState a)))) = controls a /\
  difficulty (resetPhysicsWorld
      (resetGameState (resetCameraDirection (resetPointerLockState a)))) = difficulty a /\
  pause (resetPhysicsWorld
      (resetGameState (resetCameraDirection (resetPointerLockState a)))) = pause a.
Proof.
  unfold resetPhysicsWorld, resetGameState, resetCameraDirection. cbv zeta.
  destruct (GameManagerMenuProps.resetPointerLockState_fields a)
    as (_ & _ & _ & Hr & _ & _ & _ & Hc & _ & Hd & Hp & _).
  cbn. rewrite Hr, Hc, Hd, Hp. conjs; reflexivity.
Qed.

Lemma difficulty_clock_fields (o : Oracle) (x : App) :
  round (resetDifficultySelection (resetPhysicsClock o x)) = round x /\
  controls (resetDifficultySelection (resetPhysicsClock o x)) = controls x /\
  pause (resetDifficultySelection (resetPhysicsClock o x)) = pause x /\
  difficulty (resetDifficultySelection (resetPhysicsClock o x))
    = Difficulty.mkDifficultyState (Difficulty.level (difficulty x)) false /\
  clock (resetDifficultySelection (resetPhysicsClock o x))
    = PhysicsClock.mkPhysicsClockState (clockResetAt o / 1000) false 0 None false.
Proof.
  unfold resetDifficultySelection, resetPhysicsClock. cbn. conjs; reflexivity.
Qed.

Lemma level_then_start (l : Difficulty.DifficultyLevel) (x : App) :
  PowerUp.phase
    (round (onRound (onPhase Game.start) (onDifficulty (Difficulty.setDifficulty l) x)))
  = Game.start (PowerUp.phase (round x)).
Proof. reflexivity. Qed.

(** X21.  "Play again" returns to the level selection.  After
    [GameManager.restartGame], from any state, the phase is ready and no
    level is selected (the level itself is kept), so the level selection
    is shown and the round starts only with the next choice of a level;
    there is no winner, the game is not paused, and the input is
    disabled. *)
Theorem restartGame_returns_to_level_selection (o : Oracle) (a : App) :
  PowerUp.phase (round (restartGame o a)) = Game.ready /\
  difficulty (restartGame o a)
    = Difficulty.mkDifficultyState (Difficulty.level (difficulty a)) false /\
  PowerUp.win (round (restartGame o a)) = WinStore.noWinner /\
  PauseStore.isPaused (pause (restartGame o a)) = false /\
  controls (restartGame o a)
    = Controls.mkControlsState 0 0 false false (Controls.movementForce (controls a)) /\
  (forall l,
     PowerUp.phase
       (round (onRound (onPhase Game.start)
                 (onDifficulty (Difficulty.setDifficulty l) (restartGame o a))))
     = Game.playing).
Proof.
  assert (Hmain :
    PowerUp.phase (round (restartGame o a)) = Game.ready /\
    difficulty (restartGame o a)
      = Difficulty.mkDifficultyState (Difficulty.level (difficulty a)) false /\
    PowerUp.win (round (restartGame o a)) = WinStore.noWinner /\
    PauseStore.isPaused (pause (restartGame o a)) = false /\
    controls (restartGame o a)
      = Controls.mkControlsState 0 0 false false (Controls.movementForce (controls a))).
  { rewrite restartGame_steps.
    match goal with |- context [resumeGame o ?x] =>
      destruct (GameManagerMenuProps.resumeGame_fields o x)
        as (Hr8 & _ & Hd8 & _ & Hp8 & Hc8)
    end.
    rewrite Hr8, Hd8, Hp8, Hc8. clear Hr8 Hd8 Hp8 Hc8.
    match goal with |- context [resetPhysicsClock o ?x] =>
      destruct (difficulty_clock_fields o x) as (Hr7 & Hc7 & Hp7 & Hd7 & _)
    end.
    rewrite Hr7, Hc7, Hp7, Hd7. clear Hr7 Hc7 Hp7 Hd7.
    match goal with |- context [resetControlsState ?x] =>
      destruct (GameManagerMenuProps.resetControlsState_others x)
        as (Hr5 & _ & _ & Hd5 & Hp5 & _);
      pose proof (GameManagerMenuProps.resetControlsState_controls x) as Hc5
    end.
    rewrite Hr5, Hd5, Hp5, Hc5. clear Hr5 Hd5 Hp5 Hc5.
    match goal with |- context [resetBallState ?x] =>
      destruct (GameManagerMenuProps.reset_of_balls_and_powerup o x)
        as (_ & _ & _ & _ & Hw & Hph & Hc & _ & Hd & Hp & _)
    end.
    rewrite Hw, Hph, Hc, Hd, Hp.
    destruct (restart_prefix_fields a) as (Hw0 & Hph0 & Hc0 & Hd0 & Hp0).
    rewrite Hw0, Hph0, Hc0, Hd0, Hp0.
    cbn [Difficulty.hasSelectedLevel andb].
    rewrite andb_false_r.
    conjs; reflexivity. }
  destruct Hmain as (Hph & Hd & Hw & Hp & Hc).
  conjs; try assumption.
  intros l. rewrite (level_then_start l (restartGame o a)), Hph. reflexivity.
Qed.

End GameManagerSameLevelProps.

(** ** The speed booster store *)

Module SpeedBoosterProps.
Import SpeedBooster.

Local Open Scope Z_scope.

Lemma calls_cons (c : Call) (cs : list Call) (s : SpeedBoosterState) :
  calls (c :: cs) s = calls cs (call c s).
Proof. reflexivity. Qed.

(** What one call of a session does to the inventory and to the flag
    [hasBeenUsed]. *)
Lemma session_call (c : Call) (s : SpeedBoosterState) :
  inSession c = true ->
  (hasBeenUsed (call c s) = hasBeenUsed s /\ boosterCount (call c s) = boosterCount s)
  \/ (hasBeenUsed s = false /\ hasBeenUsed (call c s) = true /\
      boosterCount (call c s) = boosterCount s - 1).
Proof.
  destruct c as [now| |count|applied|t]; cbn [inSession call]; try discriminate; intros _.
  - unfold activateBooster.
    destruct (0 <? boosterCount s); destruct (isActive s);
      destruct (hasBeenUsed s) eqn:Hu; cbn; rewrite ?Hu; auto.
  - left. split; reflexivity.
  - left. unfold updateBoosterState.
    destruct (isActive s && isSet (activationEndTime s)); [|auto].
    cbv zeta. destruct (_ <=? 0); [split; reflexivity|].
    destruct (negb _); split; reflexivity.
Qed.

(** The value [Math.ceil] gives during the boost. *)
Lemma ceilSeconds_boost (r : Z) :
  0 < r <= 1500 -> ceilSeconds r = if 1000 <? r then 2 else 1.
Proof.
  intros Hr. unfold ceilSeconds.
  destruct (Z.ltb_spec 1000 r) as [H|H]; Z.div_mod_to_equations; lia.
Qed.

Lemma ceilSeconds_positive (r : Z) : 0 < r -> 1 <= ceilSeconds r.
Proof. intros Hr. unfold ceilSeconds. Z.div_mod_to_equations. lia. Qed.

(** One frame during the boost: only the countdown can change. *)
Lemma update_during_boost (cnt e k t : Z) :
  e <> 0 -> e - 1500 <= t < e ->
  updateBoosterState t (mkSpeedBoosterState cnt true true (Some e) k false)
  = mkSpeedBoosterState cnt true true (Some e) (if t <? e - 1000 then 2 else 1) false.
Proof.
  intros He Ht. unfold updateBoosterState.
  cbn [isActive activationEndTime isSet numberOf andb countdownDisplay boosterCount
       hasBeenUsed dashApplied].
  destruct (Z.eqb_spec e 0) as [E|_]; [contradiction|]. cbn [negb]. cbv zeta.
  destruct (Z.leb_spec (e - t) 0) as [H|_]; [lia|].
  rewrite (ceilSeconds_boost (e - t)) by lia.
  assert (Hsame : (if 1000 <? e - t then 2 else 1) = (if t <? e - 1000 then 2 else 1)).
  { destruct (Z.ltb_spec 1000 (e - t)), (Z.ltb_spec t (e - 1000)); lia. }
  rewrite Hsame.
  destruct (Z.eqb_spec (if t <? e - 1000 then 2 else 1) k) as [E|E]; cbn [negb].
  - now rewrite E.
  - reflexivity.
Qed.

Lemma frames_during_boost (times : list Z) :
  forall cnt e k : Z,
  e <> 0 -> List.Forall (fun t => e - 1500 <= t < e) times ->
  frames times (mkSpeedBoosterState cnt true true (Some e) k false)
  = mkSpeedBoosterState cnt true true (Some e)
      (match times with
       | [] => k
       | _ => if List.last times 0 <? e - 1000 then 2 else 1
       end) false.
Proof.
  induction times as [|t rest IH]; intros cnt e k He Hall.
  - reflexivity.
  - inversion Hall as [|t' rest' Ht Hrest]; subst.
    unfold frames in *. cbn [List.map]. rewrite calls_cons. cbn [call].
    rewrite (update_during_boost cnt e k t He Ht).
    rewrite (IH cnt e _ He Hrest).
    destruct rest as [|t2 rest2]; reflexivity.
Qed.

(** The last element of a list that is not empty, whatever the default. *)
Lemma last_default (l : list Z) :
  forall t d d' : Z, List.last (t :: l) d = List.last (t :: l) d'.
Proof.
  induction l as [|t2 l IH]; intros t d d'; [reflexivity|].
  change (List.last (t2 :: l) d = List.last (t2 :: l) d'). apply IH.
Qed.

(** What the store keeps whatever is called, as one invariant. *)
Definition wellFormed (s : SpeedBoosterState) : Prop :=
  (isActive s = true ->
     hasBeenUsed s = true /\ exists e, activationEndTime s = Some e) /\
  (isActive s = false -> activationEndTime s = None /\ countdownDisplay s = 2) /\
  1 <= countdownDisplay s.

Lemma wellFormed_call (c : Call) (s : SpeedBoosterState) :
  wellFormed s -> wellFormed (call c s).
Proof.
  intros (Hact & Hidle & Hshown).
  destruct c as [now| |count|applied|t]; cbn [call].
  - unfold activateBooster.
    destruct ((0 <? boosterCount s) && negb (isActive s) && negb (hasBeenUsed s)).
    + cbv zeta. unfold wellFormed. cbn. conjs.
      * intros _. split; [reflexivity|now eexists].
      * discriminate.
      * lia.
    + unfold wellFormed. auto.
  - unfold wellFormed, resetBooster. cbn. conjs.
    + discriminate.
    + intros _. split; reflexivity.
    + lia.
  - unfold wellFormed, setBoosterCount. cbn. auto.
  - unfold wellFormed, setDashApplied. cbn. auto.
  - unfold updateBoosterState.
    destruct (isActive s) eqn:Ha; cbn [andb]; [|unfold wellFormed; rewrite Ha; auto].
    destruct (isSet (activationEndTime s)); [|unfold wellFormed; rewrite Ha; auto].
    cbv zeta.
    destruct (Z.leb_spec (numberOf (activationEndTime s) - t) 0) as [H|H].
    + unfold wellFormed. cbn. conjs.
      * discriminate.
      * intros _. split; reflexivity.
      * lia.
    + destruct (negb _); [|unfold wellFormed; rewrite Ha; auto].
      unfold wellFormed. cbn. conjs.
      * intros _. now apply Hact.
      * discriminate.
      * now apply ceilSeconds_positive.
Qed.

(** X22.  One booster per game session: over any calls other than
    [resetBooster] and [setBoosterCount], the inventory drops by exactly
    one if the booster went from unused to used and stays as it is
    otherwise, and a used booster stays used. *)
Theorem one_booster_per_session (cs : list Call) :
  forall s : SpeedBoosterState,
  List.forallb inSession cs = true ->
  boosterCount (calls cs s)
    = boosterCount s - (if hasBeenUsed (calls cs s) && negb (hasBeenUsed s) then 1 else 0)
  /\ (hasBeenUsed s = true -> hasBeenUsed (calls cs s) = true).
Proof.
  induction cs as [|c cs IH]; intros s Hall.
  - cbn. split; [|auto]. destruct (hasBeenUsed s); cbn; lia.
  - cbn [List.forallb] in Hall. apply andb_true_iff in Hall. destruct Hall as [Hc Hcs].
    rewrite calls_cons. destruct (IH (call c s) Hcs) as [Hcount Hused].
    destruct (session_call c s Hc) as [[Hu Hb]|(Hu0 & Hu1 & Hb)].
    + rewrite Hcount, Hu, Hb. split; [reflexivity|].
      intros H. apply Hused. now rewrite Hu.
    + rewrite Hcount, Hu0, Hu1, Hb, (Hused Hu1). cbn. split; [lia|discriminate].
Qed.

Lemma one_booster_per_session_witness :
  boosterCount
    (calls [ActivateBooster 1000; UpdateBoosterState 1800; ActivateBooster 1900;
            UpdateBoosterState 2600; ActivateBooster 3000] initialBooster) = 9.
Proof.
  destruct (one_booster_per_session
              [ActivateBooster 1000; UpdateBoosterState 1800; ActivateBooster 1900;
               UpdateBoosterState 2600; ActivateBooster 3000] initialBooster)
    as [Hcount _]; [reflexivity|].
  rewrite Hcount. reflexivity.
Defined.

(** X23.  A boost lasts 1500 ms.  After an activation at [now] that
    succeeds, frames at times within the next 1500 ms leave the booster
    active and show 2 until 500 ms have passed and 1 afterwards; the first
    frame at or after [now + 1500] ends the boost and leaves the booster
    used, with one booster less. *)
Theorem boost_lasts_1500_ms (now : Z) (times : list Z) (s : SpeedBoosterState) :
  0 <= now ->
  0 < boosterCount s -> isActive s = false -> hasBeenUsed s = false ->
  List.Forall (fun t => now <= t < now + 1500) times ->
  let boosted := frames times (activateBooster now s) in
  isActive boosted = true /\
  countdownDisplay boosted = (if List.last times now <? now + 500 then 2 else 1) /\
  forall t, now + 1500 <= t ->
    updateBoosterState t boosted
    = mkSpeedBoosterState (boosterCount s - 1) false true None 2 false.
Proof.
  intros Hnow Hcount Hidle Hunused Hall boosted.
  assert (Hact : activateBooster now s
                 = mkSpeedBoosterState (boosterCount s - 1) true true
                     (Some (now + 1500)) 2 false).
  { unfold activateBooster. rewrite Hidle, Hunused.
    destruct (Z.ltb_spec 0 (boosterCount s)) as [_|H]; [reflexivity|lia]. }
  assert (Hframes : boosted
                    = mkSpeedBoosterState (boosterCount s - 1) true true
                        (Some (now + 1500))
                        (if List.last times now <? now + 500 then 2 else 1) false).
  { unfold boosted. rewrite Hact, frames_during_boost.
    - f_equal. destruct times as [|t rest].
      + cbn. destruct (Z.ltb_spec now (now + 500)); [reflexivity|lia].
      + replace (now + 1500 - 1000) with (now + 500) by lia.
        now rewrite (last_default rest t 0 now).
    - lia.
    - eapply List.Forall_impl; [|exact Hall]. cbn. intros; lia. }
  rewrite Hframes. conjs; [reflexivity|reflexivity|].
  intros t Ht. unfold updateBoosterState.
  cbn [isActive activationEndTime isSet numberOf andb countdownDisplay boosterCount
       hasBeenUsed dashApplied].
  destruct (Z.eqb_spec (now + 1500) 0) as [E|_]; [lia|]. cbn [negb]. cbv zeta.
  destruct (Z.leb_spec (now + 1500 - t) 0) as [_|H]; [reflexivity|lia].
Qed.

Lemma boost_lasts_1500_ms_witness :
  countdownDisplay
    (frames [1016; 1400; 1600; 2499] (activateBooster 1000 initialBooster)) = 1.
Proof.
  destruct (boost_lasts_1500_ms 1000 [1016; 1400; 1600; 2499] initialBooster)
    as (_ & Hshown & _).
  - lia.
  - reflexivity.
  - reflexivity.
  - reflexivity.
  - repeat constructor; lia.
  - exact Hshown.
Defined.

(** X24.  The inventory is never refilled by the game: once it is empty
    and the booster is idle, no sequence of calls without
    [setBoosterCount] activates the booster again, also not after
    [resetBooster]. *)
Theorem empty_inventory_never_boosts (cs : list Call) :
  forall s : SpeedBoosterState,
  boosterCount s <= 0 -> isActive s = false ->
  List.forallb (fun c => negb (isSetBoosterCount c)) cs = true ->
  isActive (calls cs s) = false /\ boosterCount (calls cs s) = boosterCount s.
Proof.
  induction cs as [|c cs IH]; intros s Hempty Hidle Hall.
  - split; [exact Hidle|reflexivity].
  - cbn [List.forallb] in Hall. apply andb_true_iff in Hall. destruct Hall as [Hc Hcs].
    rewrite calls_cons.
    assert (Hstep : isActive (call c s) = false /\ boosterCount (call c s) = boosterCount s).
    { destruct c as [now| |count|applied|t]; cbn [call isSetBoosterCount negb] in *;
        try discriminate.
      - unfold activateBooster.
        destruct (Z.ltb_spec 0 (boosterCount s)) as [H|_]; [lia|]. cbn. auto.
      - split; reflexivity.
      - split; [exact Hidle|reflexivity].
      - unfold updateBoosterState. rewrite Hidle. cbn. auto. }
    destruct Hstep as [Hidle' Hcount'].
    destruct (IH (call c s)) as [Hi Hb]; [lia|exact Hidle'|exact Hcs|].
    split; [exact Hi|lia].
Qed.

Lemma empty_inventory_never_boosts_witness :
  isActive
    (calls [ResetBooster; ActivateBooster 5000; UpdateBoosterState 5016]
       (mkSpeedBoosterState 0 false true None 2 false)) = false.
Proof.
  apply (empty_inventory_never_boosts
           [ResetBooster; ActivateBooster 5000; UpdateBoosterState 5016]
           (mkSpeedBoosterState 0 false true None 2 false)).
  - cbn. lia.
  - reflexivity.
  - reflexivity.
Defined.

(** X25.  Whatever is called on the store from its initial state, an
    active booster has been used and has an end time, an idle booster has
    no end time and shows 2, and the countdown shown is never below 1. *)
Theorem booster_store_invariants (cs : list Call) :
  let s := calls cs initialBooster in
  (isActive s = true ->
     hasBeenUsed s = true /\ exists e, activationEndTime s = Some e) /\
  (isActive s = false -> activationEndTime s = None /\ countdownDisplay s = 2) /\
  1 <= countdownDisplay s.
Proof.
  cbv zeta. change (wellFormed (calls cs initialBooster)).
  assert (Hgen : forall s, wellFormed s -> wellFormed (calls cs s)).
  { induction cs as [|c cs IH]; intros s Hs; [exact Hs|].
    rewrite calls_cons. apply IH. now apply wellFormed_call. }
  apply Hgen. unfold wellFormed, initialBooster. cbn. conjs.
  - discriminate.
  - intros _. split; reflexivity.
  - lia.
Qed.

End SpeedBoosterProps.

(** ** The controls store over sequences of actions, and the forces of a frame *)

Module ControlsProps.
Import Controls.

(** Input disabled means the stored direction is zero. *)
Definition atRest (s : ControlsState) : Prop :=
  isInputEnabled s = false -> directionX s == 0 /\ directionZ s == 0.

Lemma nonzero_false (x : Q) : nonzero x = false -> x == 0.
Proof.
  unfold nonzero. intros H. apply negb_false_iff in H. now apply Qeq_bool_iff.
Qed.

Lemma atRest_act (a : Action) (s : ControlsState) : atRest s -> atRest (act a s).
Proof.
  intros Hs. destruct a as [x z| | | |force]; cbn [act].
  - unfold setMovementDirection.
    destruct (isInputEnabled s) eqn:He; cbn [negb].
    + unfold atRest. cbn. discriminate.
    + destruct (nonzero (directionX s) || nonzero (directionZ s)).
      * unfold atRest. cbn. intros _. split; reflexivity.
      * exact Hs.
  - unfold atRest. cbn. discriminate.
  - unfold atRest. cbn. intros _. split; reflexivity.
  - unfold atRest. cbn. intros _. split; reflexivity.
  - exact Hs.
Qed.

(** X26.  While input is disabled the stored movement direction is zero:
    this holds after any sequence of actions of the controls store from a
    state where it holds, and a [setMovementDirection] made while input is
    disabled stores zero whatever it is given and never raises
    [hasPlayerStartedMoving]. *)
Theorem direction_zero_while_disabled (acts : list Action) (s : ControlsState) :
  (isInputEnabled s = false -> directionX s == 0 /\ directionZ s == 0) ->
  (isInputEnabled (GameManager.actAll acts s) = false ->
     directionX (GameManager.actAll acts s) == 0 /\
     directionZ (GameManager.actAll acts s) == 0) /\
  forall x z,
    isInputEnabled (GameManager.actAll acts s) = false ->
    let s' := setMovementDirection x z (GameManager.actAll acts s) in
    directionX s' == 0 /\ directionZ s' == 0 /\
    hasPlayerStartedMoving s' = hasPlayerStartedMoving (GameManager.actAll acts s).
Proof.
  intros Hs.
  assert (Hall : atRest (GameManager.actAll acts s)).
  { revert s Hs. induction acts as [|a acts IH]; intros s Hs; [exact Hs|].
    unfold GameManager.actAll in *. cbn [List.fold_left]. apply IH.
    now apply atRest_act. }
  split; [exact Hall|].
  intros x z Hoff. cbv zeta. destruct (Hall Hoff) as [Hx Hz].
  unfold setMovementDirection. rewrite Hoff. cbn [negb].
  destruct (nonzero (directionX (GameManager.actAll acts s))
            || nonzero (directionZ (GameManager.actAll acts s))); cbn; conjs;
    solve [reflexivity | assumption].
Qed.

Lemma direction_zero_while_disabled_witness :
  directionX
    (GameManager.actAll
       [EnableInput; SetMovementDirection 1 (-1); DisableInput;
        SetMovementDirection 0 1] initialControls) == 0.
Proof.
  apply (direction_zero_while_disabled
           [EnableInput; SetMovementDirection 1 (-1); DisableInput;
            SetMovementDirection 0 1] initialControls).
  - intros _. split; reflexivity.
  - reflexivity.
Defined.

End ControlsProps.

Module ForceTimingProps.
Import ForceTiming.

Lemma safeDeltatime_range (deltaTime : Q) :
  let safe := if Qltb (1 # 1000) deltaTime then deltaTime else 1 # 60 in
  (1 # 1000) < safe /\ (deltaTime <= (1 # 1000) -> safe = 1 # 60) /\
  ((1 # 1000) < deltaTime -> safe = deltaTime).
Proof.
  cbv zeta. destruct (Qltb (1 # 1000) deltaTime) eqn:H.
  - apply Qltb_true in H. conjs; [exact H| |reflexivity]. intros; exfalso; lra.
  - assert (Hle : ~ (1 # 1000) < deltaTime).
    { intros Hlt. apply Qltb_true in Hlt. congruence. }
    conjs; [lra|reflexivity|]. intros; contradiction.
Qed.

(** X27.  The force that moves the player is bounded whatever the frame
    delay: the compensation factor lies above 0.06 and is at most 4, it is
    [60 * deltaTime] for delays between 1 ms and 1/15 s, 1 for a delay of
    at most 1 ms, and 4 for every longer delay; so a force
    [movementForce * mass] that is not negative is multiplied by at most 4. *)
Theorem player_force_capped (movementForce mass deltaTime : Q) :
  0 <= movementForce * mass ->
  (3 # 50) < playerFrameCompensation deltaTime <= 4 /\
  (deltaTime <= (1 # 1000) -> playerFrameCompensation deltaTime == 1) /\
  ((1 # 1000) < deltaTime <= (1 # 15) ->
     playerFrameCompensation deltaTime == 60 * deltaTime) /\
  ((1 # 15) <= deltaTime -> playerFrameCompensation deltaTime == 4) /\
  0 <= playerScaledForce movementForce mass deltaTime <= 4 * (movementForce * mass).
Proof.
  intros Hforce.
  destruct (safeDeltatime_range deltaTime) as (Hlow & Hsmall & Hbig).
  unfold playerScaledForce, playerFrameCompensation. cbv zeta in *.
  set (safe := if Qltb (1 # 1000) deltaTime then deltaTime else 1 # 60) in *.
  destruct (Q.min_spec safe (1 # 15)) as [[Hlt Hmin]|[Hge Hmin]]; rewrite Hmin.
  - conjs; try lra.
    + intros H. rewrite (Hsmall H). reflexivity.
    + intros [H1 H2]. rewrite (Hbig H1). lra.
    + intros H. assert (E : safe = deltaTime) by (apply Hbig; lra). rewrite E in Hlt. lra.
    + nra.
    + nra.
  - conjs; try lra.
    + intros H. rewrite (Hsmall H) in Hge. lra.
    + intros [H1 H2]. rewrite (Hbig H1) in Hge. lra.
Qed.

Lemma player_force_capped_witness :
  playerScaledForce 13 5 (1 # 2) <= 4 * (13 * 5).
Proof.
  destruct (player_force_capped 13 5 (1 # 2)) as (_ & _ & _ & _ & _ & H).
  - lra.
  - exact H.
Defined.

(** X28.  The force that steers an AI ball is bounded as well, although its
    delta time is not capped: a gap of more than 0.1 s since the last
    frame, and the first frame (the ref is still 0), count as 1/60 s, so
    the compensation factor lies above 0.06 and is at most 6, and is 1 in
    those two cases. *)
Theorem ai_force_capped (mass speedMultiplier frameTimeRef timeNow : Q) :
  0 <= mass * speedMultiplier ->
  (3 # 50) < aiFrameCompensation frameTimeRef timeNow <= 6 /\
  (frameTimeRef == 0 -> aiFrameCompensation frameTimeRef timeNow == 1) /\
  ((1 # 10) < timeNow - frameTimeRef -> aiFrameCompensation frameTimeRef timeNow == 1) /\
  0 <= aiForceMagnitude mass speedMultiplier frameTimeRef timeNow
    <= 78 * (mass * speedMultiplier).
Proof.
  intros Hforce.
  assert (Hdelta : aiDeltaTime frameTimeRef timeNow <= (1 # 10) /\
                   (frameTimeRef == 0 -> aiDeltaTime frameTimeRef timeNow = 1 # 60) /\
                   ((1 # 10) < timeNow - frameTimeRef ->
                      aiDeltaTime frameTimeRef timeNow = 1 # 60)).
  { unfold aiDeltaTime. cbv zeta.
    destruct (Qltb (1 # 10) (timeNow - frameTimeRef)) eqn:Hgap; cbn [orb].
    - conjs; [lra|reflexivity|reflexivity].
    - assert (Hle : ~ (1 # 10) < timeNow - frameTimeRef).
      { intros Hlt. apply Qltb_true in Hlt. congruence. }
      destruct (Qeq_bool frameTimeRef 0) eqn:Hzero.
      + conjs; [lra|reflexivity|reflexivity].
      + conjs; [lra| |intros; contradiction].
        intros H. apply Qeq_bool_iff in H. congruence. }
  destruct Hdelta as (Hcap & Hfirst & Hgap).
  destruct (safeDeltatime_range (aiDeltaTime frameTimeRef timeNow))
    as (Hlow & Hsmall & Hbig).
  unfold aiForceMagnitude, aiFrameCompensation, baseForce. cbv zeta in *.
  set (safe := if Qltb (1 # 1000) (aiDeltaTime frameTimeRef timeNow)
               then aiDeltaTime frameTimeRef timeNow else 1 # 60) in *.
  assert (Hhigh : safe <= (1 # 10)).
  { destruct (Qlt_le_dec (1 # 1000) (aiDeltaTime frameTimeRef timeNow)) as [H|H].
    - rewrite (Hbig H). exact Hcap.
    - rewrite (Hsmall H). lra. }
  assert (Hunit : aiDeltaTime frameTimeRef timeNow = 1 # 60 -> safe * 60 == 1).
  { intros E. assert (Es : safe = 1 # 60) by (rewrite <- E; apply Hbig; rewrite E; lra).
    rewrite Es. reflexivity. }
  conjs; try lra.
  - intros H. apply Hunit. now apply Hfirst.
  - intros H. apply Hunit. now apply Hgap.
  - nra.
  - nra.
Qed.

Lemma ai_force_capped_witness :
  aiFrameCompensation 0 (5 # 1) == 1.
Proof.
  destruct (ai_force_capped 5 (3 # 4) 0 (5 # 1)) as (_ & H & _).
  - lra.
  - apply H. reflexivity.
Defined.

End ForceTimingProps.

(** ** The AI ball scale store over sequences of calls *)

Module ScaleCallsProps.
Import AIBallScaleStore ScaleCalls.

Lemma scale_calls_cons (c : Call) (cs : list Call) (s : AIBallScaleState) :
  calls (c :: cs) s = calls cs (call c s).
Proof. reflexivity. Qed.

(** Every stored scale is at least 1. *)
Definition grown (s : AIBallScaleState) : Prop :=
  forall (i : nat) (k : Q), scales s !! i = Some k -> 1 <= k.

Lemma grown_getScale (s : AIBallScaleState) (i : nat) :
  grown s -> 1 <= getScale i s.
Proof.
  intros Hs. unfold getScale, scaleOr1.
  destruct (scales s !! i) as [k|] eqn:Hk; [|lra].
  destruct (Qeq_bool k 0); [lra|]. now apply (Hs i).
Qed.

Lemma grown_call (c : Call) (s : AIBallScaleState) : grown s -> grown (call c s).
Proof.
  intros Hs. destruct c as [i|i|]; cbn [call].
  - unfold growBall. pose proof (grown_getScale s i Hs) as Hi.
    unfold getScale in Hi.
    destruct (isGrowing s !! i) as [[|]|]; try exact Hs;
      intros j k; cbn [scales]; cbv zeta;
      (destruct (decide (i = j)) as [->|Hne];
       [rewrite lookup_insert_eq; intros [= <-]; lra
       |rewrite lookup_insert_ne by exact Hne; apply Hs]).
  - exact Hs.
  - intros j k. cbn. rewrite lookup_empty. discriminate.
Qed.

Lemma grown_calls (cs : list Call) :
  forall s, grown s -> grown (calls cs s).
Proof.
  induction cs as [|c cs IH]; intros s Hs; [exact Hs|].
  rewrite scale_calls_cons. apply IH. now apply grown_call.
Qed.

(** A call that keeps ball [i] blocked changes neither its flag nor its
    scale. *)
Lemma blocked_call (i : nat) (c : Call) (s : AIBallScaleState) :
  isGrowing s !! i = Some true -> keepsBlocked i c = true ->
  isGrowing (call c s) !! i = Some true /\ scales (call c s) !! i = scales s !! i.
Proof.
  intros Hflag Hc. destruct c as [j|j|]; cbn [call keepsBlocked] in *.
  - unfold growBall. destruct (decide (j = i)) as [->|Hne].
    + rewrite Hflag. auto.
    + destruct (isGrowing s !! j) as [[|]|]; [auto| |]; cbn [isGrowing scales]; cbv zeta;
        rewrite !lookup_insert_ne by exact Hne; auto.
  - apply negb_true_iff, Nat.eqb_neq in Hc. unfold growthCooldown. cbn.
    rewrite lookup_insert_ne by exact Hc. auto.
  - discriminate.
Qed.

(** X29.  A ball grows once per cooldown: after [growBall i], further calls
    of [growBall] (for any ball) and cooldowns of other balls leave the
    scale of ball [i] as that first call set it, until the cooldown of
    ball [i] itself has run. *)
Theorem grows_once_per_cooldown (i : nat) (cs : list Call) (s : AIBallScaleState) :
  List.forallb (keepsBlocked i) cs = true ->
  getScale i (calls (GrowBall i :: cs) s) = getScale i (growBall i s).
Proof.
  intros Hall. rewrite scale_calls_cons. cbn [call].
  assert (Hflag : isGrowing (growBall i s) !! i = Some true).
  { unfold growBall. destruct (isGrowing s !! i) as [[|]|] eqn:Hf;
      [exact Hf| |]; cbn; now rewrite lookup_insert_eq. }
  revert Hall Hflag. generalize (growBall i s) as s1. clear s.
  induction cs as [|c cs IH]; intros s1 Hall Hflag; [reflexivity|].
  cbn [List.forallb] in Hall. apply andb_true_iff in Hall. destruct Hall as [Hc Hcs].
  rewrite scale_calls_cons.
  destruct (blocked_call i c s1 Hflag Hc) as [Hflag' Hscale].
  rewrite (IH (call c s1) Hcs Hflag').
  unfold getScale, scaleOr1. now rewrite Hscale.
Qed.

Lemma grows_once_per_cooldown_witness :
  getScale 2
    (calls [GrowBall 2; GrowBall 2; GrowBall 1; GrowthCooldown 1; GrowBall 2]
       initialScales)
  = getScale 2 (growBall 2 initialScales).
Proof.
  apply (grows_once_per_cooldown 2
           [GrowBall 2; GrowBall 1; GrowthCooldown 1; GrowBall 2] initialScales).
  reflexivity.
Defined.

(** X30.  Scales only grow: whatever is called on the store from its
    initial state, every ball has a scale of at least 1 (never 0), and a
    further [growBall] or cooldown leaves each scale as it is or multiplies
    it by 5/4. *)
Theorem scales_only_grow (cs : list Call) (i j : nat) :
  let s := calls cs initialScales in
  1 <= getScale j s /\
  (getScale j (growBall i s) == getScale j s \/
   getScale j (growBall i s) == getScale j s * (5 # 4)) /\
  getScale j (growthCooldown i s) = getScale j s.
Proof.
  cbv zeta.
  assert (Hs : grown (calls cs initialScales)).
  { apply grown_calls. intros k q. cbn. rewrite lookup_empty. discriminate. }
  pose proof (grown_getScale _ j Hs) as Hj.
  conjs; [exact Hj| |reflexivity].
  unfold growBall.
  destruct (isGrowing (calls cs initialScales) !! i) as [[|]|]; [left; reflexivity| |];
    cbv zeta; unfold getScale at 1 3; cbn [scales];
    (destruct (decide (i = j)) as [->|Hne];
     [right; unfold scaleOr1 at 1; rewrite lookup_insert_eq;
      fold (getScale j (calls cs initialScales));
      destruct (Qeq_bool (getScale j (calls cs initialScales) * (5 # 4)) 0) eqn:Hz;
      [apply Qeq_bool_iff in Hz; exfalso; lra|reflexivity]
     |left; unfold scaleOr1, getScale, scaleOr1;
      rewrite lookup_insert_ne by exact Hne; reflexivity]).
Qed.

End ScaleCallsProps.
